(** * Verification of the project-analytics prediction service

    A shallow embedding of the prediction pipeline of the ML service
    (feature processors, confidence intervals, the hybrid risk predictor,
    the fallback explainer, the predictor service's batch fan-out and the
    model monitor), followed by the properties established about it.

    Conventions of the embedding.
    - Python floats are embedded as exact rationals ([Q]): arithmetic,
      comparisons and the equality of dictionary keys are exact.  Where
      binary64 rounding decides a statement, the lines concerned are given
      a second time over primitive floats (module [Binary64]).  Where
      pandas/numpy produce the special values NaN and +/-inf (missing
      data, divisions by zero) the embedding uses the type [cell], which
      carries them explicitly.
    - A Python call that may raise returns a [result]: [Ok v] or
      [Raise e].
    - scikit-learn, scipy and numpy objects that the service only calls
      (fitted scalers, selectors, regressors, classifiers, the normal
      quantile function, the Kolmogorov-Smirnov test) are parameters of
      the definitions that use them.
    - Dictionaries whose iteration order matters are association lists;
      the others are [gmap]s. *)

From Stdlib Require Import QArith ZArith List String Ascii Bool Lia Lqa Qminmax Qround Qabs Floats.
From stdpp Require Import gmap strings.
Import ListNotations.

(** ** Exceptions and fallible computations *)

Inductive exn : Type :=
| ValueError (msg : string)
| TypeError (msg : string)
| AttributeError (msg : string)
| ZeroDivisionError (msg : string)
| OtherError (msg : string).

Inductive result (A : Type) : Type :=
| Ok (a : A)
| Raise (e : exn).
Arguments Ok {A} a.
Arguments Raise {A} e.

#[export] Instance result_ret : MRet result := fun A a => Ok a.
#[export] Instance result_bind : MBind result :=
  fun A B f m => match m with Ok a => f a | Raise e => Raise e end.
#[export] Instance result_fmap : FMap result :=
  fun A B f m => match m with Ok a => Ok (f a) | Raise e => Raise e end.

Definition raises {A} (m : result A) : bool :=
  match m with Ok _ => false | Raise _ => true end.

(** [str(e)] of an exception built with a single message argument. *)
Definition exn_str (e : exn) : string :=
  match e with
  | ValueError m | TypeError m | AttributeError m
  | ZeroDivisionError m | OtherError m => m
  end.

(** ** Comparisons on rationals as booleans *)

Definition Qltb (x y : Q) : bool := negb (Qle_bool y x).
Definition Qleb (x y : Q) : bool := Qle_bool x y.

(** Substring test, [sub in s] on Python strings. *)
Fixpoint str_prefix (p s : string) : bool :=
  match p, s with
  | EmptyString, _ => true
  | String a p', String b s' => Ascii.eqb a b && str_prefix p' s'
  | String _ _, EmptyString => false
  end.

Fixpoint str_contains (sub s : string) : bool :=
  str_prefix sub s ||
  match s with
  | EmptyString => false
  | String _ s' => str_contains sub s'
  end.

Definition str_endswith (suffix s : string) : bool :=
  let n := String.length s in
  let k := String.length suffix in
  (k <=? n)%nat && String.eqb (String.substring (n - k) k s) suffix.

(** [str.lower()] on the ASCII range. *)
Definition ascii_lower (c : ascii) : ascii :=
  let n := nat_of_ascii c in
  if ((65 <=? n) && (n <=? 90))%nat then ascii_of_nat (n + 32) else c.

Fixpoint str_lower (s : string) : string :=
  match s with
  | EmptyString => EmptyString
  | String c s' => String (ascii_lower c) (str_lower s')
  end.

(** ** Tabular data: the part of pandas the feature processors use *)

Module Frame.
Local Open Scope Q_scope.

(** A float64 cell: a finite value, an infinity or NaN (the missing value). *)
Inductive cell : Type :=
| Fin (q : Q)
| PInf
| NInf
| NaN.

Definition isnull (c : cell) : bool :=
  match c with NaN => true | _ => false end.

Definition isfinite (c : cell) : bool :=
  match c with Fin _ => true | _ => false end.

Definition csgn (c : cell) : comparison :=
  match c with
  | Fin q => q ?= 0
  | PInf => Gt
  | NInf => Lt
  | NaN => Eq
  end.

Definition cneg (c : cell) : cell :=
  match c with
  | Fin q => Fin (- q)
  | PInf => NInf
  | NInf => PInf
  | NaN => NaN
  end.

Definition cadd (a b : cell) : cell :=
  match a, b with
  | NaN, _ | _, NaN => NaN
  | Fin x, Fin y => Fin (x + y)
  | PInf, NInf | NInf, PInf => NaN
  | PInf, _ | _, PInf => PInf
  | NInf, _ | _, NInf => NInf
  end.

Definition csub (a b : cell) : cell := cadd a (cneg b).

Definition inf_of_sign (s t : comparison) : cell :=
  match s, t with
  | Eq, _ | _, Eq => NaN
  | Gt, Gt | Lt, Lt => PInf
  | _, _ => NInf
  end.

Definition cmul (a b : cell) : cell :=
  match a, b with
  | NaN, _ | _, NaN => NaN
  | Fin x, Fin y => Fin (x * y)
  | _, _ => inf_of_sign (csgn a) (csgn b)
  end.

(** True division as numpy performs it: a finite value over zero is an
    infinity (NaN for 0/0); zeros carry no sign in this model. *)
Definition cdiv (a b : cell) : cell :=
  match a, b with
  | NaN, _ | _, NaN => NaN
  | Fin x, Fin y =>
      if Qeq_bool y 0 then inf_of_sign (x ?= 0) Gt else Fin (x / y)
  | Fin _, _ => Fin 0
  | _, Fin y => inf_of_sign (csgn a) (if Qltb y 0 then Lt else Gt)
  | _, _ => NaN
  end.

Definition cabs (c : cell) : cell :=
  match c with
  | Fin q => Fin (Qabs q)
  | PInf | NInf => PInf
  | NaN => NaN
  end.

(** [a <= b] on cells; false as soon as one side is NaN. *)
Definition cleb (a b : cell) : bool :=
  match a, b with
  | NaN, _ | _, NaN => false
  | NInf, _ | _, PInf => true
  | Fin x, Fin y => Qleb x y
  | _, _ => false
  end.

Definition cltb (a b : cell) : bool :=
  match a, b with
  | NaN, _ | _, NaN => false
  | _, _ => negb (cleb b a)
  end.

(** [np.maximum]: NaN propagates. *)
Definition cmaximum (a b : cell) : cell :=
  match a, b with
  | NaN, _ | _, NaN => NaN
  | _, _ => if cleb a b then b else a
  end.

(** The value of an expression over a frame: a Python scalar or a
    Series; arithmetic broadcasts the scalar. *)
Inductive operand : Type :=
| Scalar (c : cell)
| Series (s : list cell).

Fixpoint zip_with {A B C} (f : A -> B -> C) (l : list A) (k : list B) : list C :=
  match l, k with
  | a :: l', b :: k' => f a b :: zip_with f l' k'
  | _, _ => []
  end.

Definition binop (f : cell -> cell -> cell) (a b : operand) : operand :=
  match a, b with
  | Scalar x, Scalar y => Scalar (f x y)
  | Scalar x, Series t => Series (map (f x) t)
  | Series s, Scalar y => Series (map (fun v => f v y) s)
  | Series s, Series t => Series (zip_with f s t)
  end.

Definition unop (f : cell -> cell) (a : operand) : operand :=
  match a with
  | Scalar x => Scalar (f x)
  | Series s => Series (map f s)
  end.

Definition num (q : Q) : operand := Scalar (Fin q).

(** Columns by dtype: float64/int64, datetime-like (seconds, [None] is
    NaT) and object (strings, [None] is a missing entry). *)
Inductive column : Type :=
| NumCol (s : list cell)
| DateCol (s : list (option Z))
| ObjCol (s : list (option string)).

Record DataFrame : Type := mkFrame {
  index : list Z;
  columns : list (string * column)
}.

Definition nrows (df : DataFrame) : nat := List.length (index df).

Definition column_names (df : DataFrame) : list string := map fst (columns df).

Fixpoint assoc {A} (k : string) (l : list (string * A)) : option A :=
  match l with
  | [] => None
  | (k', v) :: l' => if String.eqb k k' then Some v else assoc k l'
  end.

Fixpoint assoc_set {A} (k : string) (v : A) (l : list (string * A)) : list (string * A) :=
  match l with
  | [] => [(k, v)]
  | (k', v') :: l' =>
      if String.eqb k k' then (k', v) :: l' else (k', v') :: assoc_set k v l'
  end.

(** [df.get(name, default)] used as an arithmetic operand.  A numeric
    column is a Series, an absent column is the scalar default; a
    column of another dtype makes the arithmetic that follows raise. *)
Definition get (df : DataFrame) (name : string) (default : Q) : result operand :=
  match assoc name (columns df) with
  | None => Ok (num default)
  | Some (NumCol s) => Ok (Series s)
  | Some _ => Raise (TypeError "unsupported operand type(s)")
  end.

(** [df[name] = value]: an existing column is replaced in place, a new
    one is appended; a scalar is broadcast over the index. *)
Definition to_column (df : DataFrame) (v : operand) : column :=
  match v with
  | Scalar c => NumCol (repeat c (nrows df))
  | Series s => NumCol s
  end.

Definition set (df : DataFrame) (name : string) (v : operand) : DataFrame :=
  mkFrame (index df) (assoc_set name (to_column df v) (columns df)).

(** [Series.isnull().mean()], the fraction of missing entries (NaN on an
    empty column). *)
Definition count_true {A} (p : A -> bool) (l : list A) : nat :=
  List.length (List.filter p l).

Definition fraction (k n : nat) : cell :=
  match n with
  | O => NaN
  | _ => Fin (inject_Z (Z.of_nat k) / inject_Z (Z.of_nat n))
  end.

Definition is_none {A} (o : option A) : bool :=
  match o with None => true | Some _ => false end.

Definition null_mean (c : column) : cell :=
  match c with
  | NumCol s => fraction (count_true isnull s) (List.length s)
  | DateCol s => fraction (count_true is_none s) (List.length s)
  | ObjCol s => fraction (count_true is_none s) (List.length s)
  end.

Definition fillna (v : cell) (s : list cell) : list cell :=
  map (fun c => if isnull c then v else c) s.

(** [Series.median()]: NaN entries are skipped. *)
Fixpoint insert_sorted (c : cell) (l : list cell) : list cell :=
  match l with
  | [] => [c]
  | d :: l' => if cleb c d then c :: d :: l' else d :: insert_sorted c l'
  end.

Definition sort_cells (l : list cell) : list cell :=
  fold_right insert_sorted [] l.

Definition median (s : list cell) : cell :=
  let v := sort_cells (List.filter (fun c => negb (isnull c)) s) in
  let n := List.length v in
  match n with
  | O => NaN
  | _ =>
      if Nat.even n
      then cdiv (cadd (nth (n / 2 - 1) v NaN) (nth (n / 2) v NaN)) (Fin 2)
      else nth (n / 2) v NaN
  end.

(** [df.select_dtypes(include=[np.number])] *)
Definition is_numeric (c : column) : bool :=
  match c with NumCol _ => true | _ => false end.

Definition select_numeric (df : DataFrame) : DataFrame :=
  mkFrame (index df) (List.filter (fun kc => is_numeric (snd kc)) (columns df)).

(** A frame of numeric columns only. *)
Definition all_numeric (df : DataFrame) : Prop :=
  List.Forall (fun kc => is_numeric (snd kc) = true) (columns df).

(** The loop of [_handle_missing_values]: every numeric column is
    overwritten by its filled version, the fill value being chosen from
    the column's name and content by [policy]. *)
Definition fill_numeric (policy : string -> list cell -> cell) (df : DataFrame) : DataFrame :=
  mkFrame (index df)
    (map (fun kc =>
            match snd kc with
            | NumCol s => (fst kc, NumCol (fillna (policy (fst kc) s) s))
            | _ => kc
            end) (columns df)).

(** Pearson correlation, as [df.corr()] computes it on pairwise complete
    observations.  Only the test [abs(corr) > t] is needed; for [t >= 0]
    it is [cov^2 > t^2 * var_x * var_y] with [var_x * var_y > 0], the
    correlation being NaN (and the test false) when a variance is zero or
    a value is infinite. *)
Definition qsum (l : list Q) : Q := fold_right Qplus 0 l.

Definition qmean (l : list Q) : Q :=
  qsum l / inject_Z (Z.of_nat (List.length l)).

Definition complete_pairs (a b : list cell) : list (cell * cell) :=
  List.filter (fun p => negb (isnull (fst p)) && negb (isnull (snd p))) (combine a b).

Definition fin_value (c : cell) : Q :=
  match c with Fin q => q | _ => 0 end.

Definition abs_corr_gt (t : Q) (a b : list cell) : bool :=
  let ps := complete_pairs a b in
  if forallb (fun p => isfinite (fst p) && isfinite (snd p)) ps then
    let xs := map (fun p => fin_value (fst p)) ps in
    let ys := map (fun p => fin_value (snd p)) ps in
    match ps with
    | [] => false
    | _ =>
        let mx := qmean xs in
        let my := qmean ys in
        let cov := qsum (zip_with (fun x y => (x - mx) * (y - my)) xs ys) in
        let vx := qsum (map (fun x => (x - mx) * (x - mx)) xs) in
        let vy := qsum (map (fun y => (y - my) * (y - my)) ys) in
        Qltb 0 (vx * vy) && Qltb (t * t * (vx * vy)) (cov * cov)
    end
  else false.

Definition numeric_values (c : column) : list cell :=
  match c with NumCol s => s | _ => [] end.

(** [to_drop]: the columns that correlate above the threshold with a
    column standing before them (the strict upper triangle). *)
Fixpoint correlated_with_earlier (t : Q) (earlier : list (string * column))
    (cols : list (string * column)) : list string :=
  match cols with
  | [] => []
  | (name, c) :: rest =>
      let hit := existsb (fun e => abs_corr_gt t (numeric_values (snd e)) (numeric_values c)) earlier in
      (if hit then [name] else []) ++
      correlated_with_earlier t (earlier ++ [(name, c)]) rest
  end.

Definition mem_str (x : string) (l : list string) : bool :=
  existsb (String.eqb x) l.

Definition drop_columns (names : list string) (df : DataFrame) : DataFrame :=
  mkFrame (index df) (List.filter (fun kc => negb (mem_str (fst kc) names)) (columns df)).

Definition remove_correlated (t : Q) (df : DataFrame) : DataFrame :=
  drop_columns (correlated_with_earlier t [] (columns df)) df.

(** [df.reindex(columns=names, fill_value=0)] *)
Definition reindex (names : list string) (df : DataFrame) : DataFrame :=
  mkFrame (index df)
    (map (fun name =>
            match assoc name (columns df) with
            | Some c => (name, c)
            | None => (name, NumCol (repeat (Fin 0) (nrows df)))
            end) names).

(** The row-major matrix [df.values] of a numeric frame. *)
Fixpoint transpose_rows (n : nat) (cols : list (list cell)) : list (list cell) :=
  match n with
  | O => []
  | S n' => map (fun c => hd NaN c) cols :: transpose_rows n' (map (@tl cell) cols)
  end.

Definition values (df : DataFrame) : list (list cell) :=
  transpose_rows (nrows df) (map (fun kc => numeric_values (snd kc)) (columns df)).

End Frame.

(** ** Feature processors (features/feature_engineering.py) *)

Module Features.
Import Frame.
Local Open Scope Q_scope.

(** The scikit-learn collaborators: a scaler is fitted on a matrix and
    applied to a matrix; a fitted [SelectKBest] is known by its support,
    the indices [get_support(indices=True)] of the columns it keeps. *)
Inductive ScalerKind : Type := RobustScaler | StandardScaler | MinMaxScaler.
Inductive ScoreFunc : Type := f_regression | mutual_info_regression.

Record Sklearn : Type := {
  scaler : Type;
  scaler_fit : ScalerKind -> list (list cell) -> scaler;
  scaler_transform : scaler -> list (list cell) -> list (list cell);
  select_k_best : ScoreFunc -> nat -> list (list cell) -> list Q -> list nat
}.

(** [selector.transform]: the columns of the support, in order. *)
Definition selector_transform (support : list nat) (m : list (list cell)) : list (list cell) :=
  map (fun row => map (fun i => nth i row NaN) support) m.

(** Expressions over the frame under construction, written as in the
    source: [col name default] is [features.get(name, default)]. *)
Definition expr : Type := DataFrame -> result operand.

Definition col (name : string) (default : Q) : expr := fun df => get df name default.
Definition lit (q : Q) : expr := fun _ => Ok (num q).
Definition lift2 (f : cell -> cell -> cell) (a b : expr) : expr :=
  fun df => x ← a df; y ← b df; Ok (binop f x y).
Definition lift1 (f : cell -> cell) (a : expr) : expr :=
  fun df => x ← a df; Ok (unop f x).

Declare Scope expr_scope.
Delimit Scope expr_scope with expr.
Bind Scope expr_scope with expr.
Notation "a + b" := (lift2 cadd a b) : expr_scope.
Notation "a - b" := (lift2 csub a b) : expr_scope.
Notation "a * b" := (lift2 cmul a b) : expr_scope.
Notation "a / b" := (lift2 cdiv a b) : expr_scope.
Notation "- a" := (lift1 cneg a) : expr_scope.

Definition np_maximum (a b : expr) : expr := lift2 cmaximum a b.
Definition abs_ (a : expr) : expr := lift1 cabs a.

(** An expression that evaluates on every frame of numeric columns. *)
Definition numeric_total (e : expr) : Prop :=
  forall df, all_numeric df -> exists v, e df = Ok v.

(** [features[name] = e] *)
Definition assign (name : string) (e : expr) (features : DataFrame) : result DataFrame :=
  v ← e features; Ok (set features name v).

(** The processor's state ([FeatureProcessor.__init__]). *)
Record FeatureProcessor (sk : Sklearn) : Type := mkProcessor {
  fp_scaler : option (scaler sk);
  feature_selector : option (list nat);
  feature_names : option (list string);
  is_fitted : bool;
  n_features : nat
}.
Arguments mkProcessor {sk}.
Arguments fp_scaler {sk}.
Arguments feature_selector {sk}.
Arguments feature_names {sk}.
Arguments is_fitted {sk}.
Arguments n_features {sk}.

Definition init (sk : Sklearn) (n : nat) : FeatureProcessor sk :=
  mkProcessor None None None false n.

(** What [transform] returns:
    [pd.DataFrame(scaled_features, columns=selected_feature_names, index=X.index)]. *)
Record Processed : Type := mkProcessed {
  out_index : list Z;
  out_columns : list string;
  out_values : list (list cell)
}.

Fixpoint names_at (names : list string) (support : list nat) : result (list string) :=
  match support with
  | [] => Ok []
  | i :: rest =>
      match nth_error names i with
      | Some n => ns ← names_at names rest; Ok (n :: ns)
      | None => Raise (OtherError "list index out of range")
      end
  end.

(** The steps the three [fit] methods share once the domain's own
    engineering and cleaning are done: fit the scaler, fit the selector
    when a target is given and there are more than [n_features] columns,
    record the column list. *)
Definition fit_tail {sk} (self : FeatureProcessor sk) (kind : ScalerKind) (score : ScoreFunc)
    (features_df : DataFrame) (y : option (list Q)) : FeatureProcessor sk :=
  let sc := scaler_fit sk kind (values features_df) in
  let scaled_features := scaler_transform sk sc (values features_df) in
  let ncols := List.length (columns features_df) in
  let selector :=
    match y with
    | Some yv =>
        if (n_features self <? ncols)%nat
        then Some (select_k_best sk score (Nat.min (n_features self) ncols) scaled_features yv)
        else feature_selector self
    | None => feature_selector self
    end in
  mkProcessor (Some sc) selector (Some (column_names features_df)) true (n_features self).

(** The steps the three [transform] methods share after engineering and
    imputation: reindex to the fit-time columns, scale, select, rebuild
    the frame. *)
Definition transform_tail {sk} (self : FeatureProcessor sk) (X features_df : DataFrame)
    : result Processed :=
  match feature_names self, fp_scaler self with
  | Some names, Some sc =>
      let features_df := reindex names features_df in
      let scaled_features := scaler_transform sk sc (values features_df) in
      match feature_selector self with
      | Some support =>
          selected_feature_names ← names_at names support;
          Ok (mkProcessed (index X) selected_feature_names
                (selector_transform support scaled_features))
      | None => Ok (mkProcessed (index X) names scaled_features)
      end
  | _, _ => Raise (AttributeError "'NoneType' object has no attribute 'transform'")
  end.

Definition not_fitted : exn := ValueError "Processor must be fitted before transform".

Module CompletionTimeFeatureProcessor.

(** [(pd.to_datetime('now') - pd.to_datetime(features.get('actual_start_date', 'now'))).dt.days.fillna(0)].
    With the column present the difference is a Series of timedeltas and
    [.dt.days] its whole days (NaT becomes NaN, then 0).  With the column
    absent [get] returns the string ['now'], the difference of the two
    timestamps is a single [Timedelta], and a [Timedelta] has no [.dt]
    accessor.  Date-like columns are [DateCol]s in this model; for any
    other column the conversion is taken to fail. *)
Definition days_since_start (now : Z) : expr := fun features =>
  match assoc "actual_start_date" (columns features) with
  | None => Raise (AttributeError "'Timedelta' object has no attribute 'dt'")
  | Some (DateCol s) =>
      Ok (Series (map (fun d => match d with
                                | Some t => Fin (inject_Z ((now - t) / 86400))
                                | None => Fin 0
                                end) s))
  | Some _ => Raise (ValueError "Unknown datetime string format")
  end.

Definition _engineer_features (now : Z) (X : DataFrame) : result DataFrame :=
  let features := X in
  features ← assign "days_since_start" (days_since_start now) features;
  features ← assign "progress_velocity"
    (col "progress_percentage" 0 / (col "days_since_start" 1 + lit 1)) features;
  features ← assign "task_completion_efficiency"
    (col "completed_tasks" 0 / (col "total_tasks" 1 + lit 1e-6)) features;
  features ← assign "budget_per_progress"
    (col "budget_spent" 0 / (col "progress_percentage" 1 + lit 1e-6)) features;
  features ← assign "team_productivity"
    (col "team_velocity" 0 * col "team_size" 1) features;
  features ← assign "issue_density"
    (col "total_issues" 0 / (col "total_tasks" 1 + lit 1e-6)) features;
  features ← assign "external_dependency_ratio"
    (col "external_dependencies" 0 / (col "total_tasks" 1 + lit 1e-6)) features;
  features ← assign "scope_stability"
    (lit 1 / (lit 1 + abs_ (col "scope_variance_percentage" 0) / lit 10)) features;
  features ← assign "bug_resolution_rate"
    (col "bugs_resolved" 0 / (col "bugs_found" 1 + lit 1e-6)) features;
  assign "client_engagement_score"
    (col "client_satisfaction_score" 5 / lit 10) features.

Definition fill_policy (name : string) (s : list cell) : cell :=
  if str_endswith "_percentage" name || str_endswith "_rate" name || str_endswith "_ratio" name
  then Fin 0
  else if str_endswith "_score" name then median s
  else median s.

Definition _handle_missing_values (df : DataFrame) : DataFrame :=
  fill_numeric fill_policy df.

Definition _remove_correlated_features (df : DataFrame) : DataFrame :=
  remove_correlated 0.95 df.

Definition missing_threshold : Q := 0.7.

(** [features_df.loc[:, features_df.isnull().mean() < missing_threshold]] *)
Definition drop_mostly_missing (df : DataFrame) : DataFrame :=
  mkFrame (index df)
    (List.filter (fun kc => cltb (null_mean (snd kc)) (Fin missing_threshold)) (columns df)).

Definition fit {sk} (now : Z) (self : FeatureProcessor sk) (X : DataFrame) (y : option (list Q))
    : result (FeatureProcessor sk) :=
  features_df ← _engineer_features now X;
  let features_df := drop_mostly_missing features_df in
  let features_df := _handle_missing_values features_df in
  let features_df := select_numeric features_df in
  let features_df := _remove_correlated_features features_df in
  Ok (fit_tail self RobustScaler f_regression features_df y).

Definition transform {sk} (now : Z) (self : FeatureProcessor sk) (X : DataFrame)
    : result Processed :=
  if negb (is_fitted self) then Raise not_fitted else
  features_df ← _engineer_features now X;
  let features_df := _handle_missing_values features_df in
  transform_tail self X features_df.

End CompletionTimeFeatureProcessor.

Module BudgetVarianceFeatureProcessor.

Definition _engineer_features (X : DataFrame) : result DataFrame :=
  let features := X in
  features ← assign "burn_rate_trend" (col "daily_burn_rate" 0 * lit 30) features;
  features ← assign "burn_rate_acceleration"
    (col "daily_burn_rate" 0 / (col "days_since_start" 1 + lit 1e-6)) features;
  features ← assign "budget_velocity"
    (col "budget_utilization_rate" 0 / (col "progress_percentage" 1 + lit 1e-6)) features;
  features ← assign "efficiency_trend"
    ((lit 100 - col "efficiency_percentage" 100) / lit 100) features;
  features ← assign "scope_budget_impact"
    (col "scope_variance_percentage" 0 * col "budget_utilization_rate" 0 / lit 100) features;
  features ← assign "external_cost_risk"
    (col "external_dependency_risk_cost" 0 / (col "budget_allocated" 1 + lit 1e-6)) features;
  features ← assign "schedule_pressure"
    (np_maximum (lit 0) (col "schedule_variance_days" 0)) features;
  assign "team_cost_efficiency"
    (col "team_velocity" 1 / (col "labor_cost_to_date" 1 + lit 1e-6) * lit 1000) features.

Definition fill_policy (name : string) (s : list cell) : cell :=
  let lower := str_lower name in
  if str_contains "rate" lower || str_contains "velocity" lower then Fin 0
  else if str_contains "cost" lower || str_contains "budget" lower then median s
  else Fin 0.

Definition _handle_missing_values (df : DataFrame) : DataFrame :=
  fill_numeric fill_policy df.

Definition _remove_correlated_features (df : DataFrame) : DataFrame :=
  remove_correlated 0.92 df.

Definition fit {sk} (self : FeatureProcessor sk) (X : DataFrame) (y : option (list Q))
    : result (FeatureProcessor sk) :=
  features_df ← _engineer_features X;
  let features_df := _handle_missing_values features_df in
  let features_df := select_numeric features_df in
  let features_df := _remove_correlated_features features_df in
  Ok (fit_tail self StandardScaler mutual_info_regression features_df y).

Definition transform {sk} (self : FeatureProcessor sk) (X : DataFrame) : result Processed :=
  if negb (is_fitted self) then Raise not_fitted else
  features_df ← _engineer_features X;
  let features_df := _handle_missing_values features_df in
  transform_tail self X features_df.

End BudgetVarianceFeatureProcessor.

Module RiskScoreFeatureProcessor.

Definition health_scores : list string :=
  ["task_health_score"; "issue_health_score"; "financial_health_score";
   "schedule_health_score"; "team_health_score"].

(** [features[score]], the column itself (it is known to exist). *)
Definition item (name : string) : expr := fun df =>
  match assoc name (columns df) with
  | Some (NumCol s) => Ok (Series s)
  | Some _ => Raise (TypeError "unsupported operand type(s)")
  | None => Raise (OtherError "KeyError")
  end.

Fixpoint normalize_scores (scores : list string) (features : DataFrame) : result DataFrame :=
  match scores with
  | [] => Ok features
  | score :: rest =>
      if mem_str score (column_names features)
      then features ← assign (score ++ "_normalized") (item score / lit 100) features;
           normalize_scores rest features
      else normalize_scores rest features
  end.

Definition _engineer_features (X : DataFrame) : result DataFrame :=
  let features := X in
  features ← normalize_scores health_scores features;
  features ← assign "deadline_pressure"
    (np_maximum (lit 0) (- col "days_until_deadline" 365)) features;
  features ← assign "budget_pressure"
    (np_maximum (lit 0) (col "budget_utilization_percentage" 0 - lit 80)) features;
  features ← assign "weighted_issue_score"
    (col "critical_issues" 0 * lit 5 + col "major_issues" 0 * lit 2
     + col "open_issues" 0 * lit 1) features;
  features ← assign "dependency_risk"
    (col "critical_dependencies" 0 * lit 3 + col "external_milestones" 0 * lit 2
     + col "project_dependencies" 0 * lit 1) features;
  features ← assign "team_stability_risk"
    (lit 1 / (col "avg_team_hours" 8 / lit 8)) features;
  assign "communication_health"
    (col "recent_comments" 0 / (col "total_comments" 1 + lit 1e-6)) features.

Definition fill_policy (name : string) (s : list cell) : cell :=
  let lower := str_lower name in
  if str_contains "score" lower || str_contains "health" lower then Fin 50
  else if str_contains "risk" lower then Fin 0
  else median s.

Definition _handle_missing_values (df : DataFrame) : DataFrame :=
  fill_numeric fill_policy df.

Definition _remove_correlated_features (df : DataFrame) : DataFrame :=
  remove_correlated 0.90 df.

Definition fit {sk} (self : FeatureProcessor sk) (X : DataFrame) (y : option (list Q))
    : result (FeatureProcessor sk) :=
  features_df ← _engineer_features X;
  let features_df := _handle_missing_values features_df in
  let features_df := select_numeric features_df in
  let features_df := _remove_correlated_features features_df in
  Ok (fit_tail self MinMaxScaler f_regression features_df y).

Definition transform {sk} (self : FeatureProcessor sk) (X : DataFrame) : result Processed :=
  if negb (is_fitted self) then Raise not_fitted else
  features_df ← _engineer_features X;
  let features_df := _handle_missing_values features_df in
  transform_tail self X features_df.

End RiskScoreFeatureProcessor.

End Features.

(** ** Columns with and without values *)

Module Columns.
Import Frame.

(** The column has at least one entry that is not missing. *)
Definition has_value (s : list cell) : Prop :=
  exists c, In c s /\ isnull c = false.

(** Every entry is a finite number or missing. *)
Definition finite_or_missing (s : list cell) : Prop :=
  List.Forall (fun c => isnull c = true \/ isfinite c = true) s.

(** No entry is missing. *)
Definition complete (s : list cell) : Prop :=
  List.Forall (fun c => isnull c = false) s.

(** Every entry is missing. *)
Definition all_missing (s : list cell) : Prop :=
  List.Forall (fun c => isnull c = true) s.

(** A fill policy that yields a number for every column that has a
    value and whose values are finite. *)
Definition fills (policy : string -> list cell -> cell) : Prop :=
  forall name s, has_value s -> finite_or_missing s -> isnull (policy name s) = false.

(** [c] correlates above [t] with one of the columns [before]. *)
Definition correlates_with_one_of (t : Q) (before : list (string * column)) (c : column) : bool :=
  existsb (fun e => abs_corr_gt t (numeric_values (snd e)) (numeric_values c)) before.

(** What removing the correlated columns of [df] at threshold [t] gives:
    the frame [r] keeps the index and a sub-sequence of the columns; when
    the labels are distinct, a column is kept exactly when it correlates
    above [t] with no column standing before it in [df], so the first
    column is always kept. *)
Definition drops_correlated (t : Q) (df r : DataFrame) : Prop :=
  index r = index df
  /\ sublist (columns r) (columns df)
  /\ (NoDup (column_names df) ->
      forall before name c after,
        columns df = before ++ (name, c) :: after ->
        (In (name, c) (columns r) <-> correlates_with_one_of t before c = false))
  /\ (NoDup (column_names df) ->
      forall name c after, columns df = (name, c) :: after -> In (name, c) (columns r)).

End Columns.

(** ** Confidence intervals and prediction drift (utils/model_utils.py) *)

Module ModelUtils.
Import Frame.
Local Open Scope Q_scope.

(** A fitted [QuantileRegressor]: its [predict], which may raise. *)
Definition QuantileModel : Type := list (list cell) -> result (list Q).

(** The numpy/scipy/scikit-learn functions this module calls. *)
Record External : Type := {
  norm_ppf : Q -> Q;
  np_quantile : list Q -> Q -> Q;
  np_std : list Q -> Q;
  random_choice : nat -> nat -> list nat;
  quantile_regressor_fit : Q -> list (list cell) -> list Q -> result QuantileModel;
  ks_2samp : list Q -> list Q -> Q * Q
}.

Record ConfidenceIntervalEstimator : Type := mkEstimator {
  method : string;
  is_fitted : bool;
  residual_std : option Q;
  quantile_models : list (Q * QuantileModel);
  bootstrap_predictions : option (list (list Q))
}.

Definition init (method : string) : ConfidenceIntervalEstimator :=
  mkEstimator method false None [] None.

(** The dictionary [quantile_models], keyed by the quantile. *)
Fixpoint models_get (q : Q) (d : list (Q * QuantileModel)) : option QuantileModel :=
  match d with
  | [] => None
  | (k, m) :: d' => if Qeq_bool q k then Some m else models_get q d'
  end.

Fixpoint models_set (q : Q) (m : QuantileModel) (d : list (Q * QuantileModel))
    : list (Q * QuantileModel) :=
  match d with
  | [] => [(q, m)]
  | (k, m') :: d' => if Qeq_bool q k then (k, m) :: d' else (k, m') :: models_set q m d'
  end.

Section Estimator.
Variable ext : External.

(** [_fit_quantile_regression]: a regressor that fails to fit is skipped. *)
Fixpoint fit_quantiles (quantiles : list Q) (features : list (list cell)) (targets : list Q)
    (d : list (Q * QuantileModel)) : list (Q * QuantileModel) :=
  match quantiles with
  | [] => d
  | q :: rest =>
      let d' := match quantile_regressor_fit ext q features targets with
                | Ok model => models_set q model d
                | Raise _ => d
                end in
      fit_quantiles rest features targets d'
  end.

Definition _fit_quantile_regression (self : ConfidenceIntervalEstimator)
    (features : list (list cell)) (targets : list Q) : ConfidenceIntervalEstimator :=
  mkEstimator (method self) (is_fitted self) (residual_std self)
    (fit_quantiles [0.05; 0.95] features targets (quantile_models self))
    (bootstrap_predictions self).

(** [_fit_bootstrap]: a hundred resamples; the [k]-th call of
    [np.random.choice] is [random_choice k]. *)
Definition take_at (l : list Q) (indices : list nat) : list Q :=
  map (fun i => nth i l 0) indices.

Definition bootstrap_sample (predictions actuals : list Q) (k : nat) : list Q :=
  let n := List.length predictions in
  let indices := random_choice ext (2 * k) n in
  let boot_preds := take_at predictions indices in
  let boot_actuals := take_at actuals indices in
  let residuals := zip_with Qminus boot_actuals boot_preds in
  let noise := take_at residuals (random_choice ext (2 * k + 1) n) in
  zip_with Qplus boot_preds noise.

Definition _fit_bootstrap (self : ConfidenceIntervalEstimator)
    (predictions actuals : list Q) : ConfidenceIntervalEstimator :=
  mkEstimator (method self) (is_fitted self) (residual_std self) (quantile_models self)
    (Some (map (bootstrap_sample predictions actuals) (seq 0 100))).

Definition set_fitted (self : ConfidenceIntervalEstimator) : ConfidenceIntervalEstimator :=
  mkEstimator (method self) true (residual_std self) (quantile_models self)
    (bootstrap_predictions self).

Definition fit (self : ConfidenceIntervalEstimator) (predictions actuals : list Q)
    (features : option (list (list cell))) : ConfidenceIntervalEstimator :=
  let residuals := zip_with Qminus actuals predictions in
  let self := mkEstimator (method self) (is_fitted self) (Some (np_std ext residuals))
                (quantile_models self) (bootstrap_predictions self) in
  let self :=
    match features with
    | Some f =>
        if String.eqb (method self) "quantile_regression"
        then _fit_quantile_regression self f actuals
        else if String.eqb (method self) "bootstrap"
        then _fit_bootstrap self predictions actuals
        else self
    | None =>
        if String.eqb (method self) "bootstrap"
        then _fit_bootstrap self predictions actuals
        else self
    end in
  set_fitted self.

Record Interval : Type := mkInterval {
  lower : Q;
  upper : Q;
  width : Q
}.

Definition well_formed (iv : Interval) : Prop := (width iv == upper iv - lower iv)%Q.
Definition ordered (iv : Interval) : Prop := (lower iv <= upper iv)%Q.

Definition _predict_residual_intervals (self : ConfidenceIntervalEstimator)
    (predictions : list Q) (lower_q upper_q : Q) : result (list Interval) :=
  match residual_std self with
  | None => Raise (TypeError "unsupported operand type(s) for *: 'float' and 'NoneType'")
  | Some std =>
      let z_score := norm_ppf ext (1 - lower_q) in
      let margin := z_score * std in
      Ok (map (fun pred => mkInterval (pred - margin) (pred + margin) (2 * margin)) predictions)
  end.

Fixpoint zip3 (ps ls us : list Q) : list Interval :=
  match ps, ls, us with
  | _ :: ps', l :: ls', u :: us' => mkInterval l u (u - l) :: zip3 ps' ls' us'
  | _, _, _ => []
  end.

Definition _predict_quantile_intervals (self : ConfidenceIntervalEstimator)
    (predictions : list Q) (features : list (list cell)) (lower_q upper_q : Q)
    : result (list Interval) :=
  match models_get lower_q (quantile_models self), models_get upper_q (quantile_models self) with
  | Some lower_model, Some upper_model =>
      match lower_model features with
      | Ok lower_bounds =>
          match upper_model features with
          | Ok upper_bounds => Ok (zip3 predictions lower_bounds upper_bounds)
          | Raise _ => _predict_residual_intervals self predictions lower_q upper_q
          end
      | Raise _ => _predict_residual_intervals self predictions lower_q upper_q
      end
  | _, _ => _predict_residual_intervals self predictions lower_q upper_q
  end.

(** Column [i] of the bootstrap matrix, [bootstrap_predictions[:, i]]. *)
Definition bootstrap_column (b : list (list Q)) (i : nat) : list Q :=
  map (fun row => nth i row 0) b.

Definition bootstrap_width (b : list (list Q)) : nat :=
  match b with
  | [] => 0
  | row :: _ => List.length row
  end.

Fixpoint bootstrap_intervals (std : option Q) (b : list (list Q)) (lower_q upper_q : Q)
    (i : nat) (predictions : list Q) : result (list Interval) :=
  match predictions with
  | [] => Ok []
  | pred :: rest =>
      iv ← (if (i <? bootstrap_width b)%nat then
              let bootstrap_dist := bootstrap_column b i in
              let lo := np_quantile ext bootstrap_dist lower_q in
              let up := np_quantile ext bootstrap_dist upper_q in
              Ok (mkInterval lo up (up - lo))
            else
              match std with
              | None => Raise (TypeError "unsupported operand type(s) for *: 'float' and 'NoneType'")
              | Some s =>
                  let margin := norm_ppf ext (1 - lower_q) * s in
                  Ok (mkInterval (pred - margin) (pred + margin)
                        ((pred + margin) - (pred - margin)))
              end);
      ivs ← bootstrap_intervals std b lower_q upper_q (S i) rest;
      Ok (iv :: ivs)
  end.

Definition _predict_bootstrap_intervals (self : ConfidenceIntervalEstimator)
    (predictions : list Q) (lower_q upper_q : Q) : result (list Interval) :=
  match bootstrap_predictions self with
  | Some b => bootstrap_intervals (residual_std self) b lower_q upper_q 0 predictions
  | None => _predict_residual_intervals self predictions lower_q upper_q
  end.

Definition predict_intervals (self : ConfidenceIntervalEstimator) (predictions : list Q)
    (features : option (list (list cell))) (confidence_level : Q) : result (list Interval) :=
  if negb (is_fitted self) then Raise (ValueError "Estimator not fitted. Call fit() first.") else
  let alpha := 1 - confidence_level in
  let lower_quantile := alpha / 2 in
  let upper_quantile := 1 - alpha / 2 in
  match features with
  | Some f =>
      if String.eqb (method self) "quantile_regression"
      then _predict_quantile_intervals self predictions f lower_quantile upper_quantile
      else if String.eqb (method self) "bootstrap"
      then _predict_bootstrap_intervals self predictions lower_quantile upper_quantile
      else _predict_residual_intervals self predictions lower_quantile upper_quantile
  | None =>
      if String.eqb (method self) "bootstrap"
      then _predict_bootstrap_intervals self predictions lower_quantile upper_quantile
      else _predict_residual_intervals self predictions lower_quantile upper_quantile
  end.

(** The bounds the two fitted quantile regressors supply for a call of
    [predict_intervals], when they do: the method is quantile regression,
    features are given, both quantiles of the requested level are keys of
    [quantile_models] and both regressors answer. *)
Definition quantile_bounds (self : ConfidenceIntervalEstimator)
    (features : option (list (list cell))) (confidence_level : Q) : option (list Q * list Q) :=
  let alpha := 1 - confidence_level in
  match features with
  | Some f =>
      if String.eqb (method self) "quantile_regression" then
        match models_get (alpha / 2) (quantile_models self),
              models_get (1 - alpha / 2) (quantile_models self) with
        | Some lower_model, Some upper_model =>
            match lower_model f, upper_model f with
            | Ok lower_bounds, Ok upper_bounds => Some (lower_bounds, upper_bounds)
            | _, _ => None
            end
        | _, _ => None
        end
      else None
  | None => None
  end.

(** *** [detect_prediction_drift] *)

Definition np_mean (l : list Q) : Q := qmean l.

(** [np.var], the population variance. *)
Definition np_var (l : list Q) : Q :=
  let m := np_mean l in
  qmean (map (fun x => (x - m) * (x - m)) l).

Record DriftComponent : Type := mkComponent {
  absolute : Q;
  relative : Q;
  component_has_drift : bool
}.

Record DriftResult : Type := mkDrift {
  has_drift : bool;
  ks_statistic : Q;
  ks_p_value : Q;
  distribution_has_drift : bool;
  mean_drift : DriftComponent;
  variance_drift : DriftComponent
}.

Definition detect_prediction_drift (reference_predictions current_predictions : list Q)
    (threshold : Q) : DriftResult :=
  let '(ks_statistic, ks_p_value) := ks_2samp ext reference_predictions current_predictions in
  let mean_drift := Qabs (np_mean current_predictions - np_mean reference_predictions) in
  let mean_drift_relative := mean_drift / (Qabs (np_mean reference_predictions) + 1e-8) in
  let var_drift := Qabs (np_var current_predictions - np_var reference_predictions) in
  let var_drift_relative := var_drift / (np_var reference_predictions + 1e-8) in
  let has_distribution_drift := Qltb ks_p_value 0.05 in
  let has_mean_drift := Qltb threshold mean_drift_relative in
  let has_variance_drift := Qltb threshold var_drift_relative in
  mkDrift (has_distribution_drift || has_mean_drift || has_variance_drift)
    ks_statistic ks_p_value has_distribution_drift
    (mkComponent mean_drift mean_drift_relative has_mean_drift)
    (mkComponent var_drift var_drift_relative has_variance_drift).

End Estimator.
End ModelUtils.

(** ** Model versions and evaluation records (utils/model_utils.py) *)

Module ModelVersionManager.
Import Frame.

Section Registry.
(** The registered objects and their metadata are opaque to the manager. *)
Variable Model : Type.
Variable Metadata : Type.

(** The value stored under a version; [registered_at] is the reading
    of [pd.Timestamp.now()], in nanoseconds. *)
Record VersionInfo : Type := mkInfo {
  model : Model;
  metadata : Metadata;
  registered_at : Z
}.

(** [self.versions]: by model name, the versions in insertion order. *)
Record ModelVersionManager : Type := mkManager {
  storage_path : string;
  versions : list (string * list (string * VersionInfo))
}.

Definition init (storage_path : string) : ModelVersionManager := mkManager storage_path [].

Definition register_model (now : Z) (self : ModelVersionManager) (model_name : string)
    (model_object : Model) (version : string) (metadata : Metadata) : ModelVersionManager :=
  let versions :=
    match assoc model_name (versions self) with
    | None => assoc_set model_name [] (versions self)
    | Some _ => versions self
    end in
  let of_model := default [] (assoc model_name versions) in
  mkManager (storage_path self)
    (assoc_set model_name
       (assoc_set version (mkInfo model_object metadata now) of_model) versions).

(** [max(iterable, key=...)]: the first of the items with the largest
    key; an empty iterable raises. *)
Definition py_max_by {A} (key : A -> Z) (l : list A) : result A :=
  match l with
  | [] => Raise (ValueError "max() arg is an empty sequence")
  | x :: rest =>
      Ok (fold_left (fun best y => if (key best <? key y)%Z then y else best) rest x)
  end.

Definition latest_version (of_model : list (string * VersionInfo)) : result string :=
  fst <$> py_max_by (fun kv => registered_at (snd kv)) of_model.

Definition get_model (self : ModelVersionManager) (model_name version : string)
    : result Model :=
  match assoc model_name (versions self) with
  | None => Raise (ValueError ("Model " +:+ model_name +:+ " not found"))
  | Some of_model =>
      version ← (if String.eqb version "latest" then latest_version of_model else Ok version);
      match assoc version of_model with
      | None =>
          Raise (ValueError ("Version " +:+ version +:+ " of model " +:+ model_name +:+ " not found"))
      | Some info => Ok (model info)
      end
  end.

Record VersionEntry : Type := mkEntry {
  entry_version : string;
  entry_registered_at : Z;
  entry_metadata : Metadata
}.

(** [sorted(version_list, key=lambda x: x['registered_at'], reverse=True)]:
    stable, by decreasing registration time. *)
Fixpoint insert_entry (x : VersionEntry) (l : list VersionEntry) : list VersionEntry :=
  match l with
  | [] => [x]
  | y :: l' =>
      if (entry_registered_at y <=? entry_registered_at x)%Z
      then x :: y :: l'
      else y :: insert_entry x l'
  end.

Definition sort_entries (l : list VersionEntry) : list VersionEntry :=
  fold_right insert_entry [] l.

Definition list_versions (self : ModelVersionManager) (model_name : string)
    : list VersionEntry :=
  match assoc model_name (versions self) with
  | None => []
  | Some of_model =>
      sort_entries
        (map (fun kv => mkEntry (fst kv) (registered_at (snd kv)) (metadata (snd kv))) of_model)
  end.

(** The registration times of a model's versions. *)
Definition registration_times (self : ModelVersionManager) (model_name : string) : list Z :=
  map (fun kv => registered_at (snd kv)) (default [] (assoc model_name (versions self))).

(** Registration times in non-increasing order. *)
Fixpoint newest_first (l : list VersionEntry) : Prop :=
  match l with
  | [] => True
  | x :: rest =>
      match rest with
      | [] => True
      | y :: _ => (entry_registered_at y <= entry_registered_at x)%Z
      end /\ newest_first rest
  end.

End Registry.

Arguments mkInfo {Model Metadata}.
Arguments model {Model Metadata}.
Arguments metadata {Model Metadata}.
Arguments registered_at {Model Metadata}.
Arguments mkManager {Model Metadata}.
Arguments storage_path {Model Metadata}.
Arguments versions {Model Metadata}.
Arguments init {Model Metadata}.
Arguments register_model {Model Metadata}.
Arguments latest_version {Model Metadata}.
Arguments get_model {Model Metadata}.
Arguments mkEntry {Metadata}.
Arguments entry_version {Metadata}.
Arguments entry_registered_at {Metadata}.
Arguments entry_metadata {Metadata}.
Arguments insert_entry {Metadata}.
Arguments sort_entries {Metadata}.
Arguments list_versions {Model Metadata}.
Arguments registration_times {Model Metadata}.
Arguments newest_first {Metadata}.

(** The first of the items with the largest key. *)
Fixpoint first_max {A} (key : A -> Z) (l : list A) : option A :=
  match l with
  | [] => None
  | x :: rest =>
      match first_max key rest with
      | None => Some x
      | Some y => if (key y <=? key x)%Z then Some x else Some y
      end
  end.

End ModelVersionManager.

Module ModelEvaluator.
Import Frame.

Section Evaluator.
(** The values stored in a record's [metrics] (floats, and for a
    classification also a confusion matrix and a report) and Python's
    [a > b] and [a < b] on them, which may raise. *)
Variable Value : Type.
Variable gt lt : Value -> Value -> result bool.

Record EvaluationRecord : Type := mkEvaluation {
  model_name : string;
  evaluation_type : string;
  metrics : list (string * Value);
  n_samples : nat;
  timestamp : Z
}.

(** The records [get_best_model] compares, each with the value it is
    compared by: those of the evaluation type whose metrics have the key. *)
Definition candidates (evaluation_history : list EvaluationRecord) (metric : string)
    (evaluation_type_ : string) : list (EvaluationRecord * Value) :=
  omap (fun record =>
          if String.eqb (evaluation_type record) evaluation_type_
          then (fun v => (record, v)) <$> assoc metric (metrics record)
          else None)
    evaluation_history.

(** [max(items, key=...)] ([better] is [>]) and [min(items, key=...)]
    ([better] is [<]): an item replaces the best so far when its key
    compares strictly better. *)
Fixpoint best_by (better : Value -> Value -> result bool) (best : EvaluationRecord * Value)
    (items : list (EvaluationRecord * Value)) : result (EvaluationRecord * Value) :=
  match items with
  | [] => Ok best
  | item :: rest =>
      better (snd item) (snd best) ≫= fun b : bool =>
      best_by better (if b then item else best) rest
  end.

Definition get_best_model (evaluation_history : list EvaluationRecord) (metric : string)
    (evaluation_type_ : string) (higher_is_better : bool) : result (option EvaluationRecord) :=
  match candidates evaluation_history metric evaluation_type_ with
  | [] => Ok None
  | first :: rest =>
      best_record ← best_by (if higher_is_better then gt else lt) first rest;
      Ok (Some (fst best_record))
  end.

End Evaluator.

Arguments mkEvaluation {Value}.
Arguments model_name {Value}.
Arguments evaluation_type {Value}.
Arguments metrics {Value}.
Arguments n_samples {Value}.
Arguments timestamp {Value}.
Arguments candidates {Value}.
Arguments best_by {Value}.
Arguments get_best_model {Value}.

(** The comparisons of float metrics. *)
Definition float_gt (a b : cell) : result bool := Ok (cltb b a).
Definition float_lt (a b : cell) : result bool := Ok (cltb a b).

(** [w] is at least as good as [v]. *)
Definition at_least (higher_is_better : bool) (w v : cell) : bool :=
  if higher_is_better then cleb v w else cleb w v.

End ModelEvaluator.

(** ** Intervals of the normal approximation *)

Module IntervalShape.
Import ModelUtils.
Local Open Scope Q_scope.

(** Intervals centred on their predictions, all of one width. *)
Definition centred_with_margin (margin : Q) (predictions : list Q) (ivs : list Interval) : Prop :=
  Forall2 (fun p iv => lower iv = p - margin /\ upper iv = p + margin /\ width iv = 2 * margin)
    predictions ivs.

End IntervalShape.

(** ** The normal-approximation path over binary64

    The same lines of [predict_intervals] and
    [_predict_residual_intervals] with Python's floats as they are, IEEE
    754 binary64, to measure what rounding does to the statements proved
    over the rationals. *)

Module Binary64.
#[local] Set Warnings "-inexact-float".
Local Open Scope float_scope.

(** [alpha = 1 - confidence_level], [lower_quantile = alpha / 2],
    [upper_quantile = 1 - alpha / 2]. *)
Definition quantile_levels (confidence_level : float) : float * float :=
  let alpha := 1 - confidence_level in
  (alpha / 2, 1 - alpha / 2).

(** The keys under which [_fit_quantile_regression] stores its models. *)
Definition fitted_quantiles : float * float := (0.05, 0.95).

(** [lower_q in self.quantile_models and upper_q in self.quantile_models]
    after [_fit_quantile_regression] has stored both models. *)
Definition quantile_models_found (confidence_level : float) : bool :=
  let '(lower_q, upper_q) := quantile_levels confidence_level in
  (PrimFloat.eqb lower_q (fst fitted_quantiles) || PrimFloat.eqb lower_q (snd fitted_quantiles))
  && (PrimFloat.eqb upper_q (fst fitted_quantiles) || PrimFloat.eqb upper_q (snd fitted_quantiles)).

Record Interval : Type := mkInterval {
  lower : float;
  upper : float;
  width : float
}.

(** One interval of [_predict_residual_intervals]; [z_score] is what
    [stats.norm.ppf(1 - lower_q)] returned. *)
Definition residual_interval (z_score residual_std pred : float) : Interval :=
  let margin := z_score * residual_std in
  mkInterval (pred - margin) (pred + margin) (2 * margin).

(** [scipy.stats.norm.ppf(0.95)] *)
Definition norm_ppf_95 : float := 1.6448536269514722.

End Binary64.

(** ** The hybrid risk predictor (models/risk_score_model.py) *)

Module RiskScoreModel.
Import Frame Features ModelUtils.
Local Open Scope Q_scope.

(** The fitted [VotingClassifier]: [predict] (an encoded label) and
    [predict_proba], row by row. *)
Record Classifier : Type := {
  clf_predict : list cell -> nat;
  clf_predict_proba : list cell -> list Q
}.

Record RiskScorePredictor (sk : Sklearn) : Type := mkPredictor {
  feature_processor : FeatureProcessor sk;
  regression_ensemble : option (list cell -> Q);
  classification_ensemble : option Classifier;
  label_encoder : list string;
  confidence_estimator : ConfidenceIntervalEstimator
}.
Arguments mkPredictor {sk}.
Arguments feature_processor {sk}.
Arguments regression_ensemble {sk}.
Arguments classification_ensemble {sk}.
Arguments label_encoder {sk}.
Arguments confidence_estimator {sk}.

Definition risk_categories : list string := ["Low"; "Medium"; "High"; "Critical"].

(** [label_encoder.classes_] after [fit(risk_categories)]: sorted. *)
Definition fitted_classes : list string := ["Critical"; "High"; "Low"; "Medium"].

Definition _score_to_category (score : Q) : string :=
  if Qleb score 25 then "Low"
  else if Qleb score 50 then "Medium"
  else if Qleb score 75 then "High"
  else "Critical".

Definition _category_to_score_range (category : string) : Q * Q :=
  if String.eqb category "Low" then (0, 25)
  else if String.eqb category "Medium" then (25, 50)
  else if String.eqb category "High" then (50, 75)
  else if String.eqb category "Critical" then (75, 100)
  else (0, 100).

Definition np_max (l : list Q) : result Q :=
  match l with
  | [] => Raise (ValueError "zero-size array to reduction operation maximum which has no identity")
  | x :: rest => Ok (fold_left Qmax rest x)
  end.

(** [np.clip(x, lo, hi)] is [minimum(hi, maximum(x, lo))]. *)
Definition np_clip (x lo hi : Q) : Q := Qmin (Qmax x lo) hi.

(** The adjustment weight, [min(0.3, (max_prob - 0.8) * 1.5)]. *)
Definition adjustment_weight (max_prob : Q) : Q := Qmin 0.3 ((max_prob - 0.8) * 1.5).

(** The body of the loop of [_create_hybrid_predictions], before the
    final clip: the score after the blending step. *)
Definition blend (score : Q) (category : string) (max_prob : Q) : Q :=
  let '(category_min, category_max) := _category_to_score_range category in
  if Qltb 0.8 max_prob then
    let category_center := (category_min + category_max) / 2 in
    if Qltb score category_min || Qltb category_max score then
      score * (1 - adjustment_weight max_prob) + category_center * adjustment_weight max_prob
    else score
  else score.

Definition hybrid_score (score : Q) (category : string) (probs : list Q) : result Q :=
  max_prob ← np_max probs;
  Ok (np_clip (blend score category max_prob) 0 100).

Fixpoint _create_hybrid_predictions (score_predictions : list Q)
    (category_predictions : list string) (category_probabilities : list (list Q))
    : result (list Q) :=
  match score_predictions, category_predictions, category_probabilities with
  | score :: ss, category :: cs, probs :: ps =>
      h ← hybrid_score score category probs;
      hs ← _create_hybrid_predictions ss cs ps;
      Ok (h :: hs)
  | _, _, _ => Ok []
  end.

(** [label_encoder.inverse_transform] *)
Fixpoint inverse_transform (classes : list string) (y : list nat) : result (list string) :=
  match y with
  | [] => Ok []
  | k :: rest =>
      match nth_error classes k with
      | Some c => cs ← inverse_transform classes rest; Ok (c :: cs)
      | None => Raise (ValueError "y contains previously unseen labels")
      end
  end.

Definition item {A} (l : list A) (i : nat) : result A :=
  match nth_error l i with
  | Some a => Ok a
  | None => Raise (OtherError "index out of range")
  end.

(** One entry of [predictions_with_insights].  The narrative fields
    (risk factors, recommendations, trend) are derived from the score,
    the category and the raw features and feed nothing back; they are
    not carried here. *)
Record Prediction : Type := mkPrediction {
  risk_score : Q;
  risk_category : string;
  category_probabilities : list (string * Q);
  confidence_lower : Q;
  confidence_upper : Q
}.

Fixpoint insights (indices : list nat) (hybrid_scores : list Q)
    (predicted_categories : list string) (category_names : list string)
    (probabilities : list (list Q)) (confidence_intervals : list Interval)
    : result (list Prediction) :=
  match indices with
  | [] => Ok []
  | i :: rest =>
      score ← item hybrid_scores i;
      category ← item predicted_categories i;
      probs ← item probabilities i;
      ci ← item confidence_intervals i;
      ps ← insights rest hybrid_scores predicted_categories category_names
             probabilities confidence_intervals;
      Ok (mkPrediction score category (combine category_names probs) (lower ci) (upper ci) :: ps)
  end.

Definition predict {sk} (ext : External) (self : RiskScorePredictor sk) (X : DataFrame)
    (confidence_level : Q) (use_hybrid : bool) : result (list Prediction) :=
  match regression_ensemble self, classification_ensemble self with
  | Some regression, Some classification =>
      X_processed ← RiskScoreFeatureProcessor.transform (feature_processor self) X;
      let rows := out_values X_processed in
      let score_predictions := map regression rows in
      let category_predictions := map (clf_predict classification) rows in
      let category_probabilities := map (clf_predict_proba classification) rows in
      predicted_categories ← inverse_transform (label_encoder self) category_predictions;
      confidence_intervals ←
        predict_intervals ext (confidence_estimator self) score_predictions (Some rows)
          confidence_level;
      hybrid_scores ←
        (if use_hybrid
         then _create_hybrid_predictions score_predictions predicted_categories
                category_probabilities
         else Ok score_predictions);
      insights (seq 0 (nrows X)) hybrid_scores predicted_categories (label_encoder self)
        category_probabilities confidence_intervals
  | _, _ => Raise (ValueError "Models not trained. Call train() first.")
  end.

End RiskScoreModel.

(** ** Risk factors, recommendations and trend (models/risk_score_model.py) *)

Module RiskNarrative.
Import Frame.
Local Open Scope Q_scope.

(** A feature row ([X.iloc[i]], or a dictionary of features): the
    float under each name. *)
Definition features : Type := list (string * cell).

(** [project_features.get(key, default)] *)
Definition feature (project_features : features) (key : string) (default : Q) : cell :=
  match assoc key project_features with
  | Some v => v
  | None => Fin default
  end.

(** Python's [min(a, b)] and [max(a, b)]: the first argument is kept
    unless the second compares strictly below (above) it. *)
Definition py_min (a b : cell) : cell := if cltb b a then b else a.
Definition py_max (a b : cell) : cell := if cltb a b then b else a.

Definition _identify_risk_factors (project_features : features) (risk_score : Q)
    : list (string * cell) :=
  let risk_factors : list (string * cell) := [] in
  let schedule_variance := feature project_features "schedule_variance_days" 0 in
  let risk_factors :=
    if cltb (Fin 5) (cabs schedule_variance)
    then assoc_set "schedule_variance"
           (py_min (cmul (cdiv (cabs schedule_variance) (Fin 30)) (Fin 100)) (Fin 100))
           risk_factors
    else risk_factors in
  let cost_variance := feature project_features "cost_variance_percentage" 0 in
  let risk_factors :=
    if cltb (Fin 10) (cabs cost_variance)
    then assoc_set "budget_overrun" (py_min (cabs cost_variance) (Fin 100)) risk_factors
    else risk_factors in
  let bugs_found := feature project_features "bugs_found" 0 in
  let risk_factors :=
    if cltb (Fin 5) bugs_found
    then assoc_set "quality_issues" (py_min (cmul bugs_found (Fin 5)) (Fin 100)) risk_factors
    else risk_factors in
  let team_velocity := feature project_features "team_velocity" 0 in
  let risk_factors :=
    if cltb team_velocity (Fin 2)
    then assoc_set "team_performance"
           (py_max (Fin 0) (cmul (csub (Fin 2) team_velocity) (Fin 25))) risk_factors
    else risk_factors in
  let client_satisfaction := feature project_features "client_satisfaction_score" 5 in
  let risk_factors :=
    if cltb client_satisfaction (Fin 6)
    then assoc_set "client_satisfaction"
           (cmul (csub (Fin 6) client_satisfaction) (Fin 20)) risk_factors
    else risk_factors in
  let external_issues := feature project_features "external_issues" 0 in
  let risk_factors :=
    if cltb (Fin 0) external_issues
    then assoc_set "external_dependencies"
           (py_min (cmul external_issues (Fin 15)) (Fin 100)) risk_factors
    else risk_factors in
  let open_issues := feature project_features "open_issues" 0 in
  let risk_factors :=
    if cltb (Fin 3) open_issues
    then assoc_set "unresolved_issues" (py_min (cmul open_issues (Fin 8)) (Fin 100)) risk_factors
    else risk_factors in
  risk_factors.

(** The recommendations of a risk category. *)
Definition category_recommendations (risk_category : string) : list string :=
  if String.eqb risk_category "Critical" then
    ["Immediate escalation to senior management required";
     "Consider project pause for comprehensive risk assessment";
     "Implement daily risk monitoring and reporting"]
  else if String.eqb risk_category "High" then
    ["Weekly risk review meetings required";
     "Consider additional resources or timeline extension";
     "Implement enhanced monitoring and controls"]
  else if String.eqb risk_category "Medium" then
    ["Bi-weekly risk assessments recommended";
     "Monitor key risk indicators closely"]
  else [].

(** What one risk factor appends to the recommendations. *)
Definition factor_recommendation (factor : string) (impact : cell) : list string :=
  if cltb (Fin 50) impact then
    if String.eqb factor "schedule_variance"
    then ["Address schedule delays - consider parallel work streams"]
    else if String.eqb factor "budget_overrun"
    then ["Implement immediate cost controls and budget review"]
    else if String.eqb factor "quality_issues"
    then ["Increase testing and QA efforts"]
    else if String.eqb factor "team_performance"
    then ["Review team capacity and provide additional support"]
    else if String.eqb factor "client_satisfaction"
    then ["Schedule client meeting to address concerns"]
    else if String.eqb factor "external_dependencies"
    then ["Escalate external blockers and create contingency plans"]
    else if String.eqb factor "unresolved_issues"
    then ["Prioritize issue resolution and assign dedicated resources"]
    else []
  else [].

Definition default_recommendations : list string :=
  ["Continue current project management practices"; "Maintain regular monitoring"].

Definition _generate_risk_recommendations (risk_score : Q) (risk_category : string)
    (risk_factors : list (string * cell)) : list string :=
  let recommendations := category_recommendations risk_category in
  let recommendations :=
    fold_left (fun recs fi => recs ++ factor_recommendation (fst fi) (snd fi))
      risk_factors recommendations in
  let recommendations :=
    match recommendations with
    | [] => default_recommendations
    | _ => recommendations
    end in
  firstn 6 recommendations.

Definition _determine_trend (risk_factors : list (string * cell)) : string :=
  match risk_factors with
  | [] => "stable"
  | _ =>
      let high_risk_factors :=
        count_true (fun fi => cltb (Fin 70) (snd fi)) risk_factors in
      let medium_risk_factors :=
        count_true (fun fi => cltb (Fin 30) (snd fi) && cleb (snd fi) (Fin 70)) risk_factors in
      if (2 <=? high_risk_factors)%nat then "increasing"
      else if ((high_risk_factors =? 1) && (2 <=? medium_risk_factors))%nat then "increasing"
      else if ((high_risk_factors =? 0) && (medium_risk_factors <=? 1))%nat then "decreasing"
      else "stable"
  end.

(** The three narrative fields of one entry of [predict]'s
    [predictions_with_insights]. *)
Record Narrative : Type := mkNarrative {
  risk_factors : list (string * cell);
  recommendations : list string;
  trend : string
}.

Definition narrative (project_features : features) (score : Q) (category : string) : Narrative :=
  let risk_factors := _identify_risk_factors project_features score in
  mkNarrative risk_factors
    (_generate_risk_recommendations score category risk_factors)
    (_determine_trend risk_factors).

(** The seven feature names [_identify_risk_factors] reads. *)
Definition risk_inputs : list string :=
  ["schedule_variance_days"; "cost_variance_percentage"; "bugs_found"; "team_velocity";
   "client_satisfaction_score"; "external_issues"; "open_issues"].

(** The names under which factors are recorded. *)
Definition factor_names : list string :=
  ["schedule_variance"; "budget_overrun"; "quality_issues"; "team_performance";
   "client_satisfaction"; "external_dependencies"; "unresolved_issues"].

(** The factors whose impact is capped with [min(..., 100)]. *)
Definition capped_factors : list string :=
  ["schedule_variance"; "budget_overrun"; "quality_issues"; "external_dependencies";
   "unresolved_issues"].

End RiskNarrative.

(** ** Budget recommendations (models/budget_variance_model.py) *)

Module BudgetVarianceModel.
Import Frame RiskNarrative.
Local Open Scope Q_scope.

(** The risk level [predict] attaches to a predicted variance. *)
Definition risk_level (variance_pct : Q) : string :=
  if Qleb variance_pct 5 then "Low"
  else if Qleb variance_pct 15 then "Medium"
  else if Qleb variance_pct 30 then "High"
  else "Critical".

Definition overrun_recommendations : list string :=
  ["Immediate budget review required - significant overrun predicted";
   "Consider scope reduction or timeline extension";
   "Escalate to project sponsor for additional budget approval"].

Definition cost_control_recommendations : list string :=
  ["Implement stricter cost controls";
   "Review resource allocation efficiency";
   "Consider renegotiating vendor contracts"].

Definition _generate_budget_recommendations (variance_pct : Q) (project_features : features)
    : list string :=
  let recommendations : list string := [] in
  let recommendations :=
    if Qltb 20 variance_pct then recommendations ++ overrun_recommendations
    else recommendations in
  let recommendations :=
    if Qltb 10 variance_pct then recommendations ++ cost_control_recommendations
    else recommendations in
  let burn_rate := feature project_features "daily_burn_rate" 0 in
  let progress := feature project_features "progress_percentage" 0 in
  let recommendations :=
    if cltb (Fin 0) burn_rate && cltb (Fin 0) progress then
      if cltb (cmul progress (Fin 2)) (cmul burn_rate (Fin 30))
      then recommendations ++
             ["Daily burn rate is high relative to progress - review team efficiency"]
      else recommendations
    else recommendations in
  let scope_variance := feature project_features "scope_variance_percentage" 0 in
  let recommendations :=
    if cltb (Fin 15) (cabs scope_variance)
    then recommendations ++
           ["Significant scope changes detected - implement change control process"]
    else recommendations in
  let external_deps := feature project_features "external_dependencies" 0 in
  let recommendations :=
    if cltb (Fin 3) external_deps
    then recommendations ++ ["High external dependencies - establish contingency budget"]
    else recommendations in
  let recommendations :=
    match recommendations with
    | [] => ["Continue monitoring budget performance"; "Maintain current cost controls"]
    | _ => recommendations
    end in
  firstn 5 recommendations.

End BudgetVarianceModel.

(** ** Aggregated feature importance ([get_feature_importance] of the
    three predictors) *)

Module FeatureImportance.
Import Frame.
Local Open Scope Q_scope.

(** [dict(zip(feature_names, values))] *)
Definition dict_zip (feature_names : list string) (values : list Q) : list (string * Q) :=
  fold_left (fun d kv => assoc_set (fst kv) (snd kv) d) (combine feature_names values) [].

(** The loop
    [importance_scores[feat] = importance_scores.get(feat, 0) + score * weight]. *)
Definition add_weighted (weight : Q) (importance_scores model_importance : list (string * Q))
    : list (string * Q) :=
  fold_left
    (fun scores fs =>
       assoc_set (fst fs) (default 0 (assoc (fst fs) scores) + snd fs * weight) scores)
    model_importance importance_scores.

(** One block per model: [values] is [Some] when the model has the
    attribute read ([feature_importances_], or [coef_] taken in absolute
    value), [None] when [hasattr] is false. *)
Definition add_model (feature_names : list string) (importance_scores : list (string * Q))
    (model : option (list Q) * Q) : list (string * Q) :=
  match fst model with
  | Some values => add_weighted (snd model) importance_scores (dict_zip feature_names values)
  | None => importance_scores
  end.

Definition normalize (importance_scores : list (string * Q)) : list (string * Q) :=
  let total_importance := qsum (map snd importance_scores) in
  if Qltb 0 total_importance
  then map (fun kv => (fst kv, snd kv / total_importance)) importance_scores
  else importance_scores.

(** [sorted(items, key=lambda x: x[1], reverse=True)]: stable, by
    decreasing value. *)
Fixpoint insert_desc (x : string * Q) (l : list (string * Q)) : list (string * Q) :=
  match l with
  | [] => [x]
  | y :: l' => if Qleb (snd y) (snd x) then x :: y :: l' else y :: insert_desc x l'
  end.

Definition sort_desc (l : list (string * Q)) : list (string * Q) :=
  fold_right insert_desc [] l.

Definition aggregate (feature_names : list string) (models : list (option (list Q) * Q))
    : list (string * Q) :=
  sort_desc (normalize (fold_left (add_model feature_names) models [])).

Definition coef_abs (coef_ : option (list Q)) : option (list Q) :=
  option_map (map Qabs) coef_.

Module RiskScorePredictor.
(** [trained]: both ensembles are set. *)
Definition get_feature_importance (trained : bool) (feature_names : list string)
    (rf_regressor xgb_regressor rf_classifier xgb_classifier : option (list Q))
    : list (string * Q) :=
  if negb trained then [] else
  aggregate feature_names
    [(rf_regressor, 0.25); (xgb_regressor, 0.35); (rf_classifier, 0.20); (xgb_classifier, 0.20)].
End RiskScorePredictor.

Module CompletionTimePredictor.
Definition get_feature_importance (trained : bool) (feature_names : list string)
    (rf_model xgb_model lgb_model : option (list Q)) : list (string * Q) :=
  if negb trained then [] else
  aggregate feature_names [(rf_model, 0.3); (xgb_model, 0.4); (lgb_model, 0.3)].
End CompletionTimePredictor.

Module BudgetVariancePredictor.
Definition get_feature_importance (trained : bool) (feature_names : list string)
    (rf_model xgb_model lgb_model ridge_coef elastic_coef : option (list Q))
    : list (string * Q) :=
  if negb trained then [] else
  aggregate feature_names
    [(rf_model, 0.25); (xgb_model, 0.30); (lgb_model, 0.25);
     (coef_abs ridge_coef, 0.10); (coef_abs elastic_coef, 0.10)].
End BudgetVariancePredictor.

(** A list of values in non-increasing order. *)
Fixpoint non_increasing (l : list Q) : Prop :=
  match l with
  | [] => True
  | x :: rest =>
      match rest with
      | [] => True
      | y :: _ => y <= x
      end /\ non_increasing rest
  end.

(** Keys that are distinct and among [names]. *)
Definition keyed (names : list string) {A} (l : list (string * A)) : Prop :=
  NoDup (map fst l) /\ incl (map fst l) names.

(** What the three methods guarantee of the dictionary they return: its
    keys are distinct feature names, its values are in non-increasing
    order and sum to 1 (unless the raw total is not positive). *)
Definition normalized_ranking (feature_names : list string) (r : list (string * Q)) : Prop :=
  NoDup (map fst r)
  /\ incl (map fst r) feature_names
  /\ non_increasing (map snd r)
  /\ (qsum (map snd r) == 1 \/ qsum (map snd r) <= 0).

End FeatureImportance.

(** ** The completion-time predictor (models/completion_time_model.py) *)

Module CompletionTimeModel.
Import Frame Features ModelUtils.
Local Open Scope Q_scope.

Record CompletionTimePredictor (sk : Sklearn) : Type := mkPredictor {
  feature_processor : FeatureProcessor sk;
  ensemble_model : option (list cell -> Q);
  confidence_estimator : ConfidenceIntervalEstimator
}.
Arguments mkPredictor {sk}.
Arguments feature_processor {sk}.
Arguments ensemble_model {sk}.
Arguments confidence_estimator {sk}.

(** The predictions and their intervals.  (The result also carries the
    aggregated feature importance, the model version and the date, which
    are computed after these and independently of them.) *)
Record Predictions : Type := mkPredictions {
  predictions : list Q;
  confidence_intervals : list Interval
}.

Definition predict {sk} (ext : External) (now : Z) (self : CompletionTimePredictor sk)
    (X : DataFrame) (confidence_level : Q) : result Predictions :=
  match ensemble_model self with
  | None => Raise (ValueError "Model not trained. Call train() first.")
  | Some ensemble =>
      X_processed ← CompletionTimeFeatureProcessor.transform now (feature_processor self) X;
      let rows := out_values X_processed in
      let predictions := map ensemble rows in
      confidence_intervals ←
        predict_intervals ext (confidence_estimator self) predictions (Some rows)
          confidence_level;
      Ok (mkPredictions predictions confidence_intervals)
  end.

End CompletionTimeModel.

(** ** The fallback explainer (utils/shap_explainer.py) *)

Module ShapExplainer.
Import Frame.
Local Open Scope Q_scope.

Record SHAPExplainer : Type := mkExplainer {
  model_type : string;
  feature_names : list string;
  is_fitted : bool
}.

(** The mock SHAP value of one feature, from its value and its name. *)
Definition mock_shap (feature_name : string) (feature_value : cell) : cell :=
  let lower := str_lower feature_name in
  if str_contains "variance" lower || str_contains "risk" lower
  then cmul feature_value (Fin 0.01)
  else if str_contains "progress" lower || str_contains "completion" lower
  then cmul (csub (Fin 100) feature_value) (Fin (-0.01))
  else if str_contains "velocity" lower || str_contains "efficiency" lower
  then cmul feature_value (Fin (-0.005))
  else cmul feature_value (Fin 0.001).

(** The two families of names the heuristic singles out. *)
Definition named_risk (feature_name : string) : bool :=
  str_contains "variance" (str_lower feature_name)
  || str_contains "risk" (str_lower feature_name).

Definition named_progress (feature_name : string) : bool :=
  str_contains "progress" (str_lower feature_name)
  || str_contains "completion" (str_lower feature_name).

Record Contribution : Type := mkContribution {
  shap_value : cell;
  feature_value : cell;
  contribution_type : string
}.

Record Explanation : Type := mkExplanation {
  shap_values : list (string * cell);
  feature_contributions : list (string * Contribution);
  base_value : Q;
  prediction : cell;
  top_positive_features : list (string * Contribution);
  top_negative_features : list (string * Contribution);
  note : string
}.

Record Explanations : Type := mkExplanations {
  explanations : list Explanation;
  explained_model_type : string;
  explainer_type : string;
  feature_count : nat
}.

(** Row [i] of the frame, as [iterrows] yields it: the value under each
    column label.  Only numeric cells can enter the arithmetic. *)
Definition row_value (c : column) (i : nat) : result cell :=
  match c with
  | NumCol s => Ok (nth i s NaN)
  | _ => Raise (TypeError "can't multiply sequence by non-int of type 'float'")
  end.

(** The inner loop: the two dictionaries after the features of one row
    have been visited. *)
Fixpoint visit_features (X : DataFrame) (i : nat) (names : list string)
    (mock_shap_values : list (string * cell))
    (contributions : list (string * Contribution))
    : result (list (string * cell) * list (string * Contribution)) :=
  match names with
  | [] => Ok (mock_shap_values, contributions)
  | feature_name :: rest =>
      match assoc feature_name (columns X) with
      | Some c =>
          feature_value ← row_value c i;
          let shap := mock_shap feature_name feature_value in
          visit_features X i rest
            (assoc_set feature_name shap mock_shap_values)
            (assoc_set feature_name
               (mkContribution shap feature_value
                  (if cltb (Fin 0) shap then "positive" else "negative"))
               contributions)
      | None => visit_features X i rest mock_shap_values contributions
      end
  end.

(** [sorted(items, key=abs(shap_value), reverse=True)]: a stable sort by
    decreasing key. *)
Fixpoint insert_by_abs (x : string * Contribution) (l : list (string * Contribution))
    : list (string * Contribution) :=
  match l with
  | [] => [x]
  | y :: l' =>
      if cleb (cabs (shap_value (snd y))) (cabs (shap_value (snd x)))
      then x :: y :: l'
      else y :: insert_by_abs x l'
  end.

Definition sort_by_abs (l : list (string * Contribution)) : list (string * Contribution) :=
  fold_right insert_by_abs [] l.

Definition explain_row (X : DataFrame) (names : list string) (i : nat) : result Explanation :=
  '(mock_shap_values, contributions) ← visit_features X i names [] [];
  let sorted_features := sort_by_abs contributions in
  Ok (mkExplanation mock_shap_values sorted_features 0
        (fold_left cadd (map snd mock_shap_values) (Fin 0))
        (List.filter (fun nc => cltb (Fin 0) (shap_value (snd nc))) (firstn 5 sorted_features))
        (List.filter (fun nc => cltb (shap_value (snd nc)) (Fin 0)) (firstn 5 sorted_features))
        "Fallback explanation - SHAP not available").

Fixpoint explain_rows (X : DataFrame) (names : list string) (rows : list nat)
    : result (list Explanation) :=
  match rows with
  | [] => Ok []
  | i :: rest =>
      e ← explain_row X names i;
      es ← explain_rows X names rest;
      Ok (e :: es)
  end.

(** [a or b] on lists: the first one that is not empty. *)
Definition or_else {A} (a b : list A) : list A :=
  match a with [] => b | _ => a end.

Definition _fallback_explanation (self : SHAPExplainer) (X : DataFrame)
    (feature_names_arg : option (list string)) : result Explanations :=
  let names :=
    or_else (or_else (default [] feature_names_arg) (feature_names self)) (column_names X) in
  es ← explain_rows X names (seq 0 (nrows X));
  Ok (mkExplanations es (model_type self) "Fallback" (List.length names)).

(** [explain_instance]: the fallback is taken when the explainer is not
    fitted, when the shap package is missing, and when the exact method
    ([primary], the shap library's explainer) raises. *)
Definition explain_instance (SHAP_AVAILABLE : bool)
    (primary : DataFrame -> option (list string) -> result Explanations)
    (self : SHAPExplainer) (X : DataFrame) (feature_names_arg : option (list string))
    : result Explanations :=
  if negb (is_fitted self) || negb SHAP_AVAILABLE
  then _fallback_explanation self X feature_names_arg
  else match primary X feature_names_arg with
       | Ok r => Ok r
       | Raise _ => _fallback_explanation self X feature_names_arg
       end.

(** An entry of [shap_values] is the mock value of its feature at the
    cell of row [i]. *)
Definition mock_of (X : DataFrame) (i : nat) (entry : string * cell) : Prop :=
  exists s, assoc (fst entry) (columns X) = Some (NumCol s)
            /\ snd entry = mock_shap (fst entry) (nth i s NaN).

End ShapExplainer.

(** ** The shape of a fallback explanation *)

Module FallbackShape.
Import Frame ShapExplainer.

(** A contribution whose label agrees with the sign of its value. *)
Definition labelled (nc : string * Contribution) : Prop :=
  contribution_type (snd nc)
  = if cltb (Fin 0) (shap_value (snd nc)) then "positive" else "negative".

(** What holds of each explanation of the fallback: the contributions
    cover the features of [shap_values], each is labelled by its sign, and
    the two top lists are drawn from the contributions (from the first
    five of them), hold at most five entries together, the positive list
    only positive values, the negative list only negative ones. *)
Definition fallback_shaped (e : Explanation) : Prop :=
  Permutation (map fst (feature_contributions e)) (map fst (shap_values e))
  /\ List.Forall labelled (feature_contributions e)
  /\ (List.length (top_positive_features e) + List.length (top_negative_features e) <= 5)%nat
  /\ List.Forall (fun nc => In nc (feature_contributions e)
                            /\ cltb (Fin 0) (shap_value (snd nc)) = true
                            /\ contribution_type (snd nc) = "positive")
       (top_positive_features e)
  /\ List.Forall (fun nc => In nc (feature_contributions e)
                            /\ cltb (shap_value (snd nc)) (Fin 0) = true
                            /\ contribution_type (snd nc) = "negative")
       (top_negative_features e).

End FallbackShape.

(** ** The model monitor (utils/monitoring.py) *)

Module Monitoring.
Import Frame ModelUtils.
Local Open Scope Q_scope.

(** The values found in prediction and feature dictionaries. *)
Inductive pyvalue : Type :=
| PNum (q : Q)
| PStr (s : string)
| PNone.

Definition pydict : Type := list (string * pyvalue).

(** Datetimes are counted in microseconds from 0001-01-01T00:00:00, the
    smallest [datetime]; the largest is 9999-12-31T23:59:59.999999. *)
Definition datetime : Type := Z.
Definition microseconds_per_day : Z := 86400000000.
Definition datetime_max : Z := 3652059 * microseconds_per_day - 1.

(** [timedelta(days=d)] and [t - delta], with their range checks. *)
Definition timedelta_days (d : Z) : result Z :=
  if (Z.abs d <=? 999999999)%Z then Ok (d * microseconds_per_day)%Z
  else Raise (OtherError "OverflowError: days; must have magnitude <= 999999999").

Definition datetime_sub (t delta : Z) : result datetime :=
  let r := (t - delta)%Z in
  if ((0 <=? r) && (r <=? datetime_max))%Z then Ok r
  else Raise (OtherError "OverflowError: date value out of range").

Record PredictionRecord : Type := mkRecord {
  timestamp : datetime;
  record_model_type : string;
  project_id : Z;
  prediction : pydict;
  features : option pydict;
  actual_outcome : option pydict
}.

Inductive Summary : Type :=
| SummaryEmpty
| SummaryCount (count : nat)
| SummaryStats (count : nat) (mean std min max median : Q).

Record BatchRecord : Type := mkBatch {
  batch_timestamp : datetime;
  batch_model_type : string;
  batch_model_version : option string;
  batch_size : nat;
  processing_time_ms : Q;
  avg_time_per_prediction_ms : Q;
  predictions_summary : Summary
}.

Record ModelMonitor : Type := mkMonitor {
  prediction_history : list PredictionRecord;
  performance_history : list BatchRecord;
  drift_window_size : Z;
  drift_threshold : Q
}.

(** [ModelMonitor.__init__]; [window] is [settings.drift_detection_window]. *)
Definition init (window : Z) : ModelMonitor := mkMonitor [] [] window 0.05.

(** [log_prediction] appends a record.  (Every hundredth record the
    history is also written to a file, which changes nothing here.) *)
Definition log_prediction (now : datetime) (self : ModelMonitor) (model_type : string)
    (project_id : Z) (prediction : pydict) (features actual_outcome : option pydict)
    : ModelMonitor :=
  mkMonitor
    (prediction_history self ++
       [mkRecord now model_type project_id prediction features actual_outcome])
    (performance_history self) (drift_window_size self) (drift_threshold self).

(** The first of the known keys that holds a number. *)
Fixpoint first_numeric (keys : list string) (d : pydict) : option Q :=
  match keys with
  | [] => None
  | key :: rest =>
      match assoc key d with
      | Some (PNum q) => Some q
      | _ => first_numeric rest d
      end
  end.

Definition prediction_keys : list string :=
  ["predicted_days"; "variance_percentage"; "risk_score"].

Definition numeric_values_of (ds : list pydict) : list Q :=
  omap (first_numeric prediction_keys) ds.

Definition q_of_cell (c : cell) : Q := fin_value c.

Section Monitor.
Variable ext : External.

Definition _summarize_predictions (predictions : list pydict) : Summary :=
  match predictions with
  | [] => SummaryEmpty
  | _ =>
      let numeric_values := numeric_values_of predictions in
      match numeric_values with
      | [] => SummaryCount (List.length predictions)
      | v :: vs =>
          SummaryStats (List.length predictions)
            (np_mean numeric_values) (np_std ext numeric_values)
            (fold_left Qmin vs v) (fold_left Qmax vs v)
            (q_of_cell (median (map Fin numeric_values)))
      end
  end.

(** Python's [x / n] for a float [x] and an int [n]. *)
Definition float_div (x : Q) (n : nat) : result Q :=
  match n with
  | O => Raise (ZeroDivisionError "float division by zero")
  | _ => Ok (x / inject_Z (Z.of_nat n))
  end.

(** [log_batch_predictions].  The batch record is built field by
    field, the average time among them, before it is appended.  (The
    batch is then sent to the tracking sink inside a [try].) *)
Definition log_batch_predictions (now : datetime) (self : ModelMonitor) (model_type : string)
    (predictions : list pydict) (processing_time : Q) (model_version : option string)
    : result ModelMonitor :=
  avg ← float_div processing_time (List.length predictions);
  let batch_record :=
    mkBatch now model_type model_version (List.length predictions) processing_time avg
      (_summarize_predictions predictions) in
  Ok (mkMonitor (prediction_history self) (performance_history self ++ [batch_record])
        (drift_window_size self) (drift_threshold self)).

Definition _extract_prediction_values (predictions : list PredictionRecord) : list Q :=
  numeric_values_of (map prediction predictions).

Inductive PredictionDrift : Type :=
| NoNumericPredictions
| Drift (r : DriftResult).

Definition prediction_has_drift (d : PredictionDrift) : bool :=
  match d with
  | NoNumericPredictions => false
  | Drift r => has_drift r
  end.

Definition _detect_prediction_drift (self : ModelMonitor)
    (reference_predictions current_predictions : list PredictionRecord) : PredictionDrift :=
  let reference_values := _extract_prediction_values reference_predictions in
  let current_values := _extract_prediction_values current_predictions in
  match reference_values, current_values with
  | [], _ | _, [] => NoNumericPredictions
  | _, _ =>
      Drift (detect_prediction_drift ext reference_values current_values (drift_threshold self))
  end.

Record FeatureDriftEntry : Type := mkFeatureDrift {
  f_ks_statistic : Q;
  f_ks_p_value : Q;
  f_has_drift : bool;
  mean_drift_relative : Q;
  variance_drift_relative : Q;
  sample_sizes : nat * nat
}.

(** The value [_detect_feature_drift] returns: a dictionary of entries
    by feature name, or the dictionary [{'message': ...}]. *)
Inductive FeatureDrift : Type :=
| FeatureMessage (message : string)
| FeatureEntries (entries : gmap string FeatureDriftEntry).

Definition nonempty_features (records : list PredictionRecord) : list pydict :=
  omap (fun r => match features r with
                 | Some (_ :: _ as d) => Some d
                 | _ => None
                 end) records.

Definition feature_names_of (ds : list pydict) : list string :=
  concat (map (map fst) ds).

Definition feature_values (name : string) (ds : list pydict) : list Q :=
  omap (fun d => match assoc name d with Some (PNum q) => Some q | _ => None end) ds.

Definition feature_entry (self : ModelMonitor) (ref_values curr_values : list Q)
    : FeatureDriftEntry :=
  let '(ks_stat, ks_p_value) := ks_2samp ext ref_values curr_values in
  let mean_drift := Qabs (np_mean curr_values - np_mean ref_values) in
  let var_drift := Qabs (np_var curr_values - np_var ref_values) in
  mkFeatureDrift ks_stat ks_p_value (Qltb ks_p_value (drift_threshold self))
    (mean_drift / (Qabs (np_mean ref_values) + 1e-8))
    (var_drift / (np_var ref_values + 1e-8))
    (List.length ref_values, List.length curr_values).

Definition _detect_feature_drift (self : ModelMonitor)
    (reference_predictions current_predictions : list PredictionRecord) : FeatureDrift :=
  let reference_features := nonempty_features reference_predictions in
  let current_features := nonempty_features current_predictions in
  match reference_features, current_features with
  | [], _ | _, [] => FeatureMessage "No feature data available for drift detection"
  | _, _ =>
      let common_features :=
        List.filter (fun n => mem_str n (feature_names_of current_features))
          (feature_names_of reference_features) in
      FeatureEntries
        (fold_left
           (fun feature_drift feature_name =>
              let ref_values := feature_values feature_name reference_features in
              let curr_values := feature_values feature_name current_features in
              if ((5 <=? List.length ref_values) && (5 <=? List.length curr_values))%nat
              then <[feature_name := feature_entry self ref_values curr_values]> feature_drift
              else feature_drift)
           common_features ∅)
  end.

Inductive DriftReport : Type :=
| InsufficientData (drift_detected : bool) (message : string) (sample_size : nat)
| DriftResults (prediction_drift : PredictionDrift) (feature_drift : FeatureDrift)
    (overall_drift_detected : bool).

(** The records of the lookback window:
    [lookback_days = lookback_days or self.drift_window_size], the cutoff
    date, and the filter on timestamp and model type. *)
Definition recent_predictions (now : datetime) (self : ModelMonitor)
    (model_type : option string) (lookback_days : option Z) : result (list PredictionRecord) :=
  let lookback_days :=
    match lookback_days with
    | Some d => if (d =? 0)%Z then drift_window_size self else d
    | None => drift_window_size self
    end in
  delta ← timedelta_days lookback_days;
  cutoff_date ← datetime_sub now delta;
  Ok (List.filter
        (fun record =>
           (cutoff_date <=? timestamp record)%Z &&
           match model_type with
           | None => true
           | Some t => String.eqb (record_model_type record) t
           end)
        (prediction_history self)).

(** [any(result.get('has_drift', False) for result in feature_drift_results.values())]:
    the values of the message dictionary are strings, which have no [get]. *)
Definition any_feature_drift (f : FeatureDrift) : result bool :=
  match f with
  | FeatureMessage _ => Raise (AttributeError "'str' object has no attribute 'get'")
  | FeatureEntries entries =>
      Ok (existsb (fun kv => f_has_drift (snd kv)) (map_to_list entries))
  end.

(** [check_data_drift].  (When drift is detected the results are also
    sent to the tracking sink, inside a [try]; the report is the same.) *)
Definition check_data_drift (now : datetime) (self : ModelMonitor)
    (model_type : option string) (lookback_days : option Z) : result DriftReport :=
  recent ← recent_predictions now self model_type lookback_days;
  if (List.length recent <? 10)%nat then
    Ok (InsufficientData false "Insufficient data for drift detection" (List.length recent))
  else
    let mid_point := (List.length recent / 2)%nat in
    let reference_period := firstn mid_point recent in
    let current_period := skipn mid_point recent in
    let drift_results := _detect_prediction_drift self reference_period current_period in
    let feature_drift_results := _detect_feature_drift self reference_period current_period in
    has_significant_drift ←
      (if prediction_has_drift drift_results then Ok true
       else any_feature_drift feature_drift_results);
    Ok (DriftResults drift_results feature_drift_results has_significant_drift).

End Monitor.
End Monitoring.

(** ** Validation, performance metrics and the dashboard (utils/monitoring.py) *)

Module MonitoringReports.
Import Frame ModelUtils Monitoring.
Local Open Scope Q_scope.

(** The thresholds [settings] holds, with their default values. *)
Record Settings : Type := mkSettings {
  completion_time_mae_threshold : Q;
  budget_variance_mae_threshold : Q;
  risk_score_accuracy_threshold : Q
}.

Definition default_settings : Settings := mkSettings 5.0 0.15 0.75.

(** [d.get(key)]: [None] for a missing key. *)
Definition dict_get (d : pydict) (key : string) : pyvalue :=
  default PNone (assoc key d).

Definition is_not_none (v : pyvalue) : bool :=
  match v with PNone => false | _ => true end.

Definition _score_to_category (score : Q) : string :=
  if Qleb score 25 then "Low"
  else if Qleb score 50 then "Medium"
  else if Qleb score 75 then "High"
  else "Critical".

(** The key of the predicted value and the key of the actual value, by
    model type; a record of any other model type is skipped. *)
Definition value_keys (model_type : string) : option (string * string) :=
  if String.eqb model_type "completion_time" then Some ("predicted_days", "actual_days")
  else if String.eqb model_type "budget_variance"
  then Some ("variance_percentage", "actual_variance_percentage")
  else if String.eqb model_type "risk_score" then Some ("risk_score", "actual_risk_score")
  else None.

(** The first loop of [_validate_single_model].  A record whose
    [actual_outcome] is [None] makes [actual.get] raise. *)
Fixpoint paired_values (model_type : string) (records : list PredictionRecord)
    : result (list (pyvalue * pyvalue)) :=
  match records with
  | [] => Ok []
  | record :: rest =>
      match value_keys model_type with
      | None => paired_values model_type rest
      | Some (predicted_key, actual_key) =>
          match actual_outcome record with
          | None => Raise (AttributeError "'NoneType' object has no attribute 'get'")
          | Some actual =>
              let pred_value := dict_get (prediction record) predicted_key in
              let actual_value := dict_get actual actual_key in
              pairs ← paired_values model_type rest;
              Ok (if is_not_none pred_value && is_not_none actual_value
                  then (pred_value, actual_value) :: pairs
                  else pairs)
          end
      end
  end.

(** [np.array(values)] as the metrics consume it: an array of floats.
    A value that is not a number makes the computation that follows
    raise (the regression metrics reject an array of strings, the
    comparison in [_score_to_category] a string). *)
Fixpoint as_floats (regression : bool) (values : list pyvalue) : result (list Q) :=
  match values with
  | [] => Ok []
  | PNum q :: rest => qs ← as_floats regression rest; Ok (q :: qs)
  | _ :: _ =>
      if regression
      then Raise (ValueError "dtype='numeric' is not compatible with arrays of bytes/strings")
      else Raise (TypeError "'<=' not supported between instances of 'numpy.str_' and 'int'")
  end.

(** [sklearn.metrics.mean_absolute_error], [mean_squared_error] and
    [accuracy_score] on arrays of one length. *)
Definition mean_absolute_error (y_true y_pred : list Q) : Q :=
  np_mean (zip_with (fun a p => Qabs (p - a)) y_true y_pred).

Definition mean_squared_error (y_true y_pred : list Q) : Q :=
  np_mean (zip_with (fun a p => (a - p) * (a - p)) y_true y_pred).

Definition accuracy_score (y_true y_pred : list string) : Q :=
  inject_Z (Z.of_nat (count_true (fun ap => String.eqb (fst ap) (snd ap)) (combine y_true y_pred)))
  / inject_Z (Z.of_nat (List.length y_true)).

Inductive Metrics : Type :=
| RegressionMetrics (mae rmse baseline_mae improvement_over_baseline : Q) (sample_size : nat)
| ClassificationMetrics (accuracy : Q) (sample_size : nat).

Definition improvement_of (metrics : Metrics) : Q :=
  match metrics with
  | RegressionMetrics _ _ _ improvement _ => improvement
  | ClassificationMetrics _ _ => 0
  end.

Definition sample_size_of (metrics : Metrics) : nat :=
  match metrics with
  | RegressionMetrics _ _ _ _ n => n
  | ClassificationMetrics _ n => n
  end.

Definition minimal_improvement : string :=
  "Model provides minimal improvement over simple baseline".

Definition small_sample : string :=
  "Validation sample size is small - collect more ground truth data".

Definition _generate_validation_recommendations (model_type : string) (metrics : Metrics)
    (status : string) : list string :=
  let recommendations :=
    if String.eqb status "poor" then
      ["Model performance is below acceptable thresholds";
       "Consider retraining " +:+ model_type +:+ " model with recent data";
       "Review feature engineering and model architecture";
       "Investigate potential data quality issues"]
    else if String.eqb status "degraded" then
      ["Model performance has degraded for " +:+ model_type;
       "Monitor closely and consider retraining soon";
       "Review recent data for quality issues"]
    else [model_type +:+ " model performance is within acceptable range"] in
  let recommendations :=
    if String.eqb model_type "completion_time" || String.eqb model_type "budget_variance"
    then if Qltb (improvement_of metrics) 0.1
         then recommendations ++ [minimal_improvement]
         else recommendations
    else recommendations in
  if (sample_size_of metrics <? 20)%nat
  then recommendations ++ [small_sample]
  else recommendations.

Inductive Validation : Type :=
| InsufficientData (sample_size : nat)
| Validated (model_type status : string) (metrics : Metrics) (recommendations : list string)
    (validation_date : datetime).

Section Reports.
Variable np_sqrt : Q -> Q.
Variable settings : Settings.

(** [_validate_single_model]; [now] is the reading of the clock taken
    for [validation_date].  The arrays are arrays of floats, so the
    baseline [np.full_like(actuals, np.mean(actuals))] holds the mean
    itself. *)
Definition _validate_single_model (now : datetime) (model_type : string)
    (records : list PredictionRecord) : result Validation :=
  pairs ← paired_values model_type records;
  if (List.length pairs <? 5)%nat then Ok (InsufficientData (List.length pairs)) else
  let regression :=
    String.eqb model_type "completion_time" || String.eqb model_type "budget_variance" in
  predictions ← as_floats regression (map fst pairs);
  actuals ← as_floats regression (map snd pairs);
  let '(metrics, status) :=
    if regression then
      let mae := mean_absolute_error actuals predictions in
      let rmse := np_sqrt (mean_squared_error actuals predictions) in
      let baseline_predictions := map (fun _ => np_mean actuals) actuals in
      let baseline_mae := mean_absolute_error actuals baseline_predictions in
      let improvement :=
        if Qltb 0 baseline_mae then (baseline_mae - mae) / baseline_mae else 0 in
      let threshold :=
        if String.eqb model_type "completion_time"
        then completion_time_mae_threshold settings
        else budget_variance_mae_threshold settings in
      (RegressionMetrics mae rmse baseline_mae improvement (List.length predictions),
       if Qleb mae threshold then "good"
       else if Qleb mae (threshold * 1.5) then "degraded" else "poor")
    else
      let pred_categories := map _score_to_category predictions in
      let actual_categories := map _score_to_category actuals in
      let accuracy := accuracy_score actual_categories pred_categories in
      let threshold := risk_score_accuracy_threshold settings in
      (ClassificationMetrics accuracy (List.length predictions),
       if Qleb threshold accuracy then "good"
       else if Qleb (threshold * 0.8) accuracy then "degraded" else "poor") in
  let recommendations := _generate_validation_recommendations model_type metrics status in
  Ok (Validated model_type status metrics recommendations now).

(** [by_model_type[mt].append(record)], the list being created first
    when the key is new. *)
Definition group_append {A} (key : string) (x : A) (groups : list (string * list A))
    : list (string * list A) :=
  match assoc key groups with
  | None => assoc_set key [x] groups
  | Some l => assoc_set key (l ++ [x]) groups
  end.

Definition group_by {A} (key : A -> string) (l : list A) : list (string * list A) :=
  fold_left (fun groups x => group_append (key x) x groups) l [].

(** The records [validate_models] keeps: those with an actual outcome
    that are at most thirty days old.  The clock is read anew for each
    record that has an outcome; [clock k] is its [k]-th reading. *)
Fixpoint recent_with_outcomes (clock : nat -> datetime) (k : nat)
    (history : list PredictionRecord) : result (list PredictionRecord * nat) :=
  match history with
  | [] => Ok ([], k)
  | record :: rest =>
      match actual_outcome record with
      | None => recent_with_outcomes clock k rest
      | Some _ =>
          delta ← timedelta_days 30;
          cutoff ← datetime_sub (clock k) delta;
          '(kept, k') ← recent_with_outcomes clock (S k) rest;
          Ok (if (cutoff <=? timestamp record)%Z then record :: kept else kept, k')
      end
  end.

(** A value of [validation_results]. *)
Inductive ValidationEntry : Type :=
| ValidationResult (v : Validation)
| ValidationError (error : string).

Inductive ValidationReport : Type :=
| InsufficientGroundTruth (message : string) (sample_size : nat)
| ValidationResults (validation_results : list (string * ValidationEntry)).

(** The loop over the model types: a failure of the validation, or of
    the tracking sink that is told the result ([log_model_validation]),
    leaves [{'error': str(e)}] under the model type.  The clock is read
    once more by each validation that computes metrics. *)
Fixpoint validate_groups (clock : nat -> datetime) (k : nat)
    (log_model_validation : string -> Validation -> result unit)
    (groups : list (string * list PredictionRecord))
    (validation_results : list (string * ValidationEntry))
    : list (string * ValidationEntry) :=
  match groups with
  | [] => validation_results
  | (model_type, records) :: rest =>
      match _validate_single_model (clock k) model_type records with
      | Ok validation_result =>
          let k' := match validation_result with
                    | Validated _ _ _ _ _ => S k
                    | InsufficientData _ => k
                    end in
          let entry :=
            match log_model_validation model_type validation_result with
            | Ok _ => ValidationResult validation_result
            | Raise e => ValidationError (exn_str e)
            end in
          validate_groups clock k' log_model_validation rest
            (assoc_set model_type entry validation_results)
      | Raise e =>
          validate_groups clock k log_model_validation rest
            (assoc_set model_type (ValidationError (exn_str e)) validation_results)
      end
  end.

Definition validate_models (clock : nat -> datetime)
    (log_model_validation : string -> Validation -> result unit) (self : ModelMonitor)
    : result ValidationReport :=
  '(recent_predictions_with_outcomes, k) ←
    recent_with_outcomes clock 0 (prediction_history self);
  if (List.length recent_predictions_with_outcomes <? 10)%nat then
    Ok (InsufficientGroundTruth "Insufficient ground truth data for validation"
          (List.length recent_predictions_with_outcomes))
  else
    let by_model_type := group_by record_model_type recent_predictions_with_outcomes in
    Ok (ValidationResults (validate_groups clock k log_model_validation by_model_type [])).

(** *** [get_performance_metrics] *)

Record TypeMetrics : Type := mkTypeMetrics {
  type_predictions : nat;
  type_batches : nat;
  type_avg_time_per_prediction_ms : Q
}.

Record PerformanceMetrics : Type := mkPerformance {
  metrics_model_type : option string;
  period_days : Z;
  total_predictions : nat;
  total_batches : nat;
  avg_batch_size : Q;
  total_processing_time_ms : Q;
  avg_processing_time_per_prediction_ms : Q;
  min_processing_time_per_prediction_ms : Q;
  max_processing_time_per_prediction_ms : Q;
  throughput_predictions_per_second : Q;
  by_model_type : option (list (string * TypeMetrics))
}.

Inductive PerformanceReport : Type :=
| NoPerformanceData (message : string) (model_type : option string) (days : Z)
| Performance (metrics : PerformanceMetrics).

Definition sum_nat (l : list nat) : nat := fold_right Nat.add O l.

Definition q_of_nat (n : nat) : Q := inject_Z (Z.of_nat n).

Definition np_min (l : list Q) : Q :=
  match l with [] => 0 | x :: rest => fold_left Qmin rest x end.

Definition np_max (l : list Q) : Q :=
  match l with [] => 0 | x :: rest => fold_left Qmax rest x end.

Definition type_metrics (mt_records : list BatchRecord) : TypeMetrics :=
  mkTypeMetrics (sum_nat (map batch_size mt_records)) (List.length mt_records)
    (np_mean (map avg_time_per_prediction_ms mt_records)).

Definition get_performance_metrics (now : datetime) (self : ModelMonitor)
    (model_type : option string) (days : Z) : result PerformanceReport :=
  delta ← timedelta_days days;
  cutoff_date ← datetime_sub now delta;
  let relevant_records :=
    List.filter
      (fun record =>
         (cutoff_date <=? batch_timestamp record)%Z &&
         match model_type with
         | None => true
         | Some t => String.eqb (batch_model_type record) t
         end)
      (performance_history self) in
  match relevant_records with
  | [] =>
      Ok (NoPerformanceData "No performance data available for the specified period"
            model_type days)
  | _ =>
      let total_predictions := sum_nat (map batch_size relevant_records) in
      let total_processing_time := qsum (map processing_time_ms relevant_records) in
      let avg_processing_times := map avg_time_per_prediction_ms relevant_records in
      Ok (Performance
            (mkPerformance model_type days total_predictions (List.length relevant_records)
               (q_of_nat total_predictions / q_of_nat (List.length relevant_records))
               total_processing_time
               (np_mean avg_processing_times)
               (np_min avg_processing_times)
               (np_max avg_processing_times)
               (if Qltb 0 total_processing_time
                then q_of_nat total_predictions / (total_processing_time / 1000)
                else 0)
               (match model_type with
                | None =>
                    Some (map (fun g => (fst g, type_metrics (snd g)))
                            (group_by batch_model_type relevant_records))
                | Some _ => None
                end)))
  end.

(** *** [get_monitoring_dashboard_data] *)

(** The key of [daily_stats]: the date ([timestamp[:10]], here the
    number of the day) and the model type. *)
Definition day_key : Type := Z * string.

Definition date_key (t : datetime) : Z := (t / microseconds_per_day)%Z.

Definition day_key_eqb (a b : day_key) : bool :=
  (fst a =? fst b)%Z && String.eqb (snd a) (snd b).

Record DayStats : Type := mkDayStats {
  stat_predictions : nat;
  stat_processing_time : Q
}.

Fixpoint stats_get (key : day_key) (d : list (day_key * DayStats)) : option DayStats :=
  match d with
  | [] => None
  | (k, v) :: d' => if day_key_eqb key k then Some v else stats_get key d'
  end.

Fixpoint stats_set (key : day_key) (v : DayStats) (d : list (day_key * DayStats))
    : list (day_key * DayStats) :=
  match d with
  | [] => [(key, v)]
  | (k, v') :: d' =>
      if day_key_eqb key k then (k, v) :: d' else (k, v') :: stats_set key v d'
  end.

Definition count_prediction (daily_stats : list (day_key * DayStats))
    (record : PredictionRecord) : list (day_key * DayStats) :=
  let key := (date_key (timestamp record), record_model_type record) in
  let stats := default (mkDayStats 0 0) (stats_get key daily_stats) in
  stats_set key (mkDayStats (stat_predictions stats + 1) (stat_processing_time stats))
    daily_stats.

Definition add_processing_time (daily_stats : list (day_key * DayStats))
    (record : BatchRecord) : list (day_key * DayStats) :=
  let key := (date_key (batch_timestamp record), batch_model_type record) in
  match stats_get key daily_stats with
  | Some stats =>
      stats_set key
        (mkDayStats (stat_predictions stats)
           (stat_processing_time stats + processing_time_ms record))
        daily_stats
  | None => daily_stats
  end.

Record DailyEntry : Type := mkDaily {
  daily_date : Z;
  daily_model_type : string;
  daily_predictions : nat;
  daily_avg_processing_time_ms : Q
}.

Record Dashboard : Type := mkDashboard {
  recent_predictions_count : nat;
  recent_batches_count : nat;
  daily_stats : list DailyEntry
}.

Definition get_monitoring_dashboard_data (now : datetime) (self : ModelMonitor)
    : result Dashboard :=
  delta ← timedelta_days 7;
  recent_date ← datetime_sub now delta;
  let recent_predictions :=
    List.filter (fun record => (recent_date <=? timestamp record)%Z)
      (prediction_history self) in
  let recent_performance :=
    List.filter (fun record => (recent_date <=? batch_timestamp record)%Z)
      (performance_history self) in
  let stats := fold_left count_prediction recent_predictions [] in
  let stats := fold_left add_processing_time recent_performance stats in
  Ok (mkDashboard (List.length recent_predictions) (List.length recent_performance)
        (map (fun ks =>
                mkDaily (fst (fst ks)) (snd (fst ks)) (stat_predictions (snd ks))
                  (if (0 <? stat_predictions (snd ks))%nat
                   then stat_processing_time (snd ks) / q_of_nat (stat_predictions (snd ks))
                   else 0))
           stats)).

End Reports.

(** The total weight of the grouped items. *)
Definition group_weight {A} (w : A -> nat) (groups : list (string * list A)) : nat :=
  sum_nat (map (fun g => sum_nat (map w (snd g))) groups).

(** The predictions counted in [daily_stats]. *)
Definition counted (stats : list (day_key * DayStats)) : nat :=
  sum_nat (map (fun ks => stat_predictions (snd ks)) stats).

Definition counts_something (s : DayStats) : Prop := (1 <= stat_predictions s)%nat.

End MonitoringReports.

(** ** Batch prediction (models/predictor_service.py) *)

Module PredictorService.
Import Monitoring.

(** A formatted prediction: its [project_id] entry and the rest. *)
Record FormattedPrediction : Type := mkFormatted {
  fp_project_id : option Z;
  fp_fields : pydict
}.

(** The dictionary a [predict_*] coroutine returns. *)
Record DomainResult : Type := mkDomainResult {
  predictions : list FormattedPrediction;
  model_version : option string;
  result_processing_time_ms : Q
}.

(** A value of [prediction_results]: a domain's result, or the
    dictionary [{'error': str(e)}] put in its place. *)
Inductive PredictionResult : Type :=
| Predicted (r : DomainResult)
| Failed (error : string).

(** A value of the per-project dictionary. *)
Inductive Entry : Type :=
| Prediction (p : FormattedPrediction)
| Error (error : string).

(** The value [prediction_results] keeps for an awaited coroutine: its
    result, or [{'error': str(e)}] when it raised [e]. *)
Definition value_of (outcome : result DomainResult) : PredictionResult :=
  match outcome with
  | Ok r => Predicted r
  | Raise e => Failed (exn_str e)
  end.

(** The prediction types [batch_predict] knows; any other is skipped. *)
Definition known_types : list string := ["completion_time"; "budget_variance"; "risk_score"].

Section Batch.
(** The service's mutable state (monitor, counters, models) and its
    three prediction coroutines, each run to completion when awaited. *)
Variable State : Type.
Definition Coroutine : Type := State -> result DomainResult * State.
Variable predict_completion_time : list Z -> Coroutine.
Variable predict_budget_variance : list Z -> Coroutine.
Variable predict_risk_score : list Z -> Coroutine.

Fixpoint prediction_tasks (prediction_types : list string) (project_ids : list Z)
    : list (string * Coroutine) :=
  match prediction_types with
  | [] => []
  | pred_type :: rest =>
      let tasks := prediction_tasks rest project_ids in
      if String.eqb pred_type "completion_time"
      then (pred_type, predict_completion_time project_ids) :: tasks
      else if String.eqb pred_type "budget_variance"
      then (pred_type, predict_budget_variance project_ids) :: tasks
      else if String.eqb pred_type "risk_score"
      then (pred_type, predict_risk_score project_ids) :: tasks
      else tasks
  end.

(** The loop that awaits the tasks one after the other and fills the
    dictionary [prediction_results]. *)
Fixpoint await_all (tasks : list (string * Coroutine))
    (prediction_results : gmap string PredictionResult) (s : State)
    : gmap string PredictionResult * State :=
  match tasks with
  | [] => (prediction_results, s)
  | (pred_type, task) :: rest =>
      let '(outcome, s') := task s in
      await_all rest (<[pred_type := value_of outcome]> prediction_results) s'
  end.

Definition find_prediction (project_id : Z) (preds : list FormattedPrediction)
    : option FormattedPrediction :=
  find (fun pred => match fp_project_id pred with
                    | Some i => (i =? project_id)%Z
                    | None => false
                    end) preds.

Definition entry_for (project_id : Z) (pred_result : PredictionResult) : Entry :=
  match pred_result with
  | Failed e => Error e
  | Predicted r =>
      match find_prediction project_id (predictions r) with
      | Some project_prediction => Prediction project_prediction
      | None => Error "No prediction found"
      end
  end.

(** The inner loop over [prediction_results.items()]: one entry per
    prediction type, computed from that type's value alone. *)
Definition project_entries (project_id : Z)
    (prediction_results : gmap string PredictionResult) : gmap string Entry :=
  entry_for project_id <$> prediction_results.

Definition organize (project_ids : list Z)
    (prediction_results : gmap string PredictionResult) : gmap Z (gmap string Entry) :=
  fold_left (fun results project_id =>
               <[project_id := project_entries project_id prediction_results]> results)
    project_ids ∅.

Definition batch_predict (project_ids : list Z) (prediction_types : list string) (s : State)
    : gmap Z (gmap string Entry) * State :=
  let tasks := prediction_tasks prediction_types project_ids in
  let '(prediction_results, s') := await_all tasks ∅ s in
  (organize project_ids prediction_results, s').

End Batch.
End PredictorService.

(** ** Explanations and training targets (models/predictor_service.py) *)

Module ServiceReports.
Import Frame Monitoring PredictorService RiskNarrative.
Local Open Scope Q_scope.

(** The risk score [retrain_models] derives from one row of the
    historical outcomes. *)
Definition risk_target (row : features) : Q :=
  let risk_score := 0 in
  let risk_score :=
    if cltb (Fin 20) (feature row "actual_budget_variance" 0)
    then risk_score + 30 else risk_score in
  let risk_score :=
    if cltb (feature row "client_satisfaction_score" 5) (Fin 6)
    then risk_score + 25 else risk_score in
  let risk_score :=
    if cltb (Fin 10) (feature row "bugs_found" 0)
    then risk_score + 20 else risk_score in
  if Qltb 100 risk_score then 100 else risk_score.

Definition risk_targets (historical_data : list features) : list Q :=
  map risk_target historical_data.

Record FeatureContribution : Type := mkFeatureContribution {
  contribution_shap_value : Q;
  contribution_importance : Q;
  contribution_type : string
}.

Record PredictionExplanation : Type := mkPredictionExplanation {
  explained_project_id : Z;
  explained_model_type : string;
  shap_values : list (string * Q);
  base_value : Q;
  explained_prediction : Q;
  feature_contributions : list (string * FeatureContribution)
}.

(** [prediction[key]] used as a number: a missing key raises
    [KeyError], a value that is not a number makes [pred_value * 0.5]
    raise. *)
Definition prediction_value (fields : pydict) (key : string) : result Q :=
  match assoc key fields with
  | None => Raise (OtherError ("KeyError: '" +:+ key +:+ "'"))
  | Some (PNum q) => Ok q
  | Some (PStr _) => Raise (TypeError "can't multiply sequence by non-int of type 'float'")
  | Some PNone =>
      Raise (TypeError "unsupported operand type(s) for *: 'NoneType' and 'float'")
  end.

(** The mock SHAP values: each feature's share of the half of the
    prediction that is not the base value. *)
Definition mock_shap_values (pred_value base_value : Q) (feature_importance : list (string * Q))
    : list (string * Q) :=
  fold_left
    (fun shap_values fi =>
       assoc_set (fst fi) ((pred_value - base_value) * snd fi) shap_values)
    feature_importance [].

Definition contributions_of (shap_values feature_importance : list (string * Q))
    : list (string * FeatureContribution) :=
  fold_left
    (fun feature_contributions fs =>
       assoc_set (fst fs)
         (mkFeatureContribution (snd fs) (default 0 (assoc (fst fs) feature_importance))
            (if Qltb 0 (snd fs) then "positive" else "negative"))
         feature_contributions)
    shap_values [].

Section Explain.
Variable State : Type.
(** The three predictors: their aggregated feature importance in a
    state of the service and their prediction coroutines, called with
    project ids and manual features. *)
Variable Features : Type.
Variable completion_importance budget_importance risk_importance : State -> list (string * Q).
Variable predict_completion_time predict_budget_variance predict_risk_score :
  list Z -> option Features -> Coroutine State.

(** The importance dictionary [explain_prediction] reads for a model type. *)
Definition importance_read (model_type : string) (s : State) : list (string * Q) :=
  if String.eqb model_type "completion_time" then completion_importance s
  else if String.eqb model_type "budget_variance" then budget_importance s
  else risk_importance s.

Definition explain_prediction (project_id : Z) (model_type : string)
    (features : option Features) (s : State) : result PredictionExplanation * State :=
  let model :=
    if String.eqb model_type "completion_time"
    then Ok (completion_importance, predict_completion_time, "predicted_completion_days")
    else if String.eqb model_type "budget_variance"
    then Ok (budget_importance, predict_budget_variance, "predicted_variance_percentage")
    else if String.eqb model_type "risk_score"
    then Ok (risk_importance, predict_risk_score, "predicted_risk_score")
    else Raise (ValueError ("Unknown model type: " +:+ model_type)) in
  match model with
  | Raise e => (Raise e, s)
  | Ok (get_feature_importance, predict, value_key) =>
      let feature_importance := get_feature_importance s in
      let '(outcome, s') := predict [project_id] features s in
      (prediction_result ← outcome;
       match predictions prediction_result with
       | [] => Raise (ValueError "No prediction found for explanation")
       | prediction :: _ =>
           pred_value ← prediction_value (fp_fields prediction) value_key;
           let base_value := pred_value * 0.5 in
           let shap_values := mock_shap_values pred_value base_value feature_importance in
           Ok (mkPredictionExplanation project_id model_type shap_values base_value pred_value
                 (contributions_of shap_values feature_importance))
       end,
       s')
  end.

End Explain.
End ServiceReports.

(** ** Concrete collaborators and inputs used by the examples below *)

Module Examples.
Import Frame Features ModelUtils.
Local Open Scope Q_scope.

(** A scaler that leaves the matrix as it is and a selector that keeps
    the first [k] columns. *)
Definition sk0 : Sklearn :=
  {| scaler := unit;
     scaler_fit := fun _ _ => tt;
     scaler_transform := fun _ m => m;
     select_k_best := fun _ k _ _ => seq 0 k |}.

Definition get_or {A} (d : A) (m : result A) : A :=
  match m with Ok a => a | Raise _ => d end.

(** *** A trained risk predictor *)

Definition risk_train : DataFrame :=
  mkFrame [1; 2; 3; 4]%Z
    [("open_issues", NumCol [Fin 2; Fin 7; Fin 30; Fin 45]);
     ("budget_utilization_percentage", NumCol [Fin 20; Fin 95; Fin 60; Fin 85])].

Definition risk_targets : list Q := [10; 30; 60; 90].

Definition risk_processor : FeatureProcessor sk0 :=
  get_or (Features.init sk0 18)
    (RiskScoreFeatureProcessor.fit (Features.init sk0 18) risk_train (Some risk_targets)).

(** A linear regressor on the first processed feature, and a classifier
    that answers "High" (index 1 of the fitted classes) with
    probability 0.5. *)
Definition risk_regression (row : list cell) : Q := 2 * fin_value (hd (Fin 0) row).

Definition risk_classifier : RiskScoreModel.Classifier :=
  {| RiskScoreModel.clf_predict := fun _ => 1%nat;
     RiskScoreModel.clf_predict_proba := fun _ => [0.1; 0.5; 0.2; 0.2] |}.


(** *** Numerical collaborators *)

(** The quantile of a sample by linear interpolation between the order
    statistics, numpy's default method, for [0 <= q <= 1]. *)
Fixpoint insert_q (x : Q) (l : list Q) : list Q :=
  match l with
  | [] => [x]
  | y :: l' => if Qleb x y then x :: y :: l' else y :: insert_q x l'
  end.

Definition sort_q (l : list Q) : list Q := fold_right insert_q [] l.

Fixpoint sorted_q (l : list Q) : Prop :=
  match l with
  | [] => True
  | x :: rest => List.Forall (Qle x) rest /\ sorted_q rest
  end.

Definition linear_quantile (dist : list Q) (q : Q) : Q :=
  let v := sort_q dist in
  let h := inject_Z (Z.of_nat (List.length v - 1)) * q in
  let i := Z.to_nat (Qfloor h) in
  let lo := nth i v 0 in
  let hi := nth (S i) v lo in
  lo + (h - inject_Z (Qfloor h)) * (hi - lo).

(** The standard normal quantiles the examples need, to four decimals. *)
Definition normal_quantile (p : Q) : Q :=
  if Qleb p 0.5 then 0
  else if Qleb p 0.75 then 0.6745
  else if Qleb p 0.95 then 1.6449
  else if Qleb p 0.975 then 1.96
  else 2.5758.

(** A standard deviation reported as 3 whatever the sample, pseudo-random
    draws that cycle through the indices, quantile regressors that
    predict a constant band around the first feature. *)
Definition ext0 : External :=
  {| norm_ppf := normal_quantile;
     np_quantile := linear_quantile;
     np_std := fun _ => 3;
     random_choice := fun k n => map (fun i => ((i + k) mod n)%nat) (seq 0 n);
     quantile_regressor_fit := fun q _ _ =>
       Ok (fun features => Ok (map (fun row => fin_value (hd (Fin 0) row) + (q - 0.5) * 10) features));
     ks_2samp := fun _ _ => (0, 1) |}.

Definition risk_estimator : ConfidenceIntervalEstimator :=
  fit ext0 (ModelUtils.init "quantile_regression") [12; 28; 61; 88] risk_targets
    (Some (values risk_train)).

Definition risk_predictor : RiskScoreModel.RiskScorePredictor sk0 :=
  RiskScoreModel.mkPredictor risk_processor (Some risk_regression) (Some risk_classifier)
    RiskScoreModel.fitted_classes risk_estimator.

(** Two projects: 5 and 60 open issues. *)
Definition risk_input : DataFrame :=
  mkFrame [10; 11]%Z
    [("open_issues", NumCol [Fin 5; Fin 60]);
     ("budget_utilization_percentage", NumCol [Fin 50; Fin 99])].


(** *** Quantile regressors that cross

    Two linear quantile models of one feature [x]: the 5% model predicts
    [2 x], the 95% model [x + 1].  They are ordered on the training
    range [x <= 1] and cross beyond it. *)
Definition crossing_fit (q : Q) (features : list (list cell)) (targets : list Q)
    : result QuantileModel :=
  Ok (fun rows =>
        Ok (map (fun row => let x := fin_value (hd (Fin 0) row) in
                            if Qleb q 0.5 then 2 * x else x + 1) rows)).

Definition ext_crossing : External :=
  {| norm_ppf := normal_quantile;
     np_quantile := linear_quantile;
     np_std := fun _ => 3;
     random_choice := random_choice ext0;
     quantile_regressor_fit := crossing_fit;
     ks_2samp := ks_2samp ext0 |}.

Definition crossing_estimator : ConfidenceIntervalEstimator :=
  fit ext_crossing (ModelUtils.init "quantile_regression") [0.2; 1; 1.5] [0.1; 1.2; 1.9]
    (Some [[Fin 0]; [Fin 0.5]; [Fin 1]]).


(** *** A monitor with ten logged completion-time predictions

    The first five predict 90, 95, 100, 105 and 110 days, the last five
    97, 102, 107, 112 and 117 days; one is logged per hour up to [now0]. *)
Definition now0 : Z := 63900000000000000.

Definition hour : Z := 3600000000.

Definition log_days (self : Monitoring.ModelMonitor) (k : Z) (days : Q)
    : Monitoring.ModelMonitor :=
  Monitoring.log_prediction (now0 - (10 - k) * hour)%Z self "completion_time" k
    [("predicted_days", Monitoring.PNum days)]
    (Some [("progress_percentage", Monitoring.PNum (days / 2))]) None.

Fixpoint log_all (self : Monitoring.ModelMonitor) (k : Z) (days : list Q)
    : Monitoring.ModelMonitor :=
  match days with
  | [] => self
  | d :: rest => log_all (log_days self k d) (k + 1)%Z rest
  end.

Definition drift_monitor : Monitoring.ModelMonitor :=
  log_all (Monitoring.init 30) 0 [90; 95; 100; 105; 110; 97; 102; 107; 112; 117].

(** Ten predictions of 100 days each, logged without their features. *)
Fixpoint log_bare (self : Monitoring.ModelMonitor) (k : nat) : Monitoring.ModelMonitor :=
  match k with
  | O => self
  | S k' =>
      Monitoring.log_prediction (now0 - Z.of_nat k * hour)%Z (log_bare self k')
        "completion_time" (Z.of_nat k) [("predicted_days", Monitoring.PNum 100)] None None
  end.

Definition bare_monitor : Monitoring.ModelMonitor := log_bare (Monitoring.init 30) 10.

(** The same monitor after three predictions only. *)
Definition young_monitor : Monitoring.ModelMonitor :=
  log_all (Monitoring.init 30) 0 [90; 95; 100].


(** *** An instance for the fallback explainer: a project 5% under
    budget and complete. *)
Definition unfitted_explainer : ShapExplainer.SHAPExplainer :=
  ShapExplainer.mkExplainer "completion_time" [] false.

Definition finished_project : DataFrame :=
  mkFrame [7]%Z
    [("cost_variance_percentage", NumCol [Fin (-5)]);
     ("progress_percentage", NumCol [Fin 100]);
     ("team_velocity", NumCol [Fin 3])].


(** *** A service whose budget-variance prediction raises

    The completion-time coroutine answers for every requested project
    ([resolving]) or for the first one only ([partial]); the state counts
    the coroutines that have run. *)
Definition completion_for (pid : Z) : PredictorService.FormattedPrediction :=
  PredictorService.mkFormatted (Some pid)
    [("predicted_completion_days", Monitoring.PNum 12)].

Definition resolving_completion (project_ids : list Z) (s : nat)
    : result PredictorService.DomainResult * nat :=
  (Ok (PredictorService.mkDomainResult (map completion_for project_ids) (Some "1.0.0") 3), S s).

Definition partial_completion (project_ids : list Z) (s : nat)
    : result PredictorService.DomainResult * nat :=
  (Ok (PredictorService.mkDomainResult (map completion_for (firstn 1 project_ids))
         (Some "1.0.0") 3), S s).

Definition failing_budget (project_ids : list Z) (s : nat)
    : result PredictorService.DomainResult * nat :=
  (Raise (ValueError "Budget variance model not available"), S s).

Definition unused_risk (project_ids : list Z) (s : nat)
    : result PredictorService.DomainResult * nat :=
  (Raise (ValueError "Risk score model not available"), S s).


(** *** Frames for the feature processors *)

Definition ints (l : list Z) : column := NumCol (map (fun z => Fin (inject_Z z)) l).

(** The fixture [sample_features] of tests/test_models.py. *)
Definition sample_features : DataFrame :=
  mkFrame [0; 1; 2; 3; 4]%Z
    [("progress_percentage", ints [10; 30; 50; 70; 90]%Z);
     ("team_size", ints [3; 4; 5; 3; 4]%Z);
     ("total_tasks", ints [20; 30; 40; 25; 35]%Z);
     ("completed_tasks", ints [2; 9; 20; 18; 32]%Z);
     ("actual_hours", ints [100; 300; 500; 700; 900]%Z);
     ("planned_hours", ints [200; 400; 600; 800; 1000]%Z);
     ("budget_spent", ints [1000; 3000; 5000; 7000; 9000]%Z);
     ("budget_allocated", ints [10000; 10000; 10000; 10000; 10000]%Z);
     ("schedule_variance_days", ints [-2; 0; 3; -1; 2]%Z);
     ("cost_variance_percentage", ints [5; 15; 25; 35; 45]%Z);
     ("team_velocity", NumCol [Fin 2.5; Fin 3.0; Fin 2.8; Fin 3.2; Fin 2.9]);
     ("bugs_found", ints [0; 2; 5; 3; 1]%Z);
     ("bugs_resolved", ints [0; 2; 4; 2; 1]%Z);
     ("client_satisfaction_score", ints [8; 7; 6; 7; 8]%Z);
     ("total_issues", ints [1; 3; 5; 4; 2]%Z);
     ("resolved_issues", ints [1; 2; 3; 3; 2]%Z);
     ("external_dependencies", ints [0; 1; 2; 1; 0]%Z)].

(** Four projects with their start dates, 40, 30, 20 and 10 days before
    [start_clock]; and the same projects as a later request sends them,
    without the date column. *)
Definition start_clock : Z := 100 * 86400.

Definition dated_features : DataFrame :=
  mkFrame [0; 1; 2; 3]%Z
    [("progress_percentage", ints [10; 30; 50; 70]%Z);
     ("team_size", ints [3; 4; 5; 3]%Z);
     ("actual_start_date",
      DateCol (map (fun d => Some ((100 - d) * 86400)%Z) [40; 30; 20; 10]%Z))].

Definition undated_features : DataFrame :=
  mkFrame [0; 1; 2; 3]%Z
    [("progress_percentage", ints [10; 30; 50; 70]%Z);
     ("team_size", ints [3; 4; 5; 3]%Z)].

Definition completion_processor : FeatureProcessor sk0 :=
  get_or (Features.init sk0 15)
    (CompletionTimeFeatureProcessor.fit start_clock (Features.init sk0 15) dated_features None).

(** Four projects with a daily burn rate; [quality_score] is missing
    for three of them. *)
Definition sparse_features : DataFrame :=
  mkFrame [0; 1; 2; 3]%Z
    [("daily_burn_rate", NumCol [Fin 1; Fin 2; Fin 3; Fin 4]);
     ("quality_score", NumCol [NaN; NaN; NaN; Fin 5])].


(** The sparse frame with a start-date column added. *)
Definition sparse_dated_features : DataFrame :=
  mkFrame (index sparse_features)
    (columns sparse_features ++
     [("actual_start_date", DateCol [Some 0; Some 86400; None; Some 200000]%Z)]).

End Examples.

(** ** Further instances *)

Module Scenarios.
Import Frame Features ModelUtils Monitoring.
Local Open Scope Q_scope.

(** *** A registry with two versions of the risk model, registered at
    times 100 and 200; models are known by a label, metadata is a number
    of training samples. *)
Definition registry : ModelVersionManager.ModelVersionManager string nat :=
  ModelVersionManager.register_model 200
    (ModelVersionManager.register_model 100 (ModelVersionManager.init "./models/trained")
       "risk_score" "forest-a" "1.0.0" 50%nat)
    "risk_score" "forest-b" "1.1.0" 80%nat.

(** *** Three evaluations; the percentage error of the first could not
    be computed for the classification record. *)
Definition evaluations : list (ModelEvaluator.EvaluationRecord cell) :=
  [ModelEvaluator.mkEvaluation "rf" "regression" [("mae", Fin 3.2); ("r2_score", Fin 0.81)]
     40 10%Z;
   ModelEvaluator.mkEvaluation "xgb" "regression" [("mae", Fin 2.1); ("r2_score", Fin 0.88)]
     40 20%Z;
   ModelEvaluator.mkEvaluation "svm" "classification" [("accuracy", Fin 0.7); ("roc_auc", NaN)]
     40 30%Z].

(** *** Six completion-time predictions with their outcomes *)
Definition outcome_record (k : Z) (predicted actual : Q) : PredictionRecord :=
  mkRecord (Examples.now0 - k * Examples.hour)%Z "completion_time" k
    [("predicted_days", PNum predicted)] None (Some [("actual_days", PNum actual)]).

Definition outcome_records : list PredictionRecord :=
  [outcome_record 1 30 32; outcome_record 2 45 41; outcome_record 3 12 15;
   outcome_record 4 60 52; outcome_record 5 20 20; outcome_record 6 33 38].

(** A rational approximation of [np.sqrt]: four Newton steps from
    [1 + x]. *)
Definition newton_sqrt (x : Q) : Q :=
  let step := fun y => Qred ((y + x / y) / 2) in
  step (step (step (step (1 + x)))).

(** *** A monitor that has logged three batches of two model types *)
Definition prediction_of (days : Q) : pydict := [("predicted_days", PNum days)].

Definition batch_monitor : ModelMonitor :=
  let m0 := Examples.drift_monitor in
  let m1 := Examples.get_or m0
              (log_batch_predictions Examples.ext0 (Examples.now0 - 3 * Examples.hour)%Z m0
                 "completion_time" [prediction_of 30; prediction_of 45] 24 (Some "1.0.0")) in
  let m2 := Examples.get_or m1
              (log_batch_predictions Examples.ext0 (Examples.now0 - 2 * Examples.hour)%Z m1
                 "risk_score" [[("risk_score", PNum 40)]] 9 None) in
  Examples.get_or m2
    (log_batch_predictions Examples.ext0 (Examples.now0 - Examples.hour)%Z m2
       "completion_time" [prediction_of 12; prediction_of 60; prediction_of 20] 30
       (Some "1.0.0")).

(** *** A service state for explanations: the state counts the
    coroutines run; the completion model ranks two features. *)
Definition ranked_importance (s : nat) : list (string * Q) :=
  [("progress_percentage", 0.6); ("team_velocity", 0.4)].

Definition no_importance (s : nat) : list (string * Q) := [].

Definition completion_with_features (project_ids : list Z) (features : option unit) (s : nat)
    : result PredictorService.DomainResult * nat :=
  Examples.resolving_completion project_ids s.

Definition unavailable (project_ids : list Z) (features : option unit) (s : nat)
    : result PredictorService.DomainResult * nat :=
  (Raise (ValueError "model not available"), S s).

(** *** A trained completion-time predictor *)
Definition completion_predictor : CompletionTimeModel.CompletionTimePredictor Examples.sk0 :=
  CompletionTimeModel.mkPredictor Examples.completion_processor (Some (fun _ => 21))
    Examples.risk_estimator.

(** *** An estimator fitted for the normal approximation *)
Definition residual_estimator : ConfidenceIntervalEstimator :=
  fit Examples.ext0 (ModelUtils.init "residual") [12; 28; 61; 88] Examples.risk_targets None.

End Scenarios.

(** * Properties *)

(** ** Arithmetic and list helpers *)

Lemma Qleb_le (x y : Q) : Qleb x y = true <-> (x <= y)%Q.
Proof. unfold Qleb. apply Qle_bool_iff. Qed.

Lemma Qleb_gt (x y : Q) : Qleb x y = false <-> (y < x)%Q.
Proof.
  unfold Qleb. split; intros H.
  - apply Qnot_le_lt. intros Hle. apply Qle_bool_iff in Hle. congruence.
  - destruct (Qle_bool x y) eqn:E; [|reflexivity].
    apply Qle_bool_iff in E. exfalso. revert E. apply Qlt_not_le, H.
Qed.

Lemma Qltb_lt (x y : Q) : Qltb x y = true <-> (x < y)%Q.
Proof.
  unfold Qltb. rewrite negb_true_iff. apply (Qleb_gt y x).
Qed.

Lemma Qltb_ge (x y : Q) : Qltb x y = false <-> (y <= x)%Q.
Proof.
  unfold Qltb. rewrite negb_false_iff. apply (Qleb_le y x).
Qed.

Lemma result_bind_ok {A B} (m : result A) (f : A -> result B) (b : B) :
  m ≫= f = Ok b -> exists a, m = Ok a /\ f a = Ok b.
Proof. destruct m as [a|e]; cbn; [eauto | discriminate]. Qed.

Ltac bind_ok H :=
  let a := fresh "a" in
  let Ha := fresh "Ha" in
  apply result_bind_ok in H; destruct H as (a & Ha & H).

(** Linear arithmetic over [Q] after halving is turned into a product. *)
Ltac qlra := unfold Qdiv in *; change (/ 2)%Q with (1 # 2)%Q in *; lra.

(** ** The embedding on small inputs *)

Section SmallInputs.
Import Frame.
Local Open Scope Q_scope.

Example endswith_percentage :
  str_endswith "_percentage" "cost_variance_percentage" = true
  /\ str_endswith "_rate" "rate" = false.
Proof. split; reflexivity. Qed.

Example contains_lowercased :
  str_contains "risk" (str_lower "Dependency_RISK") = true
  /\ str_contains "risk" (str_lower "team_size") = false.
Proof. split; reflexivity. Qed.

Example division_by_zero :
  cdiv (Fin 3) (Fin 0) = PInf /\ cdiv (Fin 0) (Fin 0) = NaN /\ cdiv (Fin (-3)) (Fin 0) = NInf.
Proof. repeat split. Qed.

Example nan_propagates :
  cadd NaN (Fin 1) = NaN /\ cmaximum (Fin 0) NaN = NaN /\ cltb NaN (Fin 1) = false.
Proof. repeat split. Qed.

Example median_skips_nan :
  median [Fin 1; NaN; Fin 4; Fin 2; Fin 3] = Fin (5 # 2)
  /\ median [Fin 7; Fin 1; NaN; Fin 3] = Fin 3
  /\ median [NaN; NaN] = NaN.
Proof. repeat split. Qed.

Example missing_fraction :
  null_mean (NumCol [NaN; NaN; NaN; Fin 5]) = Fin (3 # 4)
  /\ null_mean (NumCol []) = NaN.
Proof. split; reflexivity. Qed.

Example correlation_test :
  abs_corr_gt 0.95 [Fin 1; Fin 2; Fin 3] [Fin 10; Fin 20; Fin 30] = true
  /\ abs_corr_gt 0.95 [Fin 1; Fin 2; Fin 3] [Fin 30; Fin 20; Fin 10] = true
  /\ abs_corr_gt 0.95 [Fin 1; Fin 2; Fin 3] [Fin 1; Fin 3; Fin 2] = false
  /\ abs_corr_gt 0.95 [Fin 1; Fin 2; Fin 3] [Fin 4; Fin 4; Fin 4] = false.
Proof. repeat split. Qed.

Example scalar_broadcast :
  binop cdiv (Series [Fin 2; Fin 4]) (Scalar (Fin 2)) = Series [Fin (2 / 2); Fin (4 / 2)].
Proof. reflexivity. Qed.

Example assignment_appends_or_replaces :
  column_names (set (set (mkFrame [0]%Z [("a", NumCol [Fin 1])]) "b" (num 0)) "a" (num 5))
  = ["a"; "b"].
Proof. reflexivity. Qed.

Example category_boundaries :
  RiskScoreModel._score_to_category 25 = "Low"
  /\ RiskScoreModel._score_to_category 25.5 = "Medium"
  /\ RiskScoreModel._score_to_category 75 = "High"
  /\ RiskScoreModel._score_to_category 100 = "Critical".
Proof. repeat split. Qed.

Example blend_confident_outlier :
  RiskScoreModel.blend 10 "Critical" 0.95 == 27.4375.
Proof. reflexivity. Qed.

Example numpy_quantile :
  Examples.linear_quantile [3; 1; 2; 10] 0.9 == 7.9.
Proof. reflexivity. Qed.

End SmallInputs.

(** ** The hybrid risk predictor *)

Section RiskProperties.
Import Frame Features ModelUtils RiskScoreModel.
Local Open Scope Q_scope.

Lemma np_clip_bounds (x lo hi : Q) : lo <= hi -> lo <= np_clip x lo hi <= hi.
Proof.
  intros H. unfold np_clip. split.
  - apply Q.min_glb; [apply Q.le_max_r | exact H].
  - apply Q.le_min_r.
Qed.

Lemma adjustment_weight_le (max_prob : Q) : adjustment_weight max_prob <= 0.3.
Proof. unfold adjustment_weight. apply Q.le_min_l. Qed.

Lemma adjustment_weight_pos (max_prob : Q) : 0.8 < max_prob -> 0 < adjustment_weight max_prob.
Proof.
  intros H. unfold adjustment_weight.
  apply Q.min_glb_lt; [reflexivity | lra].
Qed.





(** The one fixed score-to-category mapping: at most 25 is "Low", at
    most 50 "Medium", at most 75 "High", anything above "Critical". *)
Theorem score_to_category_boundaries :
  forall score : Q,
    (_score_to_category score = "Low" <-> score <= 25)
    /\ (_score_to_category score = "Medium" <-> 25 < score /\ score <= 50)
    /\ (_score_to_category score = "High" <-> 50 < score /\ score <= 75)
    /\ (_score_to_category score = "Critical" <-> 75 < score).
Proof.
  intros score. unfold _score_to_category.
  destruct (Qleb score 25) eqn:E1; [apply Qleb_le in E1 | apply Qleb_gt in E1];
    (destruct (Qleb score 50) eqn:E2; [apply Qleb_le in E2 | apply Qleb_gt in E2]);
    (destruct (Qleb score 75) eqn:E3; [apply Qleb_le in E3 | apply Qleb_gt in E3]);
    repeat split; intros; try discriminate; try reflexivity; try lra.
Qed.

Lemma item_ok {A} (l : list A) (i : nat) (a : A) : item l i = Ok a -> nth_error l i = Some a.
Proof. unfold item. destruct (nth_error l i); [intros [= ->]; reflexivity | discriminate]. Qed.

Lemma hybrid_score_bounds score category probs h :
  hybrid_score score category probs = Ok h -> 0 <= h <= 100.
Proof.
  unfold hybrid_score. intros H. bind_ok H. injection H as <-.
  apply np_clip_bounds. discriminate.
Qed.

Lemma hybrid_predictions_bounds ss : forall cs ps hs,
  _create_hybrid_predictions ss cs ps = Ok hs ->
  Forall (fun h => 0 <= h <= 100) hs.
Proof.
  induction ss as [|s ss IH]; intros cs ps hs H; cbn in H.
  - injection H as <-. constructor.
  - destruct cs as [|c cs]; [injection H as <-; constructor|].
    destruct ps as [|p ps]; [injection H as <-; constructor|].
    bind_ok H. bind_ok H. injection H as <-.
    constructor; [eapply hybrid_score_bounds; eassumption | eapply IH; eassumption].
Qed.

Lemma inverse_transform_nth classes y : forall cs,
  inverse_transform classes y = Ok cs ->
  forall i c, nth_error cs i = Some c ->
    exists k, nth_error y i = Some k /\ nth_error classes k = Some c.
Proof.
  induction y as [|k y IH]; intros cs H i c Hi; cbn in H.
  - injection H as <-. destruct i; discriminate.
  - destruct (nth_error classes k) as [c0|] eqn:Hk; [|discriminate].
    bind_ok H. injection H as <-.
    destruct i as [|i]; cbn in Hi |- *.
    + injection Hi as <-. eauto.
    + eapply IH; eassumption.
Qed.

Lemma insights_spec indices hs cats names probs cis : forall ps,
  insights indices hs cats names probs cis = Ok ps ->
  List.length ps = List.length indices /\
  forall j p, nth_error ps j = Some p ->
    exists i, nth_error indices j = Some i
      /\ nth_error hs i = Some (risk_score p)
      /\ nth_error cats i = Some (risk_category p).
Proof.
  induction indices as [|i indices IH]; intros ps H; cbn in H.
  - injection H as <-. split; [reflexivity|]. intros [|j] p; discriminate.
  - bind_ok H. bind_ok H. bind_ok H. bind_ok H. bind_ok H. injection H as <-.
    destruct (IH _ Ha3) as [Hlen Hnth].
    split; [cbn; now rewrite Hlen|].
    intros [|j] p Hp; cbn in Hp.
    + injection Hp as <-. exists i. cbn. auto using item_ok.
    + apply Hnth in Hp. exact Hp.
Qed.

(** C1, as amended.  Whenever [predict] returns in hybrid mode (the
    default, and the mode the service uses), it returns one prediction per
    input row; each [risk_score] lies in [0, 100], and each
    [risk_category] is the decoded label that the classification ensemble
    predicted for that row: it is not derived from the score. *)
Theorem predict_hybrid_scores_clamped_categories_from_classifier :
  forall (sk : Sklearn) (ext : External) (self : RiskScorePredictor sk)
         (X : DataFrame) (confidence_level : Q) (preds : list Prediction),
    predict ext self X confidence_level true = Ok preds ->
    List.length preds = nrows X
    /\ exists classification X_processed,
         classification_ensemble self = Some classification
         /\ RiskScoreFeatureProcessor.transform (feature_processor self) X = Ok X_processed
         /\ forall i p, nth_error preds i = Some p ->
              0 <= risk_score p /\ risk_score p <= 100
              /\ exists row,
                   nth_error (out_values X_processed) i = Some row
                   /\ nth_error (label_encoder self) (clf_predict classification row)
                      = Some (risk_category p).
Proof.
  intros sk ext self X c preds H. unfold predict in H.
  destruct (regression_ensemble self) as [reg|]; [|discriminate].
  destruct (classification_ensemble self) as [clf|]; [|discriminate].
  bind_ok H. rename a into Xp, Ha into HXp.
  bind_ok H. rename a into cats, Ha into Hcats.
  bind_ok H. rename a into cis, Ha into Hcis.
  bind_ok H. rename a into hs, Ha into Hhs.
  apply insights_spec in H. destruct H as [Hlen Hnth].
  split; [rewrite Hlen; apply length_seq|].
  exists clf, Xp. split; [reflexivity|]. split; [exact HXp|].
  intros i p Hp. destruct (Hnth _ _ Hp) as (k & Hk & Hscore & Hcat).
  assert (k = i) as ->.
  { pose proof Hk as Hk'. apply nth_error_In in Hk'.
    assert (i < List.length (seq 0 (nrows X)))%nat as Hi
      by (apply nth_error_Some; congruence).
    rewrite length_seq in Hi.
    rewrite nth_error_nth' with (d := O) in Hk by (now rewrite length_seq).
    rewrite seq_nth in Hk by exact Hi. now injection Hk. }
  apply hybrid_predictions_bounds in Hhs.
  rewrite List.Forall_forall in Hhs.
  specialize (Hhs _ (nth_error_In _ _ Hscore)).
  split; [tauto|]. split; [tauto|].
  destruct (inverse_transform_nth _ _ _ Hcats _ _ Hcat) as (lbl & Hlbl & Hclass).
  rewrite nth_error_map in Hlbl.
  destruct (nth_error (out_values Xp) i) as [row|]; [|discriminate].
  injection Hlbl as <-. eauto.
Qed.


(** C1, a run of the amended statement: the example predictor on two
    projects. *)
Lemma predict_hybrid_scores_clamped_witness :
  exists preds,
    predict Examples.ext0 Examples.risk_predictor Examples.risk_input 0.9 true = Ok preds
    /\ List.length preds = nrows Examples.risk_input
    /\ exists classification X_processed,
         classification_ensemble Examples.risk_predictor = Some classification
         /\ RiskScoreFeatureProcessor.transform
              (feature_processor Examples.risk_predictor) Examples.risk_input
            = Ok X_processed
         /\ forall i p, nth_error preds i = Some p ->
              0 <= risk_score p /\ risk_score p <= 100
              /\ exists row,
                   nth_error (out_values X_processed) i = Some row
                   /\ nth_error (label_encoder Examples.risk_predictor)
                        (clf_predict classification row)
                      = Some (risk_category p).
Proof.
  eexists. split; [vm_compute; reflexivity|].
  apply (predict_hybrid_scores_clamped_categories_from_classifier
           Examples.sk0 Examples.ext0 Examples.risk_predictor Examples.risk_input 0.9).
  vm_compute. reflexivity.
Defined.

(** C1, counterexample.  The example predictor's regressor scores the
    first project 10 while its classifier answers "High": in hybrid mode
    the returned category is "High" although the fixed mapping sends the
    returned score 10 to "Low".  With hybrid mode off the second project's
    score, 120, is returned unclamped. *)
Lemma predict_category_not_from_score :
  (exists p1 p2,
     predict Examples.ext0 Examples.risk_predictor Examples.risk_input 0.9 true = Ok [p1; p2]
     /\ risk_category p1 = "High"
     /\ _score_to_category (risk_score p1) = "Low")
  /\ (exists q1 q2,
        predict Examples.ext0 Examples.risk_predictor Examples.risk_input 0.9 false
        = Ok [q1; q2]
        /\ 100 < risk_score q2).
Proof.
  split.
  - do 2 eexists. split; [vm_compute; reflexivity|]. split; reflexivity.
  - do 2 eexists. split; [vm_compute; reflexivity|]. reflexivity.
Qed.

End RiskProperties.

(** ** Confidence intervals *)

Section IntervalProperties.
Import Frame ModelUtils.
Local Open Scope Q_scope.

Variable ext : External.

(** What is assumed of numpy and scipy: a standard deviation is not
    negative, the normal quantile function is not negative from the
    median up, and a sample quantile grows with its level. *)
Hypothesis np_std_nonneg : forall l, 0 <= np_std ext l.
Hypothesis norm_ppf_nonneg : forall p, 1 # 2 <= p -> 0 <= norm_ppf ext p.
Hypothesis np_quantile_monotone :
  forall dist q1 q2, 0 <= q1 -> q1 <= q2 -> q2 <= 1 ->
    np_quantile ext dist q1 <= np_quantile ext dist q2.

Lemma fit_is_fitted self predictions actuals features :
  is_fitted (fit ext self predictions actuals features) = true.
Proof. reflexivity. Qed.

Lemma fit_residual_std self predictions actuals features :
  residual_std (fit ext self predictions actuals features)
  = Some (np_std ext (zip_with Qminus actuals predictions)).
Proof.
  unfold fit. destruct features; cbn;
    repeat (match goal with |- context [if ?b then _ else _] => destruct b end); reflexivity.
Qed.

Lemma residual_intervals_ok self predictions lower_q upper_q std :
  residual_std self = Some std -> 0 <= std -> 0 <= norm_ppf ext (1 - lower_q) ->
  exists ivs,
    _predict_residual_intervals ext self predictions lower_q upper_q = Ok ivs
    /\ List.length ivs = List.length predictions
    /\ Forall well_formed ivs /\ Forall ordered ivs.
Proof.
  intros Hstd Hpos Hz. unfold _predict_residual_intervals. rewrite Hstd.
  eexists. split; [reflexivity|]. split; [apply length_map|].
  assert (0 <= norm_ppf ext (1 - lower_q) * std) as Hm by (apply Qmult_le_0_compat; assumption).
  split; apply List.Forall_forall; intros iv Hin; apply in_map_iff in Hin;
    destruct Hin as (pred & <- & _); unfold well_formed, ordered; cbn.
  - ring.
  - lra.
Qed.

Lemma zip3_well_formed predictions : forall lower_bounds upper_bounds,
  Forall well_formed (zip3 predictions lower_bounds upper_bounds).
Proof.
  induction predictions as [|p ps IH]; intros [|l ls] [|u us]; cbn; try constructor.
  - unfold well_formed. cbn. reflexivity.
  - apply IH.
Qed.

Lemma bootstrap_intervals_ok std b lower_q upper_q predictions : forall i,
  0 <= std -> 0 <= norm_ppf ext (1 - lower_q) ->
  0 <= lower_q -> lower_q <= upper_q -> upper_q <= 1 ->
  exists ivs,
    bootstrap_intervals ext (Some std) b lower_q upper_q i predictions = Ok ivs
    /\ List.length ivs = List.length predictions
    /\ Forall well_formed ivs /\ Forall ordered ivs.
Proof.
  induction predictions as [|pred rest IH]; intros i Hstd Hz Hl Hlu Hu.
  - exists []. cbn. repeat split; constructor.
  - destruct (IH (S i) Hstd Hz Hl Hlu Hu) as (ivs & Hivs & Hlen & Hwf & Hord).
    cbn [bootstrap_intervals]. rewrite Hivs.
    assert (0 <= norm_ppf ext (1 - lower_q) * std) as Hm by (apply Qmult_le_0_compat; assumption).
    destruct (i <? bootstrap_width b)%nat; cbn; eexists; (split; [reflexivity|]);
      (split; [cbn; now rewrite Hlen|]); split; constructor; try assumption;
      unfold well_formed, ordered; cbn; try reflexivity.
    + now apply np_quantile_monotone.
    + lra.
Qed.

Lemma quantile_levels (c : Q) :
  1 # 2 <= c -> c <= 0.99 ->
  0 <= (1 - c) / 2 /\ (1 - c) / 2 <= 1 - (1 - c) / 2 /\ 1 - (1 - c) / 2 <= 1
  /\ 1 # 2 <= 1 - (1 - c) / 2.
Proof. intros H1 H2. repeat split; qlra. Qed.


End IntervalProperties.

(** ** The example collaborators meet the assumptions *)

Section ExampleCollaborators.
Import Examples.
Local Open Scope Q_scope.

Lemma insert_q_Forall (P : Q -> Prop) x l :
  P x -> List.Forall P l -> List.Forall P (insert_q x l).
Proof.
  intros Hx Hl. induction Hl as [|y l Hy Hl IH]; cbn.
  - constructor; [exact Hx | constructor].
  - destruct (Qleb x y); repeat constructor; assumption.
Qed.

Lemma insert_q_sorted x l : sorted_q l -> sorted_q (insert_q x l).
Proof.
  induction l as [|y l IH]; cbn; intros Hs.
  - split; [constructor | exact I].
  - destruct Hs as [Hy Hs]. destruct (Qleb x y) eqn:E; cbn.
    + apply Qleb_le in E. split; [|split; assumption].
      constructor; [exact E|].
      eapply List.Forall_impl; [|exact Hy]. intros z Hz. cbn in Hz. lra.
    + apply Qleb_gt in E. split; [|apply IH, Hs].
      apply insert_q_Forall; [lra | exact Hy].
Qed.

Lemma sort_q_sorted l : sorted_q (sort_q l).
Proof.
  induction l as [|x l IH]; cbn; [exact I | apply insert_q_sorted, IH].
Qed.

Lemma sorted_q_nth l : sorted_q l ->
  forall i j d, (i <= j)%nat -> (j < List.length l)%nat -> nth i l d <= nth j l d.
Proof.
  induction l as [|x l IH]; cbn; intros Hs i j d Hij Hj; [lia|].
  destruct Hs as [Hx Hs].
  destruct i as [|i], j as [|j]; try lia.
  - lra.
  - rewrite List.Forall_forall in Hx. apply Hx, nth_In. lia.
  - apply IH; [exact Hs | lia | lia].
Qed.

(** One interpolation step stays between its two order statistics. *)
Lemma step_bounds v i frac :
  sorted_q v -> 0 <= frac -> frac <= 1 ->
  let lo := nth i v 0 in
  let hi := nth (S i) v lo in
  lo <= hi /\ lo <= lo + frac * (hi - lo) /\ lo + frac * (hi - lo) <= hi.
Proof.
  intros Hs H0 H1 lo hi.
  assert (lo <= hi) as Hle.
  { subst lo hi. destruct (Nat.lt_ge_cases (S i) (List.length v)) as [Hlt|Hge].
    - rewrite (nth_indep v (nth i v 0) 0 Hlt). apply sorted_q_nth; [exact Hs | lia | exact Hlt].
    - rewrite (nth_overflow v (nth i v 0) Hge). lra. }
  split; [exact Hle|].
  assert (0 <= frac * (hi - lo)) by (apply Qmult_le_0_compat; lra).
  assert (0 <= (1 - frac) * (hi - lo)) by (apply Qmult_le_0_compat; lra).
  split; lra.
Qed.

Lemma linear_quantile_monotone dist q1 q2 :
  0 <= q1 -> q1 <= q2 -> q2 <= 1 ->
  linear_quantile dist q1 <= linear_quantile dist q2.
Proof.
  intros H0 H12 H1. unfold linear_quantile.
  set (v := sort_q dist).
  assert (sorted_q v) as Hs by apply sort_q_sorted.
  set (m := (List.length v - 1)%nat).
  set (M := inject_Z (Z.of_nat m)).
  assert (0 <= M) as HM.
  { unfold M. change 0 with (inject_Z 0). rewrite <- Zle_Qle. lia. }
  set (h1 := M * q1). set (h2 := M * q2).
  assert (0 <= h1) as Hh1 by (apply Qmult_le_0_compat; lra).
  assert (h1 <= h2) as Hh.
  { unfold h1, h2. rewrite (Qmult_comm M q1), (Qmult_comm M q2).
    apply Qmult_le_compat_r; assumption. }
  assert (h2 <= M) as Hh2.
  { unfold h2. rewrite (Qmult_comm M q2).
    apply Qle_trans with (1 * M); [apply Qmult_le_compat_r; assumption|].
    rewrite Qmult_1_l. apply Qle_refl. }
  pose proof (Qfloor_le h1) as Hf1. pose proof (Qlt_floor h1) as Hc1.
  pose proof (Qfloor_le h2) as Hf2. pose proof (Qlt_floor h2) as Hc2.
  pose proof (Qfloor_resp_le _ _ Hh) as Hfl.
  assert (0 <= Qfloor h1)%Z as Hfl0.
  { rewrite <- (Qfloor_Z 0). apply Qfloor_resp_le. exact Hh1. }
  assert (Qfloor h2 <= Z.of_nat m)%Z as Hflm.
  { rewrite <- (Qfloor_Z (Z.of_nat m)). apply Qfloor_resp_le. exact Hh2. }
  rewrite inject_Z_plus in Hc1, Hc2.
  set (f1 := Qfloor h1) in *. set (f2 := Qfloor h2) in *.
  destruct (step_bounds v (Z.to_nat f1) (h1 - inject_Z f1) Hs) as (Ha1 & Hb1 & Hd1);
    [lra | change (inject_Z 1) with 1 in Hc1; lra |].
  destruct (step_bounds v (Z.to_nat f2) (h2 - inject_Z f2) Hs) as (Ha2 & Hb2 & Hd2);
    [lra | change (inject_Z 1) with 1 in Hc2; lra |].
  cbv zeta in *.
  destruct (Z.eq_dec f1 f2) as [Heq|Hne].
  - rewrite <- Heq in *.
    set (lo := nth (Z.to_nat f1) v 0) in *.
    set (hi := nth (S (Z.to_nat f1)) v lo) in *.
    assert (0 <= (h2 - h1) * (hi - lo)) by (apply Qmult_le_0_compat; lra).
    lra.
  - assert (f1 < f2)%Z as Hlt by lia.
    assert (S (Z.to_nat f1) <= Z.to_nat f2)%nat as Hi by lia.
    assert (Z.to_nat f2 < List.length v)%nat as Hn.
    { assert (Z.to_nat f2 <= m)%nat by lia.
      assert (m <> 0)%nat by lia. unfold m in *. lia. }
    assert (nth (S (Z.to_nat f1)) v (nth (Z.to_nat f1) v 0) <= nth (Z.to_nat f2) v 0) as Hmid.
    { rewrite (nth_indep v (nth (Z.to_nat f1) v 0) 0) by lia.
      apply sorted_q_nth; [exact Hs | exact Hi | exact Hn]. }
    lra.
Qed.

Lemma normal_quantile_nonneg p : 0 <= normal_quantile p.
Proof.
  unfold normal_quantile.
  repeat (match goal with |- context [if ?b then _ else _] => destruct b end); discriminate.
Qed.

End ExampleCollaborators.

Section IntervalExamples.
Import Frame ModelUtils.
Local Open Scope Q_scope.
#[local] Set Warnings "-inexact-float".


(** At the default level the two fitted quantile models are not found
    under binary64: [(1 - 0.9) / 2] is 0.04999999999999999, not the key
    0.05, so [predict_intervals] takes the normal approximation, whose
    quantile argument [1 - lower_q] is 0.95. *)
Lemma binary64_misses_quantile_key :
  Binary64.quantile_models_found 0.9 = false
  /\ PrimFloat.eqb (1 - fst (Binary64.quantile_levels 0.9)) 0.95 = true.
Proof. split; vm_compute; reflexivity. Qed.


End IntervalExamples.

(** ** The model monitor *)

Section MonitoringProperties.
Import Frame ModelUtils Monitoring.
Local Open Scope Q_scope.



(** The window exists for every clock reading and lookback whose cutoff
    date is a representable [datetime]. *)
Lemma recent_predictions_returns now self model_type (d : Z) :
  (d <> 0 -> Z.abs d <= 999999999 ->
   0 <= now - d * microseconds_per_day <= datetime_max ->
   exists recent, recent_predictions now self model_type (Some d) = Ok recent)%Z.
Proof.
  intros Hd Habs Hrange. unfold recent_predictions.
  apply Z.eqb_neq in Hd. rewrite Hd.
  unfold timedelta_days. apply Z.leb_le in Habs. rewrite Habs. cbn.
  unfold datetime_sub.
  destruct Hrange as [H0 H1]. apply Z.leb_le in H0, H1. rewrite H0, H1. cbn.
  eexists. reflexivity.
Qed.

(** C10.  [log_batch_predictions] divides the processing time by the
    number of predictions: with an empty list it raises
    [ZeroDivisionError] and records nothing, and it raises only then; with
    at least one prediction it appends one batch record carrying the batch
    size and the average time, and leaves the prediction log as it was. *)
Theorem log_batch_predictions_requires_predictions :
  forall (ext : External) (now : datetime) (self : ModelMonitor) (model_type : string)
         (predictions : list pydict) (processing_time : Q) (model_version : option string),
    match log_batch_predictions ext now self model_type predictions processing_time
            model_version with
    | Raise e => predictions = [] /\ e = ZeroDivisionError "float division by zero"
    | Ok self' =>
        predictions <> []
        /\ prediction_history self' = prediction_history self
        /\ exists batch_record,
             performance_history self' = performance_history self ++ [batch_record]
             /\ batch_size batch_record = List.length predictions
             /\ avg_time_per_prediction_ms batch_record
                = processing_time / inject_Z (Z.of_nat (List.length predictions))
    end.
Proof.
  intros ext now self model_type predictions processing_time model_version.
  unfold log_batch_predictions, float_div.
  destruct predictions as [|p ps]; cbn.
  - split; reflexivity.
  - split; [discriminate|]. split; [reflexivity|].
    eexists. split; [reflexivity|]. split; reflexivity.
Qed.

(** The prediction-level flag in general: whenever both halves hold
    numeric predictions, the flag is set exactly when the
    Kolmogorov-Smirnov p-value is below 0.05 or one of the two relative
    drifts exceeds the monitor's [drift_threshold]. *)
Theorem prediction_drift_flag :
  forall (ext : External) (self : ModelMonitor) (reference current : list PredictionRecord)
         (r : DriftResult),
    _detect_prediction_drift ext self reference current = Drift r ->
    has_drift r
    = Qltb (ks_p_value r) 0.05
      || Qltb (drift_threshold self) (relative (mean_drift r))
      || Qltb (drift_threshold self) (relative (variance_drift r)).
Proof.
  intros ext self reference current r.
  unfold _detect_prediction_drift.
  destruct (_extract_prediction_values reference) as [|x xs]; [discriminate|].
  destruct (_extract_prediction_values current) as [|y ys]; [discriminate|].
  intros [= <-]. unfold detect_prediction_drift.
  destruct (ks_2samp ext (x :: xs) (y :: ys)) as [stat p]. reflexivity.
Qed.

Lemma log_prediction_keeps_threshold now self model_type project_id prediction features actual :
  drift_threshold (log_prediction now self model_type project_id prediction features actual)
  = drift_threshold self.
Proof. reflexivity. Qed.

Lemma init_threshold window : drift_threshold (init window) = 0.05.
Proof. reflexivity. Qed.

(** C4, the code at the failing input.  Ten logged predictions whose
    halves differ by 7% in mean and not at all in variance: whatever the
    Kolmogorov-Smirnov test answers, the monitor reports prediction drift,
    because it compares the relative mean drift with its 0.05 (the
    p-value threshold) and not with 0.1. *)
Theorem drift_flag_set_by_seven_percent_mean_shift :
  forall ext : External,
    exists r feature_drift,
      check_data_drift ext Examples.now0 Examples.drift_monitor None None
      = Ok (DriftResults (Drift r) feature_drift true)
      /\ has_drift r = true
      /\ ks_p_value r = snd (ks_2samp ext [90; 95; 100; 105; 110] [97; 102; 107; 112; 117])
      /\ 0.05 < relative (mean_drift r) /\ relative (mean_drift r) <= 0.1
      /\ relative (variance_drift r) <= 0.1.
Proof.
  intros ext.
  assert (exists recent,
            recent_predictions Examples.now0 Examples.drift_monitor None None = Ok recent
            /\ recent = prediction_history Examples.drift_monitor) as (recent & Hrec & ->).
  { eexists. split; [vm_compute; reflexivity | reflexivity]. }
  unfold check_data_drift. rewrite Hrec. clear Hrec. unfold mbind, result_bind.
  change (List.length (prediction_history Examples.drift_monitor) <? 10)%nat with false.
  cbv iota zeta.
  change (List.length (prediction_history Examples.drift_monitor) / 2)%nat with 5%nat.
  set (reference := firstn 5 _). set (current := skipn 5 _).
  assert (exists r, _detect_prediction_drift ext Examples.drift_monitor reference current = Drift r
                    /\ has_drift r = true
                    /\ ks_p_value r
                       = snd (ks_2samp ext [90; 95; 100; 105; 110] [97; 102; 107; 112; 117])
                    /\ 0.05 < relative (mean_drift r) /\ relative (mean_drift r) <= 0.1
                    /\ relative (variance_drift r) <= 0.1) as (r & Hr & Hflag & Hrest).
  { unfold _detect_prediction_drift.
    change (_extract_prediction_values reference) with [90; 95; 100; 105; 110].
    change (_extract_prediction_values current) with [97; 102; 107; 112; 117].
    cbv iota. unfold detect_prediction_drift.
    destruct (ks_2samp ext [90; 95; 100; 105; 110] [97; 102; 107; 112; 117]) as [stat p].
    eexists. split; [reflexivity|].
    cbn [has_drift ks_p_value mean_drift variance_drift relative snd].
    split; [|split; [reflexivity|]].
    - rewrite orb_true_iff. left. rewrite orb_true_iff. right. vm_compute. reflexivity.
    - repeat split; vm_compute; congruence. }
  rewrite Hr. cbn [prediction_has_drift]. rewrite Hflag.
  eexists _, _. split; [reflexivity | exact (conj Hflag Hrest)].
Qed.

Lemma nonempty_features_none records :
  (forall r, In r records -> features r = None) -> nonempty_features records = [].
Proof.
  induction records as [|r records IH]; intros H; [reflexivity|].
  unfold nonempty_features in *. cbn.
  rewrite (H r (or_introl eq_refl)). apply IH. intros r' Hr'. apply H. right. exact Hr'.
Qed.

(** With ten or more records in the window, none of which carries
    features, and no drift in the predictions, [check_data_drift] raises
    [AttributeError]: the overall flag asks every value of the message
    dictionary [{'message': ...}] for its ['has_drift'] entry. *)
Theorem check_data_drift_raises_without_features :
  forall (ext : External) (now : datetime) (self : ModelMonitor)
         (model_type : option string) (lookback_days : option Z)
         (recent : list PredictionRecord),
    recent_predictions now self model_type lookback_days = Ok recent ->
    (10 <= List.length recent)%nat ->
    (forall r, In r recent -> features r = None) ->
    prediction_has_drift
      (_detect_prediction_drift ext self
         (firstn (List.length recent / 2) recent) (skipn (List.length recent / 2) recent))
    = false ->
    check_data_drift ext now self model_type lookback_days
    = Raise (AttributeError "'str' object has no attribute 'get'").
Proof.
  intros ext now self model_type lookback_days recent Hrecent Hlen Hnone Hflag.
  unfold check_data_drift. rewrite Hrecent. unfold mbind, result_bind.
  assert ((List.length recent <? 10)%nat = false) as -> by (apply Nat.ltb_ge; exact Hlen).
  cbv zeta. rewrite Hflag.
  unfold _detect_feature_drift.
  rewrite (nonempty_features_none (firstn (List.length recent / 2) recent)).
  - reflexivity.
  - intros r Hr. apply Hnone.
    rewrite <- (firstn_skipn (List.length recent / 2) recent). apply in_or_app. left. exact Hr.
Qed.

Lemma check_data_drift_raises_witness :
  check_data_drift Examples.ext0 Examples.now0 Examples.bare_monitor None None
  = Raise (AttributeError "'str' object has no attribute 'get'").
Proof.
  apply (check_data_drift_raises_without_features Examples.ext0 Examples.now0
           Examples.bare_monitor None None (prediction_history Examples.bare_monitor)).
  - vm_compute. reflexivity.
  - vm_compute. lia.
  - intros r Hr. vm_compute in Hr.
    repeat (destruct Hr as [<-|Hr]; [reflexivity|]). contradiction.
  - vm_compute. reflexivity.
Defined.

Lemma prediction_drift_flag_witness :
  exists r,
    _detect_prediction_drift Examples.ext0 Examples.drift_monitor
      (firstn 5 (prediction_history Examples.drift_monitor))
      (skipn 5 (prediction_history Examples.drift_monitor)) = Drift r
    /\ has_drift r
       = Qltb (ks_p_value r) 0.05
         || Qltb (drift_threshold Examples.drift_monitor) (relative (mean_drift r))
         || Qltb (drift_threshold Examples.drift_monitor) (relative (variance_drift r)).
Proof.
  eexists. split; [vm_compute; reflexivity|].
  apply (prediction_drift_flag Examples.ext0 Examples.drift_monitor
           (firstn 5 (prediction_history Examples.drift_monitor))
           (skipn 5 (prediction_history Examples.drift_monitor))).
  vm_compute. reflexivity.
Defined.

End MonitoringProperties.

(** ** The fallback explainer *)

Section ShapProperties.
Import Frame ShapExplainer.
Local Open Scope Q_scope.

Lemma assoc_set_Forall {A} (P : string * A -> Prop) k v l :
  P (k, v) -> List.Forall P l -> List.Forall P (assoc_set k v l).
Proof.
  intros Hkv Hl. induction Hl as [|[k' v'] l Hx Hl IH]; cbn.
  - constructor; [exact Hkv | constructor].
  - destruct (String.eqb k k') eqn:E; constructor; auto.
    apply String.eqb_eq in E. now subst k'.
Qed.

Lemma visit_features_mock X i names : forall shaps contribs shaps' contribs',
  visit_features X i names shaps contribs = Ok (shaps', contribs') ->
  List.Forall (mock_of X i) shaps -> List.Forall (mock_of X i) shaps'.
Proof.
  induction names as [|name names IH]; intros shaps contribs shaps' contribs' H Hacc; cbn in H.
  - injection H as <- _. exact Hacc.
  - destruct (assoc name (columns X)) as [c|] eqn:Hc; [|eapply IH; eassumption].
    destruct c as [s| |]; cbn in H; try discriminate.
    eapply IH; [exact H|].
    apply assoc_set_Forall; [|exact Hacc].
    exists s. split; [exact Hc | reflexivity].
Qed.

Lemma explain_rows_mock X names rows : forall es,
  explain_rows X names rows = Ok es ->
  forall j e, nth_error es j = Some e ->
    exists i, nth_error rows j = Some i /\ List.Forall (mock_of X i) (shap_values e).
Proof.
  induction rows as [|i rows IH]; intros es H j e Hj; cbn in H.
  - injection H as <-. destruct j; discriminate.
  - bind_ok H. bind_ok H. injection H as <-.
    destruct j as [|j]; cbn in Hj.
    + injection Hj as <-. exists i. split; [reflexivity|].
      unfold explain_row in Ha. bind_ok Ha. destruct a1 as [shaps contribs].
      injection Ha as <-. cbn.
      eapply visit_features_mock; [exact Ha1 | constructor].
    + eapply IH; eassumption.
Qed.

Lemma cmul_fin_pos (v : Q) : cltb (Fin 0) (cmul (Fin v) (Fin 0.01)) = true <-> 0 < v.
Proof.
  cbn. unfold Qleb. rewrite negb_true_iff.
  split; intros H.
  - apply (Qleb_gt (v * 0.01) 0) in H. lra.
  - apply (Qleb_gt (v * 0.01) 0). lra.
Qed.

Lemma cmul_fin_neg (v : Q) :
  cltb (cmul (csub (Fin 100) (Fin v)) (Fin (-0.01))) (Fin 0) = true <-> v < 100.
Proof.
  cbn. unfold Qleb. rewrite negb_true_iff.
  split; intros H.
  - apply (Qleb_gt 0 ((100 + - v) * -0.01)) in H. lra.
  - apply (Qleb_gt 0 ((100 + - v) * -0.01)). lra.
Qed.



End ShapProperties.

(** ** Batch prediction *)

Section BatchProperties.
Import Monitoring PredictorService.

Variable State : Type.
Variable predict_completion_time predict_budget_variance predict_risk_score :
  list Z -> Coroutine State.

Let tasks_of : list string -> list Z -> list (string * Coroutine State) :=
  prediction_tasks State predict_completion_time predict_budget_variance predict_risk_score.

Lemma prediction_tasks_known prediction_types project_ids pred_type :
  In pred_type prediction_types -> In pred_type known_types ->
  In pred_type (map fst (tasks_of prediction_types project_ids)).
Proof.
  intros Hin Hknown. unfold tasks_of.
  induction prediction_types as [|t rest IH]; [contradiction|].
  cbn. destruct Hin as [->|Hin].
  - cbn in Hknown. destruct Hknown as [<-|[<-|[<-|[]]]]; cbn; auto.
  - repeat (match goal with |- context [if ?b then _ else _] => destruct b end);
      cbn; auto.
Qed.

Lemma await_all_lookup tasks : forall acc s pred_type,
  In pred_type (map fst tasks) ->
  exists task s0,
    In (pred_type, task) tasks
    /\ fst (await_all State tasks acc s) !! pred_type = Some (value_of (fst (task s0))).
Proof.
  induction tasks as [|[t task] rest IH]; intros acc s pred_type Hin; [contradiction|].
  cbn [await_all]. destruct (task s) as [outcome s'] eqn:Hrun.
  destruct (in_dec string_dec pred_type (map fst rest)) as [Hlater|Hnot].
  - destruct (IH (<[t := value_of outcome]> acc) s' pred_type Hlater) as (task' & s0 & Hin' & Hlk).
    exists task', s0. split; [right; exact Hin'|].
    exact Hlk.
  - destruct Hin as [Heq|Hin]; [|contradiction]. cbn in Heq. subst t.
    exists task, s. split; [left; reflexivity|].
    rewrite Hrun. cbn [fst].
    assert (forall tasks' acc' s'',
               ~ In pred_type (map fst tasks') ->
               fst (await_all State tasks' acc' s'') !! pred_type = acc' !! pred_type) as Hkeep.
    { clear. induction tasks' as [|[t task] rest IH]; intros acc s Hnot; [reflexivity|].
      cbn [await_all]. destruct (task s) as [outcome s'].
      rewrite IH by (intros H; apply Hnot; right; exact H).
      apply lookup_insert_ne. intros ->. apply Hnot. left. reflexivity. }
    rewrite Hkeep by exact Hnot. apply lookup_insert_eq.
Qed.

Lemma organize_lookup project_ids prediction_results project_id :
  In project_id project_ids ->
  organize project_ids prediction_results !! project_id
  = Some (project_entries project_id prediction_results).
Proof.
  unfold organize. intros Hin.
  assert (forall (m : gmap Z (gmap string Entry)),
             fold_left (fun results pid =>
                          <[pid := project_entries pid prediction_results]> results)
               project_ids m !! project_id
             = Some (project_entries project_id prediction_results)) as H; [|apply H].
  induction project_ids as [|p rest IH]; [contradiction|]. intros m. cbn [fold_left].
  destruct (in_dec Z.eq_dec project_id rest) as [Hrest|Hnot]; [apply IH, Hrest|].
  destruct Hin as [->|Hin]; [|contradiction].
  clear IH. revert m.
  assert (forall (m : gmap Z (gmap string Entry)),
             m !! project_id = Some (project_entries project_id prediction_results) ->
             fold_left (fun results pid =>
                          <[pid := project_entries pid prediction_results]> results)
               rest m !! project_id
             = Some (project_entries project_id prediction_results)) as Hkeep.
  { clear Hnot. induction rest as [|q rest IH]; intros m Hm; [exact Hm|].
    cbn [fold_left]. apply IH.
    destruct (decide (q = project_id)) as [->|Hne];
      [apply lookup_insert_eq | rewrite lookup_insert_ne by exact Hne; exact Hm]. }
  intros m. apply Hkeep, lookup_insert_eq.
Qed.

(** C5, as amended.  [batch_predict] always returns, and its map has an
    entry for every requested project.  For every requested prediction
    type the project's entry was decided by one run of that type's
    coroutine alone: the entry is the error [{'error': str(e)}] when the
    run raised [e]; when the run returned, it is the first prediction of
    the result that carries the project's id, and the error
    ['No prediction found'] when the result has none for that project. *)
Theorem batch_predict_isolates_failures :
  forall (project_ids : list Z) (prediction_types : list string) (s : State)
         (project_id : Z) (pred_type : string),
    In project_id project_ids ->
    In pred_type prediction_types -> In pred_type known_types ->
    exists entries task s0,
      fst (batch_predict State predict_completion_time predict_budget_variance
             predict_risk_score project_ids prediction_types s) !! project_id = Some entries
      /\ In (pred_type, task)
           (prediction_tasks State predict_completion_time predict_budget_variance
              predict_risk_score prediction_types project_ids)
      /\ entries !! pred_type
         = Some (match fst (task s0) with
                 | Raise e => Error (exn_str e)
                 | Ok r =>
                     match find_prediction project_id (predictions r) with
                     | Some project_prediction => Prediction project_prediction
                     | None => Error "No prediction found"
                     end
                 end).
Proof.
  intros project_ids prediction_types s project_id pred_type Hpid Htype Hknown.
  unfold batch_predict. fold (tasks_of prediction_types project_ids).
  pose proof (prediction_tasks_known _ project_ids _ Htype Hknown) as Htask.
  destruct (await_all_lookup _ ∅ s _ Htask) as (task & s0 & Hin & Hlk).
  destruct (await_all State (tasks_of prediction_types project_ids) ∅ s)
    as [prediction_results s'] eqn:Hrun.
  cbn [fst] in *.
  exists (project_entries project_id prediction_results), task, s0.
  split; [apply organize_lookup, Hpid|]. split; [exact Hin|].
  unfold project_entries. rewrite lookup_fmap, Hlk. cbn.
  destruct (fst (task s0)); reflexivity.
Qed.

End BatchProperties.

Section BatchExamples.
Import Monitoring PredictorService Examples.

Lemma batch_entries (completion : list Z -> Coroutine nat) project_id :
  In project_id [1; 2]%Z ->
  fst (batch_predict nat completion failing_budget unused_risk
         [1; 2]%Z ["completion_time"; "budget_variance"] 0%nat) !! project_id
  = Some (project_entries project_id
            (<["budget_variance" := Failed "Budget variance model not available"]>
               (<["completion_time" := value_of (fst (completion [1; 2]%Z 0%nat))]> ∅))).
Proof.
  intros Hin. unfold batch_predict.
  cbn [prediction_tasks String.eqb Ascii.eqb Bool.eqb await_all].
  destruct (completion [1; 2]%Z 0%nat) as [outcome s'].
  cbn [await_all failing_budget fst exn_str].
  rewrite organize_lookup by exact Hin. destruct outcome; reflexivity.
Qed.

(** C5, a run of the amended statement: the budget-variance prediction
    raises while completion time is predicted for projects 1 and 2. *)
Lemma batch_predict_isolates_failures_witness :
  exists entries task s0,
    fst (batch_predict nat resolving_completion failing_budget unused_risk
           [1; 2]%Z ["completion_time"; "budget_variance"] 0%nat) !! 2%Z = Some entries
    /\ In ("budget_variance", task)
         (prediction_tasks nat resolving_completion failing_budget unused_risk
            ["completion_time"; "budget_variance"] [1; 2]%Z)
    /\ entries !! "budget_variance"
       = Some (match fst (task s0) with
               | Raise e => Error (exn_str e)
               | Ok r =>
                   match find_prediction 2 (predictions r) with
                   | Some project_prediction => Prediction project_prediction
                   | None => Error "No prediction found"
                   end
               end).
Proof.
  exact (batch_predict_isolates_failures nat resolving_completion failing_budget
           unused_risk [1; 2]%Z ["completion_time"; "budget_variance"] 0%nat
           2%Z "budget_variance"
           (or_intror (or_introl eq_refl)) (or_intror (or_introl eq_refl))
           (or_intror (or_introl eq_refl))).
Defined.

(** The scenario of the specification: both projects get their
    completion-time prediction and the error entry for budget variance. *)
Lemma batch_predict_scenario :
  forall project_id, In project_id [1; 2]%Z ->
    exists entries,
      fst (batch_predict nat resolving_completion failing_budget unused_risk
             [1; 2]%Z ["completion_time"; "budget_variance"] 0%nat) !! project_id
      = Some entries
      /\ entries !! "completion_time" = Some (Prediction (completion_for project_id))
      /\ entries !! "budget_variance" = Some (Error "Budget variance model not available").
Proof.
  intros project_id Hin. eexists. split; [apply batch_entries, Hin|].
  unfold project_entries. rewrite !lookup_fmap.
  rewrite lookup_insert_eq, lookup_insert_ne by done. rewrite lookup_insert_eq.
  split; [|reflexivity].
  destruct Hin as [<-|[<-|[]]]; reflexivity.
Qed.

(** C5, counterexample.  The budget-variance prediction raises and the
    completion-time prediction returns, but only for the first project:
    project 2 has an error entry, not a valid one, for the domain that
    succeeded. *)
Lemma batch_predict_unresolved_project_gets_error :
  raises (fst (partial_completion [1; 2]%Z 0%nat)) = false
  /\ raises (fst (failing_budget [1; 2]%Z 1%nat)) = true
  /\ exists entries,
       fst (batch_predict nat partial_completion failing_budget unused_risk
              [1; 2]%Z ["completion_time"; "budget_variance"] 0%nat) !! 2%Z = Some entries
       /\ entries !! "completion_time" = Some (Error "No prediction found")
       /\ entries !! "budget_variance" = Some (Error "Budget variance model not available").
Proof.
  split; [reflexivity|]. split; [reflexivity|].
  eexists. split; [apply batch_entries; right; left; reflexivity|].
  unfold project_entries. rewrite !lookup_fmap.
  rewrite lookup_insert_eq, lookup_insert_ne by done. rewrite lookup_insert_eq.
  split; reflexivity.
Qed.

End BatchExamples.

(** ** Feature processors *)

Section FeatureProperties.
Import Frame Features.
Local Open Scope Q_scope.

(** Without the column [actual_start_date] the completion-time
    engineering step raises, whatever else the frame holds. *)
Lemma completion_engineering_needs_start_date now X :
  assoc "actual_start_date" (columns X) = None ->
  CompletionTimeFeatureProcessor._engineer_features now X
  = Raise (AttributeError "'Timedelta' object has no attribute 'dt'").
Proof.
  intros H. unfold CompletionTimeFeatureProcessor._engineer_features, assign.
  unfold CompletionTimeFeatureProcessor.days_since_start at 1. rewrite H. reflexivity.
Qed.

(** Every fitted completion-time processor raises [AttributeError] from
    [transform] on every frame that lacks [actual_start_date]. *)
Theorem completion_transform_needs_start_date :
  forall (sk : Sklearn) (now : Z) (self : FeatureProcessor sk) (X : DataFrame),
    is_fitted self = true ->
    assoc "actual_start_date" (columns X) = None ->
    CompletionTimeFeatureProcessor.transform now self X
    = Raise (AttributeError "'Timedelta' object has no attribute 'dt'").
Proof.
  intros sk now self X Hfit H. unfold CompletionTimeFeatureProcessor.transform.
  rewrite Hfit. cbn [negb].
  rewrite (completion_engineering_needs_start_date now X H). reflexivity.
Qed.

Lemma completion_processor_fitted :
  CompletionTimeFeatureProcessor.fit Examples.start_clock (Features.init Examples.sk0 15)
    Examples.dated_features None = Ok Examples.completion_processor.
Proof.
  unfold Examples.completion_processor.
  destruct (CompletionTimeFeatureProcessor.fit Examples.start_clock
              (Features.init Examples.sk0 15) Examples.dated_features None) eqn:E;
    [reflexivity|].
  vm_compute in E. discriminate E.
Qed.

Lemma completion_transform_needs_start_date_witness :
  CompletionTimeFeatureProcessor.transform Examples.start_clock
    Examples.completion_processor Examples.undated_features
  = Raise (AttributeError "'Timedelta' object has no attribute 'dt'").
Proof.
  apply (completion_transform_needs_start_date Examples.sk0 Examples.start_clock
           Examples.completion_processor Examples.undated_features).
  - vm_compute. reflexivity.
  - reflexivity.
Defined.

(** C3, the code at the failing input.  A completion-time processor is
    fitted on four projects that carry [actual_start_date]; a request for
    the same projects without that column makes [transform] raise
    [AttributeError].  On the repository's own test fixture, which has no
    such column, [fit] raises in the same way. *)
Theorem completion_transform_raises_without_start_date :
  CompletionTimeFeatureProcessor.fit Examples.start_clock (Features.init Examples.sk0 15)
    Examples.dated_features None = Ok Examples.completion_processor
  /\ is_fitted Examples.completion_processor = true
  /\ is_Some (assoc "actual_start_date" (columns Examples.dated_features))
  /\ assoc "actual_start_date" (columns Examples.undated_features) = None
  /\ CompletionTimeFeatureProcessor.transform Examples.start_clock
       Examples.completion_processor Examples.undated_features
     = Raise (AttributeError "'Timedelta' object has no attribute 'dt'")
  /\ CompletionTimeFeatureProcessor.fit Examples.start_clock (Features.init Examples.sk0 15)
       Examples.sample_features None
     = Raise (AttributeError "'Timedelta' object has no attribute 'dt'").
Proof.
  split; [exact completion_processor_fitted|].
  split; [vm_compute; reflexivity|].
  split; [eexists; reflexivity|].
  split; [reflexivity|].
  split.
  - unfold CompletionTimeFeatureProcessor.transform.
    replace (is_fitted Examples.completion_processor) with true by (vm_compute; reflexivity).
    cbn [negb]. rewrite completion_engineering_needs_start_date; reflexivity.
  - unfold CompletionTimeFeatureProcessor.fit.
    rewrite completion_engineering_needs_start_date; reflexivity.
Qed.


Lemma fit_tail_names sk (self : FeatureProcessor sk) kind score features_df y :
  feature_names (fit_tail self kind score features_df y) = Some (column_names features_df).
Proof. reflexivity. Qed.

(** C7, the code at the failing input.  The column [quality_score] is
    missing for three of four projects (0.75 > 0.7).  The budget-variance
    and the risk processors keep it in their fitted feature names; the
    completion-time processor, which has the dropping step, does not. *)
Theorem budget_and_risk_fit_keep_mostly_missing_column :
  forall sk : Sklearn,
    assoc "quality_score" (columns Examples.sparse_features)
    = Some (NumCol [NaN; NaN; NaN; Fin 5])
    /\ cltb (Fin 0.7) (null_mean (NumCol [NaN; NaN; NaN; Fin 5])) = true
    /\ (exists p names,
          BudgetVarianceFeatureProcessor.fit (Features.init sk 12) Examples.sparse_features None
          = Ok p
          /\ feature_names p = Some names /\ In "quality_score" names)
    /\ (exists p names,
          RiskScoreFeatureProcessor.fit (Features.init sk 18) Examples.sparse_features None
          = Ok p
          /\ feature_names p = Some names /\ In "quality_score" names)
    /\ (exists p names,
          CompletionTimeFeatureProcessor.fit Examples.start_clock (Features.init sk 15)
            Examples.sparse_dated_features None = Ok p
          /\ feature_names p = Some names /\ ~ In "quality_score" names).
Proof.
  intros sk. split; [reflexivity|]. split; [reflexivity|]. split; [|split].
  - unfold BudgetVarianceFeatureProcessor.fit.
    assert (exists e, BudgetVarianceFeatureProcessor._engineer_features Examples.sparse_features
                      = Ok e) as [e He] by (eexists; vm_compute; reflexivity).
    rewrite He. cbn [mbind result_bind].
    eexists _, _. split; [reflexivity|]. split; [apply fit_tail_names|].
    vm_compute in He. injection He as <-. vm_compute. tauto.
  - unfold RiskScoreFeatureProcessor.fit.
    assert (exists e, RiskScoreFeatureProcessor._engineer_features Examples.sparse_features
                      = Ok e) as [e He] by (eexists; vm_compute; reflexivity).
    rewrite He. cbn [mbind result_bind].
    eexists _, _. split; [reflexivity|]. split; [apply fit_tail_names|].
    vm_compute in He. injection He as <-. vm_compute. tauto.
  - unfold CompletionTimeFeatureProcessor.fit.
    assert (exists e, CompletionTimeFeatureProcessor._engineer_features Examples.start_clock
                        Examples.sparse_dated_features = Ok e) as [e He]
      by (eexists; vm_compute; reflexivity).
    rewrite He. cbn [mbind result_bind].
    eexists _, _. split; [reflexivity|]. split; [apply fit_tail_names|].
    vm_compute in He. injection He as <-. vm_compute.
    intros H. repeat (destruct H as [H|H]; [discriminate H|]). exact H.
Qed.


(** *** Which columns survive the cleaning steps *)

Lemma fill_numeric_names policy df :
  column_names (fill_numeric policy df) = column_names df.
Proof.
  unfold column_names, fill_numeric. cbn. rewrite map_map. apply map_ext.
  intros [name c]. destruct c; reflexivity.
Qed.

Lemma fill_numeric_In policy df name c' :
  In (name, c') (columns (fill_numeric policy df)) ->
  exists c, In (name, c) (columns df).
Proof.
  unfold fill_numeric. cbn. intros H. apply in_map_iff in H.
  destruct H as ([n c] & Heq & Hin). exists c.
  destruct c; cbn in Heq; injection Heq as <- _; exact Hin.
Qed.

Lemma select_numeric_In df kc :
  In kc (columns (select_numeric df)) -> In kc (columns df).
Proof. unfold select_numeric. cbn. intros H. now apply filter_In in H. Qed.

Lemma remove_correlated_In t df kc :
  In kc (columns (remove_correlated t df)) -> In kc (columns df).
Proof. unfold remove_correlated, drop_columns. cbn. intros H. now apply filter_In in H. Qed.

Lemma In_column_names df name :
  In name (column_names df) -> exists c, In (name, c) (columns df).
Proof.
  unfold column_names. intros H. apply in_map_iff in H.
  destruct H as ([n c] & <- & Hin). eauto.
Qed.

(** The completion-time processor keeps only columns of the engineered
    frame whose missing fraction is below the threshold 0.7: a column that
    is missing more often is in no fitted feature-name list. *)
Theorem completion_fit_drops_mostly_missing_columns :
  forall (sk : Sklearn) (now : Z) (self p : FeatureProcessor sk) (X : DataFrame)
         (y : option (list Q)) (names : list string) (name : string),
    CompletionTimeFeatureProcessor.fit now self X y = Ok p ->
    feature_names p = Some names ->
    In name names ->
    exists engineered c,
      CompletionTimeFeatureProcessor._engineer_features now X = Ok engineered
      /\ In (name, c) (columns engineered)
      /\ cltb (null_mean c) (Fin CompletionTimeFeatureProcessor.missing_threshold) = true.
Proof.
  intros sk now self p X y names name Hfit Hnames Hin.
  unfold CompletionTimeFeatureProcessor.fit in Hfit. bind_ok Hfit. rename a into engineered.
  injection Hfit as <-. rewrite fit_tail_names in Hnames. injection Hnames as <-.
  apply In_column_names in Hin. destruct Hin as [c3 Hin].
  apply remove_correlated_In, select_numeric_In, fill_numeric_In in Hin.
  destruct Hin as [c Hin].
  unfold CompletionTimeFeatureProcessor.drop_mostly_missing in Hin. cbn in Hin.
  apply filter_In in Hin. destruct Hin as [Hin Hkeep].
  exists engineered, c. auto.
Qed.

Lemma completion_fit_drops_witness :
  exists engineered c,
    CompletionTimeFeatureProcessor._engineer_features Examples.start_clock
      Examples.dated_features = Ok engineered
    /\ In ("team_size", c) (columns engineered)
    /\ cltb (null_mean c) (Fin CompletionTimeFeatureProcessor.missing_threshold) = true.
Proof.
  apply (completion_fit_drops_mostly_missing_columns Examples.sk0 Examples.start_clock
           (Features.init Examples.sk0 15) Examples.completion_processor
           Examples.dated_features None
           ["progress_percentage"; "team_size"; "progress_velocity";
            "task_completion_efficiency"; "budget_per_progress"; "team_productivity";
            "issue_density"; "external_dependency_ratio"; "scope_stability";
            "bug_resolution_rate"; "client_engagement_score"]
           "team_size").
  - exact completion_processor_fitted.
  - vm_compute. reflexivity.
  - right. left. reflexivity.
Defined.

(** *** What [transform] returns *)

Lemma reindex_names names df : column_names (reindex names df) = names.
Proof.
  unfold column_names, reindex. cbn. rewrite map_map.
  rewrite <- (map_id names) at 2. apply map_ext.
  intros name. destruct (assoc name (columns df)); reflexivity.
Qed.

Lemma assoc_map_fresh {A} (f : string -> A) names name :
  In name names -> assoc name (map (fun n => (n, f n)) names) = Some (f name).
Proof.
  induction names as [|n names IH]; [contradiction|]. intros Hin. cbn.
  destruct (String.eqb name n) eqn:E.
  - apply String.eqb_eq in E. now subst n.
  - apply IH. destruct Hin as [->|Hin]; [|exact Hin].
    rewrite String.eqb_refl in E. discriminate.
Qed.



Lemma transform_tail_columns sk (self : FeatureProcessor sk) X features_df out :
  transform_tail self X features_df = Ok out ->
  out_index out = index X
  /\ exists names,
       feature_names self = Some names
       /\ match feature_selector self with
          | Some support => names_at names support = Ok (out_columns out)
          | None => out_columns out = names
          end.
Proof.
  unfold transform_tail. intros H.
  destruct (feature_names self) as [names|]; [|discriminate].
  destruct (fp_scaler self) as [sc|]; [|discriminate].
  destruct (feature_selector self) as [support|].
  - bind_ok H. injection H as <-. cbn. eauto.
  - injection H as <-. cbn. eauto.
Qed.

(** Whenever one of the three [transform] methods returns, the frame it
    returns is indexed like its input and its column list is the fit-time
    feature-name list, restricted to the selector's support when a
    selector was fitted. *)
Theorem transform_columns_are_fit_time_names :
  forall (sk : Sklearn) (now : Z) (self : FeatureProcessor sk) (X : DataFrame)
         (out : Processed),
    CompletionTimeFeatureProcessor.transform now self X = Ok out
    \/ BudgetVarianceFeatureProcessor.transform self X = Ok out
    \/ RiskScoreFeatureProcessor.transform self X = Ok out ->
    out_index out = index X
    /\ exists names,
         feature_names self = Some names
         /\ match feature_selector self with
            | Some support => names_at names support = Ok (out_columns out)
            | None => out_columns out = names
            end.
Proof.
  intros sk now self X out [H|[H|H]];
    unfold CompletionTimeFeatureProcessor.transform, BudgetVarianceFeatureProcessor.transform,
      RiskScoreFeatureProcessor.transform in H;
    destruct (is_fitted self); cbn [negb] in H; try discriminate;
    bind_ok H; eapply transform_tail_columns; exact H.
Qed.

Lemma transform_columns_witness :
  exists out,
    CompletionTimeFeatureProcessor.transform Examples.start_clock
      Examples.completion_processor Examples.dated_features = Ok out
    /\ out_index out = index Examples.dated_features
    /\ exists names,
         feature_names Examples.completion_processor = Some names
         /\ match feature_selector Examples.completion_processor with
            | Some support => names_at names support = Ok (out_columns out)
            | None => out_columns out = names
            end.
Proof.
  eexists. split; [vm_compute; reflexivity|].
  apply (transform_columns_are_fit_time_names Examples.sk0 Examples.start_clock
           Examples.completion_processor Examples.dated_features).
  left. vm_compute. reflexivity.
Defined.


(** *** Engineering never fails on numeric frames (budget, risk) *)

Lemma assoc_numeric df name c :
  all_numeric df -> assoc name (columns df) = Some c -> exists s, c = NumCol s.
Proof.
  unfold all_numeric. intros Hall. induction Hall as [|[n c0] l Hc Hl IH]; cbn; [discriminate|].
  destruct (String.eqb name n).
  - intros [= <-]. destruct c0; cbn in Hc; try discriminate. eauto.
  - exact IH.
Qed.

Lemma col_total name default : numeric_total (col name default).
Proof.
  intros df Hall. unfold col, get.
  destruct (assoc name (columns df)) as [c|] eqn:E; [|eauto].
  destruct (assoc_numeric _ _ _ Hall E) as [s ->]. eauto.
Qed.

Lemma lit_total q : numeric_total (lit q).
Proof. intros df _. unfold lit. eauto. Qed.

Lemma lift2_total f a b : numeric_total a -> numeric_total b -> numeric_total (lift2 f a b).
Proof.
  intros Ha Hb df Hall. unfold lift2.
  destruct (Ha df Hall) as [x ->]. destruct (Hb df Hall) as [y ->]. cbn. eauto.
Qed.

Lemma lift1_total f a : numeric_total a -> numeric_total (lift1 f a).
Proof.
  intros Ha df Hall. unfold lift1. destruct (Ha df Hall) as [x ->]. cbn. eauto.
Qed.

Lemma assoc_set_numeric (l : list (string * column)) name c :
  is_numeric c = true ->
  List.Forall (fun kc => is_numeric (snd kc) = true) l ->
  List.Forall (fun kc => is_numeric (snd kc) = true) (assoc_set name c l).
Proof.
  intros Hc Hl. induction Hl as [|[n c0] l H0 Hl IH]; cbn.
  - constructor; [exact Hc | constructor].
  - destruct (String.eqb name n); constructor; auto.
Qed.

Lemma set_numeric df name v : all_numeric df -> all_numeric (set df name v).
Proof.
  unfold all_numeric, set. cbn. apply assoc_set_numeric. destruct v; reflexivity.
Qed.

Lemma assign_total name e df :
  numeric_total e -> all_numeric df ->
  exists df', assign name e df = Ok df' /\ all_numeric df'.
Proof.
  intros He Hall. unfold assign. destruct (He df Hall) as [v ->]. cbn.
  eexists. split; [reflexivity | now apply set_numeric].
Qed.

Ltac total :=
  repeat first [ apply col_total | apply lit_total | apply lift2_total | apply lift1_total ].

Ltac assign_step :=
  match goal with
  | Hall : all_numeric ?df |- context [assign ?name ?e ?df] =>
      let df' := fresh "features" in
      let Heq := fresh "Heq" in
      let Hall' := fresh "Hall" in
      destruct (assign_total name e df ltac:(unfold np_maximum, abs_; total) Hall)
        as (df' & Heq & Hall');
      rewrite Heq; cbn [mbind result_bind]; clear Heq
  end.

Lemma budget_engineering_total X :
  all_numeric X ->
  exists features, BudgetVarianceFeatureProcessor._engineer_features X = Ok features.
Proof.
  intros Hall. unfold BudgetVarianceFeatureProcessor._engineer_features.
  repeat assign_step. eauto.
Qed.

Lemma item_present df name :
  all_numeric df -> mem_str name (column_names df) = true ->
  exists s, RiskScoreFeatureProcessor.item name df = Ok (Series s).
Proof.
  unfold all_numeric, column_names, mem_str, RiskScoreFeatureProcessor.item.
  intros Hall. induction Hall as [|[n c] l Hc Hl IH]; cbn; [discriminate|].
  destruct (String.eqb name n).
  - intros _. destruct c; cbn in Hc; try discriminate. eauto.
  - cbn. exact IH.
Qed.

Lemma normalize_scores_total scores : forall features,
  all_numeric features ->
  exists features',
    RiskScoreFeatureProcessor.normalize_scores scores features = Ok features'
    /\ all_numeric features'.
Proof.
  induction scores as [|score rest IH]; intros features Hall; cbn.
  - eauto.
  - destruct (mem_str score (column_names features)) eqn:E; [|apply IH, Hall].
    destruct (item_present _ _ Hall E) as [s Hs].
    unfold assign, lift2 at 1. rewrite Hs. cbn. apply IH, set_numeric, Hall.
Qed.

Lemma risk_engineering_total X :
  all_numeric X ->
  exists features, RiskScoreFeatureProcessor._engineer_features X = Ok features.
Proof.
  intros Hall. unfold RiskScoreFeatureProcessor._engineer_features.
  destruct (normalize_scores_total RiskScoreFeatureProcessor.health_scores X Hall)
    as (features & -> & Hall0). cbn [mbind result_bind].
  repeat assign_step. eauto.
Qed.

Lemma names_at_total names support :
  List.Forall (fun i => (i < List.length names)%nat) support ->
  exists selected, names_at names support = Ok selected.
Proof.
  intros H. induction H as [|i support Hi Hs [selected IH]]; cbn; [eauto|].
  destruct (nth_error names i) as [n|] eqn:E.
  - rewrite IH. cbn. eauto.
  - apply nth_error_None in E. lia.
Qed.




End FeatureProperties.

(** ** Comparisons and arithmetic on cells *)

Section CellProperties.
Import Frame RiskNarrative.
Local Open Scope Q_scope.

Lemma cltb_fin (a b : Q) : cltb (Fin a) (Fin b) = true <-> a < b.
Proof. cbn. rewrite negb_true_iff. apply Qleb_gt. Qed.

Lemma cleb_fin (a b : Q) : cleb (Fin a) (Fin b) = true <-> a <= b.
Proof. cbn. apply Qleb_le. Qed.

Lemma cltb_fin_false (a b : Q) : cltb (Fin a) (Fin b) = false <-> b <= a.
Proof. cbn. rewrite negb_false_iff. apply Qleb_le. Qed.

(** [min(x, 100)] of a positive value is positive and at most 100. *)
Lemma py_min_cap (x : cell) :
  cltb (Fin 0) x = true ->
  cltb (Fin 0) (py_min x (Fin 100)) = true /\ cleb (py_min x (Fin 100)) (Fin 100) = true.
Proof.
  intros Hx. unfold py_min. destruct (cltb (Fin 100) x) eqn:E.
  - split; reflexivity.
  - split; [exact Hx|]. destruct x as [q| | |]; try discriminate.
    apply cleb_fin. now apply cltb_fin_false in E.
Qed.

Lemma cabs_gt_pos (c : cell) (t : Q) :
  0 <= t -> cltb (Fin t) (cabs c) = true -> cltb (Fin 0) (cabs c) = true.
Proof.
  intros Ht. destruct c as [q| | |]; cbn [cabs]; try reflexivity; try discriminate.
  rewrite !cltb_fin. lra.
Qed.

Lemma cmul_pos (c : cell) (k : Q) :
  0 < k -> cltb (Fin 0) c = true -> cltb (Fin 0) (cmul c (Fin k)) = true.
Proof.
  intros Hk. destruct c as [q| | |]; try discriminate.
  - rewrite cltb_fin. intros Hq. cbn [cmul]. apply cltb_fin. nra.
  - intros _. cbn. destruct (k ?= 0) eqn:E; try reflexivity.
    + apply Qeq_alt in E. lra.
    + apply Qlt_alt in E. lra.
Qed.

Lemma cdiv_pos (c : cell) (k : Q) :
  0 < k -> cltb (Fin 0) c = true -> cltb (Fin 0) (cdiv c (Fin k)) = true.
Proof.
  intros Hk. destruct c as [q| | |]; try discriminate.
  - rewrite cltb_fin. intros Hq. cbn [cdiv].
    destruct (Qeq_bool k 0) eqn:E; [apply Qeq_bool_iff in E; lra|].
    apply cltb_fin. apply Qlt_shift_div_l; lra.
  - intros _. cbn. assert (Qltb k 0 = false) as -> by (apply Qltb_ge; lra). reflexivity.
Qed.

Lemma cltb_trans_fin (a b : Q) (c : cell) :
  a <= b -> cltb (Fin b) c = true -> cltb (Fin a) c = true.
Proof.
  intros Hab. destruct c as [q| | |]; try discriminate; try reflexivity.
  rewrite !cltb_fin. lra.
Qed.

Lemma csub_pos (k : Q) (c : cell) : cltb c (Fin k) = true -> cltb (Fin 0) (csub (Fin k) c) = true.
Proof.
  destruct c as [q| | |]; try discriminate; try reflexivity.
  rewrite cltb_fin. intros H. cbn. apply (cltb_fin 0 (k + - q)). lra.
Qed.

Lemma py_max_pos (x : cell) : cltb (Fin 0) x = true -> py_max (Fin 0) x = x.
Proof. intros H. unfold py_max. now rewrite H. Qed.

End CellProperties.

(** ** Risk factors, recommendations and trend *)

Section NarrativeProperties.
Import Frame RiskScoreModel RiskNarrative BudgetVarianceModel.
Local Open Scope Q_scope.

Lemma In_assoc_set {A} (x : string * A) k v l :
  In x (assoc_set k v l) -> x = (k, v) \/ In x l.
Proof.
  induction l as [|[k' v'] l IH]; cbn.
  - intros [<-|[]]. now left.
  - destruct (String.eqb k k') eqn:E; cbn.
    + apply String.eqb_eq in E. subst k'. intros [<-|H]; [now left | right; now right].
    + intros [<-|H]; [right; now left|]. destruct (IH H) as [->|H']; [now left | right; now right].
Qed.

Lemma In_factor_step (x : string * cell) (c : bool) k v l :
  In x (if c then assoc_set k v l else l) -> (c = true /\ x = (k, v)) \/ In x l.
Proof.
  destruct c; [|now right]. intros H. destruct (In_assoc_set _ _ _ _ H); [left|right]; auto.
Qed.

Lemma In_assoc_set_new {A} k (v : A) l : In (k, v) (assoc_set k v l).
Proof.
  induction l as [|[k' v'] l IH]; cbn; [now left|].
  destruct (String.eqb k k') eqn:E; cbn; [|now right].
  apply String.eqb_eq in E. subst k'. now left.
Qed.

Lemma In_assoc_set_other {A} (x : string * A) k v l :
  In x l -> fst x <> k -> In x (assoc_set k v l).
Proof.
  intros Hin Hne. induction l as [|[k' v'] l IH]; [contradiction|].
  cbn. destruct (String.eqb k k') eqn:E; cbn.
  - apply String.eqb_eq in E. subst k'. destruct Hin as [<-|Hin]; [now elim Hne | now right].
  - destruct Hin as [<-|Hin]; [now left | right; auto].
Qed.

Lemma In_factor_keep (x : string * cell) (c : bool) k v l :
  In x l -> fst x <> k -> In x (if c then assoc_set k v l else l).
Proof. intros. destruct c; [now apply In_assoc_set_other | assumption]. Qed.

Lemma np_max_cons (p : Q) (ps : list Q) : exists m, np_max (p :: ps) = Ok m.
Proof. eexists. reflexivity. Qed.

(** A score between 0 and 100 lies in the range of its own category,
    so the hybrid step returns it unchanged when the classifier predicts
    that category, whatever the class probabilities; and the centre of
    each category's range is mapped back to the category. *)
Theorem score_category_range_round_trip (s : Q) :
  0 <= s -> s <= 100 ->
  (fst (_category_to_score_range (_score_to_category s)) <= s
   /\ s <= snd (_category_to_score_range (_score_to_category s)))
  /\ (forall p ps, exists h,
        hybrid_score s (_score_to_category s) (p :: ps) = Ok h /\ h == s)
  /\ Forall (fun c => _score_to_category
                        ((fst (_category_to_score_range c) + snd (_category_to_score_range c)) / 2)
                      = c) risk_categories.
Proof.
  intros H0 H100.
  assert (fst (_category_to_score_range (_score_to_category s)) <= s
          /\ s <= snd (_category_to_score_range (_score_to_category s))) as Hin.
  { unfold _score_to_category.
    destruct (Qleb s 25) eqn:E1; [apply Qleb_le in E1; cbn; split; lra|].
    destruct (Qleb s 50) eqn:E2; [apply Qleb_le in E2; apply Qleb_gt in E1; cbn; split; lra|].
    destruct (Qleb s 75) eqn:E3; [apply Qleb_le in E3; apply Qleb_gt in E2; cbn; split; lra|].
    apply Qleb_gt in E3. cbn. split; lra. }
  split; [exact Hin|]. split.
  - intros p ps. unfold hybrid_score.
    destruct (np_max_cons p ps) as [m ->]. cbn [mbind result_bind].
    eexists. split; [reflexivity|].
    unfold blend.
    destruct (_category_to_score_range (_score_to_category s)) as [lo hi].
    cbn [fst snd] in Hin. destruct Hin as [Hlo Hhi].
    assert (Qltb s lo = false) as -> by (now apply Qltb_ge).
    assert (Qltb hi s = false) as -> by (now apply Qltb_ge).
    cbn [orb]. assert (np_clip s 0 100 == s) as Hclip.
    { unfold np_clip. rewrite Q.max_l by exact H0. now rewrite Q.min_l. }
    destruct (Qltb 0.8 m); exact Hclip.
  - repeat constructor.
Qed.

Lemma score_category_range_round_trip_witness :
  0 <= 40 /\ 40 <= 100
  /\ exists h, hybrid_score 40 (_score_to_category 40) [0.05; 0.9; 0.05] = Ok h /\ h == 40.
Proof.
  split; [lra|]. split; [lra|].
  apply (score_category_range_round_trip 40); lra.
Defined.

(** Every impact [_identify_risk_factors] records is positive and filed
    under one of the seven factor names; the five impacts computed with
    [min(..., 100)] are at most 100.  The other two are not capped: a
    team velocity [v] below 2 gives "team_performance" the impact
    [(2 - v) * 25], a satisfaction score [c] below 6 gives
    "client_satisfaction" the impact [(6 - c) * 20]. *)
Theorem risk_factor_impacts_bounded :
  (forall (project_features : features) (risk_score : Q) (name : string) (impact : cell),
      In (name, impact) (_identify_risk_factors project_features risk_score) ->
      In name factor_names
      /\ cltb (Fin 0) impact = true
      /\ (In name capped_factors -> cleb impact (Fin 100) = true))
  /\ (forall (project_features : features) (risk_score v : Q),
        assoc "team_velocity" project_features = Some (Fin v) -> v < 2 ->
        In ("team_performance", Fin ((2 + - v) * 25))
          (_identify_risk_factors project_features risk_score))
  /\ (forall (project_features : features) (risk_score c : Q),
        assoc "client_satisfaction_score" project_features = Some (Fin c) -> c < 6 ->
        In ("client_satisfaction", Fin ((6 + - c) * 20))
          (_identify_risk_factors project_features risk_score)).
Proof.
  split; [|split].
  - intros pf rs name impact H. unfold _identify_risk_factors in H.
    repeat (apply In_factor_step in H; destruct H as [[Hc Heq]|H]); [ | | | | | | | destruct H];
      injection Heq as -> ->; (split; [cbn; tauto|]).
    + assert (cltb (Fin 0) (cmul (feature pf "open_issues" 0) (Fin 8)) = true) as Hp.
      { apply cmul_pos; [lra|]. eapply cltb_trans_fin; [|exact Hc]. lra. }
      destruct (py_min_cap _ Hp). split; auto.
    + assert (cltb (Fin 0) (cmul (feature pf "external_issues" 0) (Fin 15)) = true) as Hp.
      { apply cmul_pos; [lra | exact Hc]. }
      destruct (py_min_cap _ Hp). split; auto.
    + split.
      * apply cmul_pos; [lra|]. apply csub_pos, Hc.
      * cbn. intros [H|[H|[H|[H|[H|[]]]]]]; discriminate.
    + assert (cltb (Fin 0) (cmul (csub (Fin 2) (feature pf "team_velocity" 0)) (Fin 25)) = true)
        as Hp by (apply cmul_pos; [lra|]; apply csub_pos, Hc).
      rewrite py_max_pos by exact Hp. split; [exact Hp|].
      cbn. intros [H|[H|[H|[H|[H|[]]]]]]; discriminate.
    + assert (cltb (Fin 0) (cmul (feature pf "bugs_found" 0) (Fin 5)) = true) as Hp.
      { apply cmul_pos; [lra|]. eapply cltb_trans_fin; [|exact Hc]. lra. }
      destruct (py_min_cap _ Hp). split; auto.
    + assert (cltb (Fin 0) (cabs (feature pf "cost_variance_percentage" 0)) = true) as Hp.
      { eapply cabs_gt_pos; [|exact Hc]. lra. }
      destruct (py_min_cap _ Hp). split; auto.
    + assert (cltb (Fin 0) (cmul (cdiv (cabs (feature pf "schedule_variance_days" 0)) (Fin 30))
                              (Fin 100)) = true) as Hp.
      { apply cmul_pos; [lra|]. apply cdiv_pos; [lra|]. eapply cabs_gt_pos; [|exact Hc]. lra. }
      destruct (py_min_cap _ Hp). split; auto.
  - intros pf rs v Hv Hlt. unfold _identify_risk_factors. cbv zeta.
    do 3 (apply In_factor_keep; [|discriminate]).
    assert (feature pf "team_velocity" 0 = Fin v) as -> by (unfold feature; now rewrite Hv).
    assert (cltb (Fin v) (Fin 2) = true) as Hc by (now apply cltb_fin).
    rewrite Hc.
    assert (cltb (Fin 0) (cmul (csub (Fin 2) (Fin v)) (Fin 25)) = true) as Hp
      by (apply cmul_pos; [lra|]; apply csub_pos, Hc).
    rewrite py_max_pos by exact Hp. apply In_assoc_set_new.
  - intros pf rs c Hc Hlt. unfold _identify_risk_factors. cbv zeta.
    do 2 (apply In_factor_keep; [|discriminate]).
    assert (feature pf "client_satisfaction_score" 5 = Fin c) as ->
      by (unfold feature; now rewrite Hc).
    assert (cltb (Fin c) (Fin 6) = true) as -> by (now apply cltb_fin).
    apply In_assoc_set_new.
Qed.

Lemma risk_factor_impacts_witness :
  In ("team_performance", Fin ((2 + - -4) * 25))
    (_identify_risk_factors [("team_velocity", Fin (-4))] 50)
  /\ cltb (Fin 0) (Fin ((2 + - -4) * 25)) = true.
Proof.
  assert (In ("team_performance", Fin ((2 + - -4) * 25))
            (_identify_risk_factors [("team_velocity", Fin (-4))] 50)) as H.
  { apply (proj1 (proj2 risk_factor_impacts_bounded)); [reflexivity | lra]. }
  split; [exact H|].
  exact (proj1 (proj2 (proj1 risk_factor_impacts_bounded _ _ _ _ H))).
Defined.

Lemma fold_left_app_concat {A B} (f : B -> list A) (l : list B) (acc : list A) :
  fold_left (fun recs x => recs ++ f x) l acc = acc ++ concat (map f l).
Proof.
  revert acc. induction l as [|x l IH]; intros acc; cbn.
  - now rewrite app_nil_r.
  - rewrite IH. now rewrite <- app_assoc.
Qed.

Lemma category_recommendations_length c : (List.length (category_recommendations c) <= 3)%nat.
Proof.
  unfold category_recommendations.
  repeat match goal with |- context [if ?b then _ else _] => destruct b end; cbn; lia.
Qed.

Lemma factor_recommendation_cases f i x :
  In x (factor_recommendation f i) ->
  cltb (Fin 50) i = true /\ factor_recommendation f i = [x].
Proof.
  unfold factor_recommendation. destruct (cltb (Fin 50) i); [|contradiction].
  intros H. split; [reflexivity|]. revert H.
  repeat match goal with |- context [if ?b then _ else _] => destruct b end;
    cbn; first [intros [<-|[]]; reflexivity | intros []].
Qed.

(** [_generate_risk_recommendations] returns between one and six
    recommendations.  They start with the recommendations of the risk
    category; every further one is either one of the two default
    recommendations or the recommendation of a recorded factor whose
    impact exceeds 50. *)
Theorem risk_recommendations_shape (risk_score : Q) (risk_category : string)
    (risk_factors : list (string * cell)) :
  let r := _generate_risk_recommendations risk_score risk_category risk_factors in
  (1 <= List.length r <= 6)%nat
  /\ exists rest,
       r = category_recommendations risk_category ++ rest
       /\ forall x, In x rest ->
            In x default_recommendations
            \/ exists factor impact,
                 In (factor, impact) risk_factors
                 /\ cltb (Fin 50) impact = true
                 /\ factor_recommendation factor impact = [x].
Proof.
  cbv zeta. unfold _generate_risk_recommendations. rewrite fold_left_app_concat.
  set (cat := category_recommendations risk_category).
  set (F := concat (map (fun fi => factor_recommendation (fst fi) (snd fi)) risk_factors)).
  assert (forall x, In x F -> exists factor impact,
             In (factor, impact) risk_factors /\ cltb (Fin 50) impact = true
             /\ factor_recommendation factor impact = [x]) as HF.
  { intros x Hx. unfold F in Hx. apply in_concat in Hx. destruct Hx as (l & Hl & Hx).
    apply in_map_iff in Hl. destruct Hl as ([f i] & <- & Hfi). cbn in Hx.
    destruct (factor_recommendation_cases _ _ _ Hx). eauto. }
  pose proof (category_recommendations_length risk_category) as Hlen. fold cat in Hlen.
  destruct (cat ++ F) as [|y l] eqn:E.
  - apply app_eq_nil in E. destruct E as [-> _]. split; [cbn; lia|].
    exists default_recommendations. split; [reflexivity|]. intros x Hx. now left.
  - rewrite <- E. split.
    + split.
      * rewrite E. cbn. lia.
      * apply firstn_le_length.
    + exists (firstn (6 - List.length cat) F). split.
      * rewrite firstn_app. rewrite firstn_all2 by lia. reflexivity.
      * intros x Hx. right. apply HF. revert Hx.
        generalize (6 - List.length cat)%nat. intros n Hx.
        rewrite <- (firstn_skipn n F). apply in_or_app. now left.
Qed.

Lemma feature_absent (pf : features) key d : assoc key pf = None -> feature pf key d = Fin d.
Proof. unfold feature. now intros ->. Qed.

(** A feature row that has none of the seven inputs gets the defaults:
    "team_performance" with impact 50 (velocity 0) and
    "client_satisfaction" with impact 20 (score 5) are its risk factors,
    its trend is "decreasing", and its recommendations are those of the
    category, or the two default ones when the category has none. *)
Theorem narrative_without_risk_inputs (project_features : features) (score : Q)
    (category : string) :
  Forall (fun key => assoc key project_features = None) risk_inputs ->
  let n := narrative project_features score category in
  (exists a b, risk_factors n = [("team_performance", Fin a); ("client_satisfaction", Fin b)]
               /\ a == 50 /\ b == 20)
  /\ trend n = "decreasing"
  /\ recommendations n = match category_recommendations category with
                         | [] => default_recommendations
                         | recs => recs
                         end.
Proof.
  intros H. unfold risk_inputs in H.
  repeat match type of H with
         | Forall _ (_ :: _) => apply Forall_cons_iff in H; destruct H as [? H]
         end.
  assert (_identify_risk_factors project_features score = _identify_risk_factors [] score) as Hf.
  { unfold _identify_risk_factors. rewrite !feature_absent by assumption. reflexivity. }
  cbv zeta. unfold narrative. rewrite Hf. cbn [risk_factors trend recommendations].
  split; [|split].
  - eexists _, _. split; [reflexivity|]. split; reflexivity.
  - reflexivity.
  - unfold _generate_risk_recommendations.
    change (_identify_risk_factors [] score) with
      [("team_performance", Fin ((2 + - 0) * 25)); ("client_satisfaction", Fin ((6 + - 5) * 20))].
    cbn [fold_left fst snd]. 
    assert (factor_recommendation "team_performance" (Fin ((2 + - 0) * 25)) = []) as -> by reflexivity.
    assert (factor_recommendation "client_satisfaction" (Fin ((6 + - 5) * 20)) = []) as -> by reflexivity.
    rewrite !app_nil_r.
    pose proof (category_recommendations_length category) as Hlen.
    destruct (category_recommendations category) as [|x l]; [reflexivity|].
    apply firstn_all2. lia.
Qed.

Lemma narrative_without_risk_inputs_witness :
  trend (narrative [("progress_percentage", Fin 40)] 30 "Medium") = "decreasing".
Proof.
  apply (narrative_without_risk_inputs [("progress_percentage", Fin 40)] 30 "Medium").
  repeat constructor.
Defined.

(** [_generate_budget_recommendations] returns between one and five
    recommendations.  For a predicted variance above 20 (in particular
    for every prediction of risk level "Critical") they are the three
    overrun recommendations followed by the first two cost-control ones,
    whatever the features: no feature-specific recommendation is
    returned. *)
Theorem budget_recommendations_capped (variance_pct : Q) (project_features : features) :
  let r := _generate_budget_recommendations variance_pct project_features in
  (1 <= List.length r <= 5)%nat
  /\ (20 < variance_pct ->
      r = overrun_recommendations ++ firstn 2 cost_control_recommendations)
  /\ (risk_level variance_pct = "Critical" -> 20 < variance_pct).
Proof.
  cbv zeta. split; [|split].
  - unfold _generate_budget_recommendations.
    destruct (Qltb 20 variance_pct), (Qltb 10 variance_pct);
      repeat match goal with |- context [cltb ?a ?b] => destruct (cltb a b) end;
      cbn; lia.
  - intros H. unfold _generate_budget_recommendations.
    assert (Qltb 20 variance_pct = true) as -> by (apply Qltb_lt; exact H).
    assert (Qltb 10 variance_pct = true) as -> by (apply Qltb_lt; lra).
    repeat match goal with |- context [cltb ?a ?b] => destruct (cltb a b) end; reflexivity.
  - unfold risk_level.
    destruct (Qleb variance_pct 5); [discriminate|].
    destruct (Qleb variance_pct 15); [discriminate|].
    destruct (Qleb variance_pct 30) eqn:E; [discriminate|].
    intros _. apply Qleb_gt in E. lra.
Qed.

Lemma budget_recommendations_capped_witness :
  _generate_budget_recommendations 35 [("external_dependencies", Fin 9)]
  = overrun_recommendations ++ firstn 2 cost_control_recommendations.
Proof.
  apply (proj1 (proj2 (budget_recommendations_capped 35 [("external_dependencies", Fin 9)]))).
  lra.
Defined.

End NarrativeProperties.

(** ** Aggregated feature importance *)

Section ImportanceProperties.
Import Frame FeatureImportance.
Local Open Scope Q_scope.

Lemma assoc_set_keys {A} k (v : A) l :
  map fst (assoc_set k v l) = (if mem_str k (map fst l) then map fst l else map fst l ++ [k]).
Proof.
  induction l as [|[k' v'] l IH]; [reflexivity|].
  cbn. destruct (String.eqb k k') eqn:E; cbn; [reflexivity|].
  rewrite IH. unfold mem_str. destruct (existsb (String.eqb k) (map fst l)); reflexivity.
Qed.

Lemma mem_str_In k l : mem_str k l = true <-> In k l.
Proof.
  unfold mem_str. rewrite existsb_exists. split.
  - intros (x & Hx & E). apply String.eqb_eq in E. now subst.
  - intros H. exists k. split; [exact H | apply String.eqb_refl].
Qed.

Lemma keyed_assoc_set {A} names k (v : A) l :
  In k names -> keyed names l -> keyed names (assoc_set k v l).
Proof.
  intros Hk [Hnd Hincl]. unfold keyed. rewrite (assoc_set_keys k v l).
  destruct (mem_str k (map fst l)) eqn:E; [split; assumption|].
  split.
  - apply NoDup_app. split; [exact Hnd|]. split; [|apply NoDup_singleton].
    intros x Hx Hx'. apply list_elem_of_In in Hx. apply list_elem_of_In in Hx'.
    destruct Hx' as [Hx'|[]]. symmetry in Hx'. subst x.
    apply mem_str_In in Hx. congruence.
  - intros x Hx. apply in_app_or in Hx. destruct Hx as [Hx|[<-|[]]]; auto.
Qed.

Lemma keyed_dict_zip names values : keyed names (dict_zip names values).
Proof.
  unfold dict_zip.
  assert (forall (kvs : list (string * Q)) acc,
             incl (map fst kvs) names -> keyed names acc ->
             keyed names (fold_left (fun d kv => assoc_set (fst kv) (snd kv) d) kvs acc)) as H.
  { induction kvs as [|[k v] kvs IH]; intros acc Hin Hacc; [exact Hacc|].
    cbn. apply IH.
    - intros x Hx. apply Hin. now right.
    - apply keyed_assoc_set; [apply Hin; now left | exact Hacc]. }
  apply H.
  - intros x Hx. apply in_map_iff in Hx. destruct Hx as ([k v] & <- & Hkv).
    apply in_combine_l in Hkv. exact Hkv.
  - split; [constructor | intros x []].
Qed.

Lemma keyed_add_weighted names w scores model :
  keyed names scores -> keyed names model -> keyed names (add_weighted w scores model).
Proof.
  intros Hs [_ Hm]. unfold add_weighted. revert scores Hs.
  induction model as [|[k v] model IH]; intros scores Hs; [exact Hs|].
  cbn. apply IH.
  - intros x Hx. apply Hm. now right.
  - apply keyed_assoc_set; [apply Hm; now left | exact Hs].
Qed.

Lemma keyed_models names models : forall acc,
  keyed names acc -> keyed names (fold_left (add_model names) models acc).
Proof.
  induction models as [|[vals w] models IH]; intros acc Hacc; [exact Hacc|].
  cbn. apply IH. unfold add_model. cbn. destruct vals as [values|]; [|exact Hacc].
  apply keyed_add_weighted; [exact Hacc | apply keyed_dict_zip].
Qed.

Lemma qsum_scaled (l : list (string * Q)) (t : Q) :
  qsum (map snd (map (fun kv => (fst kv, snd kv / t)) l)) == qsum (map snd l) / t.
Proof.
  induction l as [|[k v] l IH]; cbn [map qsum fold_right fst snd].
  - unfold Qdiv. ring.
  - change (fold_right Qplus 0 ?x) with (qsum x) in *. rewrite IH. unfold Qdiv. ring.
Qed.

Lemma normalize_sum l :
  qsum (map snd (normalize l)) == 1 \/ qsum (map snd (normalize l)) <= 0.
Proof.
  unfold normalize. destruct (Qltb 0 (qsum (map snd l))) eqn:E.
  - left. apply Qltb_lt in E. rewrite qsum_scaled. field. lra.
  - right. now apply Qltb_ge in E.
Qed.

Lemma normalize_keys l : map fst (normalize l) = map fst l.
Proof.
  unfold normalize. destruct (Qltb 0 (qsum (map snd l))); [|reflexivity].
  rewrite map_map. reflexivity.
Qed.

Lemma insert_desc_perm x l : Permutation (insert_desc x l) (x :: l).
Proof.
  induction l as [|y l IH]; cbn; [reflexivity|].
  destruct (Qleb (snd y) (snd x)); [reflexivity|].
  rewrite IH. apply perm_swap.
Qed.

Lemma sort_desc_perm l : Permutation (sort_desc l) l.
Proof.
  induction l as [|x l IH]; cbn; [reflexivity|].
  rewrite insert_desc_perm. now constructor.
Qed.

Lemma qsum_perm (l k : list Q) : Permutation l k -> qsum l == qsum k.
Proof.
  induction 1 as [|x l k _ IH|x y l|l k m _ IH1 _ IH2]; cbn [qsum fold_right].
  - reflexivity.
  - change (fold_right Qplus 0 ?x) with (qsum x) in *. now rewrite IH.
  - ring.
  - now rewrite IH1.
Qed.

Lemma non_increasing_insert x l :
  non_increasing (map snd l) -> non_increasing (map snd (insert_desc x l)).
Proof.
  induction l as [|y l IH]; cbn; [tauto|].
  intros [Hy Hl]. destruct (Qleb (snd y) (snd x)) eqn:E.
  - apply Qleb_le in E. cbn. tauto.
  - apply Qleb_gt in E. cbn. split; [|now apply IH].
    destruct l as [|z l]; cbn.
    + lra.
    + cbn in Hy. destruct (Qleb (snd z) (snd x)); cbn; [lra | exact Hy].
Qed.

Lemma sort_desc_sorted l : non_increasing (map snd (sort_desc l)).
Proof.
  induction l as [|x l IH]; cbn; [exact I|]. now apply non_increasing_insert.
Qed.

Lemma aggregate_ranking names models : normalized_ranking names (aggregate names models).
Proof.
  unfold aggregate, normalized_ranking.
  set (raw := fold_left (add_model names) models []).
  assert (keyed names raw) as [Hnd Hincl]
    by (apply keyed_models; split; [constructor | intros x []]).
  pose proof (sort_desc_perm (normalize raw)) as Hperm.
  assert (Permutation (map fst (sort_desc (normalize raw))) (map fst raw)) as Hkeys
    by (rewrite Hperm; now rewrite normalize_keys).
  split; [|split; [|split]].
  - rewrite Hkeys. exact Hnd.
  - intros x Hx. apply Hincl. eapply Permutation_in; [exact Hkeys | exact Hx].
  - apply sort_desc_sorted.
  - rewrite (qsum_perm _ (map snd (normalize raw))) by (now apply Permutation_map).
    apply normalize_sum.
Qed.

Lemma empty_ranking names : normalized_ranking names [].
Proof.
  split; [constructor|]. split; [intros x []|]. split; [exact I|]. right. cbn. lra.
Qed.


End ImportanceProperties.

(** ** Model versions *)

Section RegistryProperties.
Import Frame ModelVersionManager.
Variable Model Metadata : Type.
Let Manager : Type := ModelVersionManager Model Metadata.
Let Entry : Type := VersionEntry Metadata.

Lemma assoc_set_same {A} k (v : A) l : assoc k (assoc_set k v l) = Some v.
Proof.
  induction l as [|[k' v'] l IH]; cbn.
  - now rewrite String.eqb_refl.
  - destruct (String.eqb k k') eqn:E; cbn; rewrite E; [reflexivity | exact IH].
Qed.

Lemma assoc_set_other {A} k k' (v : A) l : k' <> k -> assoc k' (assoc_set k v l) = assoc k' l.
Proof.
  intros Hne. induction l as [|[k0 v0] l IH]; cbn.
  - apply String.eqb_neq in Hne. now rewrite Hne.
  - destruct (String.eqb k k0) eqn:E; cbn.
    + apply String.eqb_eq in E. subst k0. apply String.eqb_neq in Hne. now rewrite Hne.
    + destruct (String.eqb k' k0); [reflexivity | exact IH].
Qed.

Lemma register_model_versions now (self : Manager) name obj version md :
  assoc name (versions (register_model now self name obj version md))
  = Some (assoc_set version (mkInfo obj md now) (default [] (assoc name (versions self)))).
Proof.
  unfold register_model. cbn [versions]. rewrite assoc_set_same.
  destruct (assoc name (versions self)) as [of_model|] eqn:E.
  - now rewrite E.
  - now rewrite assoc_set_same.
Qed.

Lemma register_model_other now (self : Manager) name obj version md name' :
  name' <> name ->
  assoc name' (versions (register_model now self name obj version md))
  = assoc name' (versions self).
Proof.
  intros Hne. unfold register_model. cbn [versions]. rewrite assoc_set_other by exact Hne.
  destruct (assoc name (versions self)); [reflexivity | now apply assoc_set_other].
Qed.

(** A model registered under a version other than "latest" is what
    [get_model] returns for that name and version.  The registration
    changes nothing for any other model name, and every other version of
    the same model that could be retrieved still gives the same object. *)
Theorem register_then_get (now : Z) (self : Manager) (model_name : string) (model_object : Model)
    (version : string) (metadata : Metadata) :
  version <> "latest" ->
  let self' := register_model now self model_name model_object version metadata in
  get_model self' model_name version = Ok model_object
  /\ (forall other version', other <> model_name ->
        get_model self' other version' = get_model self other version')
  /\ (forall version' m, version' <> version -> version' <> "latest" ->
        get_model self model_name version' = Ok m ->
        get_model self' model_name version' = Ok m).
Proof.
  intros Hv. cbv zeta. split; [|split].
  - unfold get_model. rewrite register_model_versions.
    apply String.eqb_neq in Hv. rewrite Hv. cbn [mbind result_bind].
    now rewrite assoc_set_same.
  - intros other version' Hne. unfold get_model. now rewrite register_model_other.
  - intros version' m Hne Hl. unfold get_model. rewrite register_model_versions.
    apply String.eqb_neq in Hl. rewrite Hl.
    destruct (assoc model_name (versions self)) as [of_model|]; [|discriminate].
    cbn [mbind result_bind default]. now rewrite assoc_set_other.
Qed.

(** The fold of [max]: when every item but [e] has a key below [e]'s. *)
Lemma max_fold_unique {A} (key : A -> Z) (e : A) (rest : list A) : forall best,
  (best = e \/ (key best < key e)%Z) ->
  Forall (fun x => x = e \/ (key x < key e)%Z) rest ->
  (best = e \/ In e rest) ->
  fold_left (fun best y => if (key best <? key y)%Z then y else best) rest best = e.
Proof.
  induction rest as [|y rest IH]; intros best Hb Hall Hin; cbn.
  - destruct Hin as [H|[]]; exact H.
  - apply Forall_cons_iff in Hall. destruct Hall as [Hy Hall].
    apply IH; [| exact Hall |].
    + destruct (key best <? key y)%Z; assumption.
    + destruct (key best <? key y)%Z eqn:E.
      * destruct Hin as [->|[->|Hin]]; [|now left|now right].
        destruct Hy as [->|Hy]; [now left|]. apply Z.ltb_lt in E. lia.
      * destruct Hin as [->|[->|Hin]]; [now left| |now right].
        destruct Hb as [->|Hb]; [now left|]. apply Z.ltb_ge in E. lia.
Qed.

Lemma assoc_set_elements {A} k (v : A) l :
  exists k', String.eqb k k' = true /\ In (k', v) (assoc_set k v l)
             /\ Forall (fun x => x = (k', v) \/ In x l) (assoc_set k v l).
Proof.
  induction l as [|[k0 v0] l IH]; cbn.
  - exists k. split; [apply String.eqb_refl|]. split; [now left|].
    constructor; [now left | constructor].
  - destruct (String.eqb k k0) eqn:E.
    + exists k0. split; [exact E|]. split; [now left|].
      constructor; [now left|]. apply List.Forall_forall. intros x Hx. right. now right.
    + destruct IH as (k' & Hk & Hin & Hall). exists k'. split; [exact Hk|].
      split; [now right|]. constructor; [right; now left|].
      eapply List.Forall_impl; [|exact Hall]. cbn. intros x [->|Hx]; [now left | right; now right].
Qed.

(** When the clock at registration is later than the registration time
    of every version the model already has, [get_model(name, 'latest')]
    returns the object just registered. *)
Theorem latest_is_last_registered (now : Z) (self : Manager) (model_name : string)
    (model_object : Model) (version : string) (metadata : Metadata) :
  Forall (fun t => (t < now)%Z) (registration_times self model_name) ->
  get_model (register_model now self model_name model_object version metadata)
    model_name "latest" = Ok model_object.
Proof.
  intros Hold. unfold get_model. rewrite register_model_versions.
  change (String.eqb "latest" "latest") with true. cbv iota.
  set (of_model := default [] (assoc model_name (versions self))).
  set (new := mkInfo model_object metadata now).
  destruct (assoc_set_elements version new of_model) as (k' & Hk & Hin & Hall).
  apply String.eqb_eq in Hk. subst k'.
  assert (latest_version (assoc_set version new of_model) = Ok version) as ->.
  { unfold latest_version, py_max_by.
    destruct (assoc_set version new of_model) as [|x rest] eqn:E; [destruct Hin|].
    cbn [fmap result_fmap].
    rewrite (max_fold_unique (fun kv => registered_at (snd kv)) (version, new)); [reflexivity| | |].
    - apply Forall_cons_iff in Hall. destruct Hall as [[->|Hx] _]; [now left|].
      right. cbn. unfold registration_times in Hold. fold of_model in Hold.
      rewrite List.Forall_forall in Hold. apply Hold. apply in_map_iff. now exists x.
    - apply Forall_cons_iff in Hall. destruct Hall as [_ Hall].
      eapply List.Forall_impl; [|exact Hall]. cbn. intros y [->|Hy]; [now left|].
      right. unfold registration_times in Hold. fold of_model in Hold.
      rewrite List.Forall_forall in Hold. apply Hold. apply in_map_iff. now exists y.
    - destruct Hin as [->|Hin]; [now left | now right]. }
  cbn [mbind result_bind]. now rewrite assoc_set_same.
Qed.
Lemma insert_entry_perm (x : Entry) l : Permutation (insert_entry x l) (x :: l).
Proof.
  induction l as [|y l IH]; cbn; [reflexivity|].
  destruct (entry_registered_at y <=? entry_registered_at x)%Z; [reflexivity|].
  rewrite IH. apply perm_swap.
Qed.

Lemma sort_entries_perm (l : list Entry) : Permutation (sort_entries l) l.
Proof.
  induction l as [|x l IH]; cbn; [reflexivity|].
  rewrite insert_entry_perm. now constructor.
Qed.

Lemma insert_entry_newest_first (x : Entry) l :
  newest_first l -> newest_first (insert_entry x l).
Proof.
  induction l as [|y l IH]; cbn; [tauto|].
  intros [Hy Hl]. destruct (entry_registered_at y <=? entry_registered_at x)%Z eqn:E.
  - apply Z.leb_le in E. cbn. tauto.
  - apply Z.leb_gt in E. cbn. split; [|now apply IH].
    destruct l as [|z l]; cbn.
    + lia.
    + destruct (entry_registered_at z <=? entry_registered_at x)%Z; cbn; [lia | exact Hy].
Qed.

Lemma sort_entries_newest_first (l : list Entry) : newest_first (sort_entries l).
Proof.
  induction l as [|x l IH]; cbn; [exact I|]. now apply insert_entry_newest_first.
Qed.

Lemma max_fold_first_max {A} (key : A -> Z) (rest : list A) : forall best,
  fold_left (fun best y => if (key best <? key y)%Z then y else best) rest best
  = match first_max key rest with
    | None => best
    | Some y => if (key best <? key y)%Z then y else best
    end.
Proof.
  induction rest as [|y rest IH]; intros best; cbn; [reflexivity|].
  rewrite IH. destruct (first_max key rest) as [z|].
  - destruct (key best <? key y)%Z eqn:E1, (key z <=? key y)%Z eqn:E2;
      try rewrite E1; try reflexivity;
      repeat match goal with
             | |- context [(?a <? ?b)%Z] => destruct (Z.ltb_spec a b)
             | H : (_ <? _)%Z = _ |- _ => first [apply Z.ltb_lt in H | apply Z.ltb_ge in H]
             | H : (_ <=? _)%Z = _ |- _ => first [apply Z.leb_le in H | apply Z.leb_gt in H]
             end; try reflexivity; lia.
  - reflexivity.
Qed.

Lemma py_max_by_first_max {A} (key : A -> Z) (l : list A) :
  l <> [] -> exists x, first_max key l = Some x /\ py_max_by key l = Ok x.
Proof.
  destruct l as [|x rest]; [congruence|]. intros _.
  unfold py_max_by. rewrite max_fold_first_max. cbn [first_max].
  destruct (first_max key rest) as [y|]; [|eauto].
  destruct (Z.leb_spec (key y) (key x)), (Z.ltb_spec (key x) (key y)); eauto; lia.
Qed.

Lemma hd_sort_entries (l : list Entry) :
  hd_error (sort_entries l) = first_max entry_registered_at l.
Proof.
  induction l as [|x l IH]; [reflexivity|].
  cbn [sort_entries fold_right first_max]. fold (sort_entries l).
  rewrite <- IH. destruct (sort_entries l) as [|y l']; [reflexivity|].
  cbn. destruct (entry_registered_at y <=? entry_registered_at x)%Z; reflexivity.
Qed.

Lemma first_max_map {A B} (f : A -> B) (key : B -> Z) (l : list A) :
  first_max key (map f l) = f <$> first_max (fun a => key (f a)) l.
Proof.
  induction l as [|x l IH]; [reflexivity|]. cbn. rewrite IH.
  destruct (first_max (fun a => key (f a)) l) as [y|]; cbn; [|reflexivity].
  destruct (key (f y) <=? key (f x))%Z; reflexivity.
Qed.

(** [list_versions] lists every registered version of the model once,
    newest first; its first entry is the version that 'latest' resolves
    to. *)
Theorem list_versions_newest_first (self : Manager) (model_name : string) :
  newest_first (list_versions self model_name)
  /\ Permutation (map entry_version (list_versions self model_name))
       (map fst (default [] (assoc model_name (versions self))))
  /\ Permutation (map entry_registered_at (list_versions self model_name))
       (registration_times self model_name)
  /\ (forall of_model,
        assoc model_name (versions self) = Some of_model -> of_model <> [] ->
        exists e, hd_error (list_versions self model_name) = Some e
                  /\ latest_version of_model = Ok (entry_version e)).
Proof.
  unfold list_versions, registration_times.
  destruct (assoc model_name (versions self)) as [of_model|]; cbn [default].
  - split; [apply sort_entries_newest_first|]. split; [|split].
    + rewrite sort_entries_perm. now rewrite map_map.
    + rewrite sort_entries_perm. now rewrite map_map.
    + intros ? [= <-] Hne. rewrite hd_sort_entries, first_max_map. cbn.
      destruct (py_max_by_first_max (fun kv : string * VersionInfo Model Metadata =>
                                       registered_at (snd kv)) of_model Hne) as (x & Hx & Hmax).
      rewrite Hx. cbn. eexists. split; [reflexivity|].
      unfold latest_version. rewrite Hmax. reflexivity.
  - split; [exact I|]. split; [reflexivity|]. split; [reflexivity|]. discriminate.
Qed.
End RegistryProperties.

Section RegistryExamples.
Import Frame ModelVersionManager.

Lemma register_then_get_witness :
  get_model (register_model 300 Scenarios.registry "risk_score" "forest-c" "1.2.0" 95%nat)
    "risk_score" "1.2.0" = Ok "forest-c".
Proof.
  assert ("1.2.0" <> "latest") as H by discriminate.
  exact (proj1 (register_then_get string nat 300 Scenarios.registry "risk_score" "forest-c"
                  "1.2.0" 95%nat H)).
Defined.

Lemma latest_is_last_registered_witness :
  get_model (register_model 300 Scenarios.registry "risk_score" "forest-c" "1.0.0" 95%nat)
    "risk_score" "latest" = Ok "forest-c".
Proof.
  apply (latest_is_last_registered string nat 300 Scenarios.registry "risk_score" "forest-c"
           "1.0.0" 95%nat).
  repeat (constructor; [reflexivity|]). constructor.
Defined.

Lemma list_versions_witness :
  exists e, hd_error (list_versions Scenarios.registry "risk_score") = Some e
            /\ latest_version
                 [("1.0.0", mkInfo "forest-a" 50%nat 100%Z);
                  ("1.1.0", mkInfo "forest-b" 80%nat 200%Z)]
               = Ok (entry_version e).
Proof.
  apply (proj2 (proj2 (proj2 (list_versions_newest_first string nat Scenarios.registry
                                "risk_score")))).
  - reflexivity.
  - discriminate.
Defined.

End RegistryExamples.

(** ** Evaluation records *)

Section EvaluatorProperties.
Import Frame ModelEvaluator.

Lemma cleb_refl_nonnull c : isnull c = false -> cleb c c = true.
Proof. destruct c; cbn; try reflexivity; try discriminate. intros _. apply Qleb_le. apply Qle_refl. Qed.

Lemma cleb_trans a b c : cleb a b = true -> cleb b c = true -> cleb a c = true.
Proof.
  destruct a, b, c; cbn; try reflexivity; try discriminate.
  rewrite !Qleb_le. apply Qle_trans.
Qed.

Lemma cltb_false_cleb a b : isnull a = false -> isnull b = false -> cltb a b = false -> cleb b a = true.
Proof.
  destruct a, b; cbn; try reflexivity; try discriminate; intros _ _ H.
  now apply negb_false_iff in H.
Qed.

Lemma cltb_true_cleb a b : cltb a b = true -> cleb a b = true.
Proof.
  destruct a, b; cbn; try reflexivity; try discriminate.
  rewrite negb_true_iff. intros H. apply Qleb_gt in H. apply Qleb_le. now apply Qlt_le_weak.
Qed.

Lemma best_by_extremal (higher : bool) (items : list (EvaluationRecord cell * cell)) :
  forall best,
    isnull (snd best) = false ->
    Forall (fun rv => isnull (snd rv) = false) items ->
    exists r, best_by (if higher then float_gt else float_lt) best items = Ok r
              /\ In r (best :: items)
              /\ Forall (fun rv => at_least higher (snd r) (snd rv) = true) (best :: items).
Proof.
  induction items as [|item rest IH]; intros best Hb Hall.
  - exists best. split; [reflexivity|]. split; [now left|].
    constructor; [|constructor]. unfold at_least. destruct higher; now apply cleb_refl_nonnull.
  - apply Forall_cons_iff in Hall. destruct Hall as [Hi Hall].
    cbn [best_by].
    set (b := if higher then cltb (snd best) (snd item) else cltb (snd item) (snd best)).
    assert ((if higher then float_gt else float_lt) (snd item) (snd best) = Ok b) as ->
      by (destruct higher; reflexivity).
    cbn [mbind result_bind].
    destruct (IH (if b then item else best)) as (r & Hr & Hin & Hbest);
      [destruct b; assumption | exact Hall |].
    exists r. split; [exact Hr|]. split.
    + destruct Hin as [<-|Hin]; [destruct b; [right; now left | now left] | right; now right].
    + apply Forall_cons_iff in Hbest. destruct Hbest as [Hnew Hrest].
      assert (at_least higher (snd r) (snd best) = true
              /\ at_least higher (snd r) (snd item) = true) as [H1 H2].
      { unfold at_least in *. subst b. destruct higher.
        - destruct (cltb (snd best) (snd item)) eqn:E.
          + split; [|exact Hnew]. eapply cleb_trans; [|exact Hnew]. now apply cltb_true_cleb.
          + split; [exact Hnew|]. eapply cleb_trans; [|exact Hnew]. now apply cltb_false_cleb.
        - destruct (cltb (snd item) (snd best)) eqn:E.
          + split; [|exact Hnew]. eapply cleb_trans; [exact Hnew|]. now apply cltb_true_cleb.
          + split; [exact Hnew|]. eapply cleb_trans; [exact Hnew|]. now apply cltb_false_cleb. }
      constructor; [exact H1|]. constructor; [exact H2 | exact Hrest].
Qed.

Lemma candidates_In (history : list (EvaluationRecord cell)) metric etype r v :
  In (r, v) (candidates history metric etype)
  <-> In r history /\ evaluation_type r = etype /\ assoc metric (metrics r) = Some v.
Proof.
  unfold candidates. rewrite <- list_elem_of_In, list_elem_of_omap. split.
  - intros (x & Hx & H). apply list_elem_of_In in Hx.
    destruct (String.eqb (evaluation_type x) etype) eqn:E; [|discriminate].
    apply String.eqb_eq in E. destruct (assoc metric (metrics x)) as [w|] eqn:Ew; [|discriminate].
    cbn in H. injection H as <- <-. auto.
  - intros (Hin & Ht & Hv). exists r. split; [now apply list_elem_of_In|].
    apply String.eqb_eq in Ht. rewrite Ht, Hv. reflexivity.
Qed.

(** On float metrics none of which is NaN among the records compared,
    [get_best_model] returns a record of the requested evaluation type
    that has the metric, and no record of that type has a better value
    (a larger one when higher is better, a smaller one otherwise); it
    returns [None] exactly when no record of the type has the metric. *)
Theorem best_model_is_extremal (history : list (EvaluationRecord cell)) (metric etype : string)
    (higher_is_better : bool) :
  (forall r, In r history -> evaluation_type r = etype ->
             assoc metric (metrics r) <> Some NaN) ->
  match get_best_model float_gt float_lt history metric etype higher_is_better with
  | Ok None =>
      forall r, In r history -> evaluation_type r = etype -> assoc metric (metrics r) = None
  | Ok (Some best) =>
      exists v,
        In best history /\ evaluation_type best = etype
        /\ assoc metric (metrics best) = Some v
        /\ forall r w, In r history -> evaluation_type r = etype ->
                       assoc metric (metrics r) = Some w ->
                       at_least higher_is_better v w = true
  | Raise _ => False
  end.
Proof.
  intros Hnan. unfold get_best_model.
  assert (Forall (fun rv => isnull (snd rv) = false) (candidates history metric etype)) as Hall.
  { apply List.Forall_forall. intros [r v] H. apply candidates_In in H.
    destruct H as (Hin & Ht & Hv). cbn. destruct v; try reflexivity.
    elim (Hnan r Hin Ht Hv). }
  destruct (candidates history metric etype) as [|first rest] eqn:E.
  - intros r Hin Ht. destruct (assoc metric (metrics r)) as [v|] eqn:Ev; [|reflexivity].
    assert (In (r, v) (candidates history metric etype)) as H by (now apply candidates_In).
    rewrite E in H. destruct H.
  - apply Forall_cons_iff in Hall. destruct Hall as [Hf Hall].
    destruct (best_by_extremal higher_is_better rest first Hf Hall) as ([best v] & -> & Hin & Hbest).
    cbn [mbind result_bind fst]. exists v. rewrite <- E in Hin, Hbest.
    apply candidates_In in Hin. destruct Hin as (Hin & Ht & Hv).
    repeat (split; [assumption|]).
    intros r w Hr Hrt Hw.
    assert (In (r, w) (candidates history metric etype)) as H by (now apply candidates_In).
    rewrite List.Forall_forall in Hbest. apply (Hbest _ H).
Qed.

Lemma best_model_witness :
  match get_best_model float_gt float_lt Scenarios.evaluations "mae" "regression" false with
  | Ok None =>
      forall r, In r Scenarios.evaluations -> evaluation_type r = "regression" ->
                assoc "mae" (metrics r) = None
  | Ok (Some best) =>
      exists v,
        In best Scenarios.evaluations /\ evaluation_type best = "regression"
        /\ assoc "mae" (metrics best) = Some v
        /\ forall r w, In r Scenarios.evaluations -> evaluation_type r = "regression" ->
                       assoc "mae" (metrics r) = Some w ->
                       at_least false v w = true
  | Raise _ => False
  end.
Proof.
  apply (best_model_is_extremal Scenarios.evaluations "mae" "regression" false).
  intros r [<-|[<-|[<-|[]]]] _; discriminate.
Defined.

End EvaluatorProperties.

(** ** Validation, performance metrics and the dashboard *)

Section ReportProperties.
Import Frame ModelUtils Monitoring MonitoringReports.
Local Open Scope Q_scope.

Lemma recent_with_outcomes_none clock k history :
  Forall (fun r => actual_outcome r = None) history ->
  recent_with_outcomes clock k history = Ok ([], k).
Proof.
  induction 1 as [|r rest Hr _ IH]; cbn; [reflexivity|]. now rewrite Hr.
Qed.

(** [validate_models] counts only records that carry an actual
    outcome.  On a history without any it reports insufficient ground
    truth with sample size 0, and logging a prediction without outcome
    (as the prediction service does) keeps the history that way. *)
Theorem validate_models_needs_outcomes (np_sqrt : Q -> Q) (settings : Settings)
    (clock : nat -> datetime) (log_model_validation : string -> Validation -> result unit)
    (self : ModelMonitor) :
  Forall (fun r => actual_outcome r = None) (prediction_history self) ->
  validate_models np_sqrt settings clock log_model_validation self
  = Ok (InsufficientGroundTruth "Insufficient ground truth data for validation" 0)
  /\ forall now model_type project_id prediction features,
       Forall (fun r => actual_outcome r = None)
         (prediction_history
            (log_prediction now self model_type project_id prediction features None)).
Proof.
  intros H. split.
  - unfold validate_models. rewrite recent_with_outcomes_none by exact H. reflexivity.
  - intros. cbn. apply Forall_app. split; [exact H|]. repeat constructor.
Qed.

Lemma validate_models_needs_outcomes_witness :
  validate_models Scenarios.newton_sqrt default_settings (fun _ => Examples.now0)
    (fun _ _ => Ok tt) Examples.bare_monitor
  = Ok (InsufficientGroundTruth "Insufficient ground truth data for validation" 0).
Proof.
  apply (validate_models_needs_outcomes Scenarios.newton_sqrt default_settings
           (fun _ => Examples.now0) (fun _ _ => Ok tt) Examples.bare_monitor).
  vm_compute. repeat constructor.
Defined.

Lemma qsum_nonneg (l : list Q) : Forall (fun x => 0 <= x) l -> 0 <= qsum l.
Proof.
  induction 1 as [|x l Hx _ IH]; cbn; [lra|].
  change (fold_right Qplus 0 l) with (qsum l). lra.
Qed.

Lemma np_mean_nonneg (l : list Q) : Forall (fun x => 0 <= x) l -> 0 <= np_mean l.
Proof.
  intros H. unfold np_mean, qmean. apply qsum_nonneg in H.
  destruct l as [|x l]; [cbn; unfold Qdiv; cbn; lra|].
  apply Qle_shift_div_l; [|lra].
  change 0 with (inject_Z 0). rewrite <- Zlt_Qlt. cbn [List.length]. lia.
Qed.

Lemma zip_with_Forall {A B C} (f : A -> B -> C) (P : C -> Prop) l k :
  (forall a b, P (f a b)) -> Forall P (zip_with f l k).
Proof.
  intros H. revert k. induction l as [|a l IH]; intros [|b k]; cbn; constructor; auto.
Qed.

Lemma mean_absolute_error_nonneg y_true y_pred : 0 <= mean_absolute_error y_true y_pred.
Proof.
  apply np_mean_nonneg. apply zip_with_Forall. intros a b. apply Qabs_nonneg.
Qed.

Lemma as_floats_length regression values qs :
  as_floats regression values = Ok qs -> List.length qs = List.length values.
Proof.
  revert qs. induction values as [|v values IH]; intros qs H; cbn in H.
  - now injection H as <-.
  - destruct v as [q| |]; try (destruct regression; discriminate).
    bind_ok H. injection H as <-. cbn. f_equal. now apply IH.
Qed.

(** [_validate_single_model] reports insufficient data with sample size
    0 for any model type other than the three it knows, whatever the
    records.  When it validates a regression model, the errors are not
    negative, at least five pairs were compared, the improvement over the
    baseline is at most 1, an improvement below 0.1 adds the "minimal
    improvement" recommendation, and a baseline error of 0 (all outcomes
    equal) makes the improvement 0. *)
Theorem validation_of_a_regression_model (np_sqrt : Q -> Q) (settings : Settings) :
  (forall now model_type records,
      value_keys model_type = None ->
      _validate_single_model np_sqrt settings now model_type records = Ok (InsufficientData 0))
  /\ (forall now model_type records status mae rmse baseline_mae improvement sample_size recs date,
        _validate_single_model np_sqrt settings now model_type records
        = Ok (Validated model_type status
                (RegressionMetrics mae rmse baseline_mae improvement sample_size) recs date) ->
        0 <= mae /\ 0 <= baseline_mae /\ improvement <= 1 /\ (5 <= sample_size)%nat
        /\ (improvement < 0.1 -> In minimal_improvement recs)
        /\ (baseline_mae == 0 -> improvement == 0)).
Proof.
  split.
  - intros now model_type records Hk. unfold _validate_single_model.
    assert (paired_values model_type records = Ok []) as ->; [|reflexivity].
    induction records as [|r rest IH]; cbn; [reflexivity|]. now rewrite Hk.
  - intros now model_type records status mae rmse b imp n recs date H.
    unfold _validate_single_model in H. bind_ok H.
    destruct (List.length a <? 5)%nat eqn:Hlen; [discriminate|].
    apply Nat.ltb_ge in Hlen.
    bind_ok H. bind_ok H.
    destruct (String.eqb model_type "completion_time" || String.eqb model_type "budget_variance")
      eqn:Hreg; [|discriminate].
    cbv zeta in H. injection H as <- <- <- <- <- <- <-.
    set (mae := mean_absolute_error a1 a0).
    set (b := mean_absolute_error a1 (map (fun _ => np_mean a1) a1)).
    assert (0 <= mae) as Hmae by apply mean_absolute_error_nonneg.
    assert (0 <= b) as Hb by apply mean_absolute_error_nonneg.
    split; [exact Hmae|]. split; [exact Hb|]. split; [|split; [|split]].
    + destruct (Qltb 0 b) eqn:E; [|lra]. apply Qltb_lt in E.
      apply Qle_shift_div_r; [exact E | lra].
    + apply as_floats_length in Ha0. rewrite Ha0, length_map. exact Hlen.
    + intros Himp. unfold _generate_validation_recommendations. rewrite Hreg.
      cbn [improvement_of sample_size_of].
      assert (Qltb (if Qltb 0 b then (b - mae) / b else 0) 0.1 = true) as ->
        by (now apply Qltb_lt).
      destruct (_ <? 20)%nat; repeat (apply in_or_app; first [right; now left | left]).
    + intros Hz. destruct (Qltb 0 b) eqn:E; [|reflexivity]. apply Qltb_lt in E. lra.
Qed.

Lemma validation_of_a_regression_model_witness :
  exists status mae rmse baseline_mae improvement sample_size recs date,
    _validate_single_model Scenarios.newton_sqrt default_settings Examples.now0
      "completion_time" Scenarios.outcome_records
    = Ok (Validated "completion_time" status
            (RegressionMetrics mae rmse baseline_mae improvement sample_size) recs date)
    /\ improvement <= 1 /\ (5 <= sample_size)%nat.
Proof.
  assert (exists status mae rmse baseline_mae improvement sample_size recs date,
             _validate_single_model Scenarios.newton_sqrt default_settings Examples.now0
               "completion_time" Scenarios.outcome_records
             = Ok (Validated "completion_time" status
                     (RegressionMetrics mae rmse baseline_mae improvement sample_size)
                     recs date)) as (status & mae & rmse & b & imp & n & recs & date & E)
    by (repeat eexists; vm_compute; reflexivity).
  exists status, mae, rmse, b, imp, n, recs, date. split; [exact E|].
  pose proof (proj2 (validation_of_a_regression_model Scenarios.newton_sqrt default_settings)
                _ _ _ _ _ _ _ _ _ _ _ E) as H.
  tauto.
Defined.

Lemma sum_nat_app l k : sum_nat (l ++ k) = (sum_nat l + sum_nat k)%nat.
Proof. unfold sum_nat. induction l as [|x l IH]; cbn; [reflexivity|]. rewrite IH. lia. Qed.

Lemma group_weight_set_new {A} (w : A -> nat) key (l : list A) groups :
  assoc key groups = None ->
  group_weight w (assoc_set key l groups) = (group_weight w groups + sum_nat (map w l))%nat.
Proof.
  unfold group_weight, sum_nat. induction groups as [|[k v] groups IH]; cbn; [lia|].
  destruct (String.eqb key k); [discriminate|]. intros H. cbn.
  rewrite (IH H). lia.
Qed.

Lemma group_weight_set_old {A} (w : A -> nat) key (l l' : list A) groups :
  assoc key groups = Some l ->
  (group_weight w (assoc_set key l' groups) + sum_nat (map w l)
   = group_weight w groups + sum_nat (map w l'))%nat.
Proof.
  unfold group_weight, sum_nat. induction groups as [|[k v] groups IH]; cbn; [discriminate|].
  destruct (String.eqb key k).
  - intros [= ->]. cbn. lia.
  - intros H. cbn. specialize (IH H). lia.
Qed.

Lemma group_append_weight {A} (w : A -> nat) key (x : A) groups :
  group_weight w (group_append key x groups) = (group_weight w groups + w x)%nat.
Proof.
  unfold group_append. destruct (assoc key groups) as [l|] eqn:E.
  - pose proof (group_weight_set_old w key l (l ++ [x]) groups E) as H.
    rewrite map_app, sum_nat_app in H. unfold sum_nat at 3 in H. cbn in H. lia.
  - rewrite group_weight_set_new by exact E. unfold sum_nat. cbn. lia.
Qed.

Lemma group_by_weight {A} (w : A -> nat) (key : A -> string) (l : list A) :
  group_weight w (group_by key l) = sum_nat (map w l).
Proof.
  unfold group_by.
  assert (forall groups,
             group_weight w (fold_left (fun groups x => group_append (key x) x groups) l groups)
             = (group_weight w groups + sum_nat (map w l))%nat) as H.
  { induction l as [|x l IH]; intros groups; cbn [fold_left map]; [unfold sum_nat; cbn; lia|].
    rewrite IH, group_append_weight. unfold sum_nat. cbn. lia. }
  rewrite H. reflexivity.
Qed.

Lemma sum_nat_ones {A} (l : list A) : sum_nat (map (fun _ => 1%nat) l) = List.length l.
Proof. unfold sum_nat. induction l as [|x l IH]; cbn; [reflexivity|]. now rewrite IH. Qed.



Lemma counted_set_new key v stats :
  stats_get key stats = None ->
  counted (stats_set key v stats) = (counted stats + stat_predictions v)%nat.
Proof.
  unfold counted, sum_nat. induction stats as [|[k s] stats IH]; cbn; [lia|].
  destruct (day_key_eqb key k); [discriminate|]. intros H. cbn. rewrite (IH H). lia.
Qed.

Lemma counted_set_old key v s stats :
  stats_get key stats = Some s ->
  (counted (stats_set key v stats) + stat_predictions s
   = counted stats + stat_predictions v)%nat.
Proof.
  unfold counted, sum_nat. induction stats as [|[k s'] stats IH]; cbn; [discriminate|].
  destruct (day_key_eqb key k).
  - intros [= ->]. cbn. lia.
  - intros H. cbn. specialize (IH H). lia.
Qed.

Lemma stats_set_Forall (P : DayStats -> Prop) key v stats :
  P v -> Forall (fun ks => P (snd ks)) stats ->
  Forall (fun ks => P (snd ks)) (stats_set key v stats).
Proof.
  intros Hv. induction 1 as [|[k s] stats Hs Hall IH]; cbn.
  - constructor; [exact Hv | constructor].
  - destruct (day_key_eqb key k); constructor; cbn; auto.
Qed.

Lemma count_prediction_counted stats record :
  counted (count_prediction stats record) = S (counted stats).
Proof.
  unfold count_prediction.
  destruct (stats_get _ stats) as [s|] eqn:E; cbn [default from_option]; unfold id.
  - pose proof (counted_set_old _ (mkDayStats (stat_predictions s + 1) (stat_processing_time s))
                  s stats E) as H. cbn [stat_predictions] in H. lia.
  - rewrite counted_set_new by exact E. cbn [stat_predictions]. lia.
Qed.

Lemma add_processing_time_counted stats record :
  counted (add_processing_time stats record) = counted stats.
Proof.
  unfold add_processing_time.
  destruct (stats_get _ stats) as [s|] eqn:E; [|reflexivity].
  pose proof (counted_set_old _ (mkDayStats (stat_predictions s)
                                   (stat_processing_time s + processing_time_ms record))
                s stats E) as H. cbn [stat_predictions] in H. lia.
Qed.

Lemma stats_get_Forall (P : DayStats -> Prop) key s stats :
  Forall (fun ks => P (snd ks)) stats -> stats_get key stats = Some s -> P s.
Proof.
  induction 1 as [|[k s'] stats Hs _ IH]; cbn; [discriminate|].
  destruct (day_key_eqb key k); [now intros [= <-] | exact IH].
Qed.

(** In the dashboard data the per-day, per-model entries account for
    every recent prediction once: their prediction counts add up to
    [recent_predictions_count], each entry counts at least one prediction
    (so its average is a true quotient), and the count never exceeds the
    length of the history. *)
Theorem dashboard_days_partition_the_predictions (now : datetime) (self : ModelMonitor)
    (d : Dashboard) :
  get_monitoring_dashboard_data now self = Ok d ->
  sum_nat (map daily_predictions (daily_stats d)) = recent_predictions_count d
  /\ Forall (fun e => (1 <= daily_predictions e)%nat) (daily_stats d)
  /\ (recent_predictions_count d <= List.length (prediction_history self))%nat.
Proof.
  unfold get_monitoring_dashboard_data. intros H. bind_ok H. bind_ok H. injection H as <-.
  cbn [daily_stats recent_predictions_count].
  set (recent := List.filter _ (prediction_history self)).
  set (batches := List.filter _ (performance_history self)).
  assert (forall l stats,
             counted (fold_left count_prediction l stats) = (counted stats + List.length l)%nat
             /\ (Forall (fun ks => counts_something (snd ks)) stats ->
                 Forall (fun ks => counts_something (snd ks)) (fold_left count_prediction l stats)))
    as Hcount.
  { induction l as [|r l IH]; intros stats; cbn [fold_left List.length]; [split; [lia | auto]|].
    destruct (IH (count_prediction stats r)) as [Hc Hf]. split.
    - rewrite Hc, count_prediction_counted. lia.
    - intros Hs. apply Hf. unfold count_prediction.
      apply stats_set_Forall; [unfold counts_something; cbn; lia | exact Hs]. }
  assert (forall l stats,
             counted (fold_left add_processing_time l stats) = counted stats
             /\ (Forall (fun ks => counts_something (snd ks)) stats ->
                 Forall (fun ks => counts_something (snd ks))
                   (fold_left add_processing_time l stats)))
    as Htime.
  { induction l as [|r l IH]; intros stats; cbn [fold_left]; [split; auto|].
    destruct (IH (add_processing_time stats r)) as [Hc Hf]. split.
    - rewrite Hc. apply add_processing_time_counted.
    - intros Hs. apply Hf. unfold add_processing_time.
      destruct (stats_get _ stats) as [s|] eqn:E; [|exact Hs].
      apply stats_set_Forall; [|exact Hs].
      apply (stats_get_Forall counts_something _ _ _ Hs) in E. exact E. }
  destruct (Hcount recent []) as [Hc1 Hf1].
  destruct (Htime batches (fold_left count_prediction recent [])) as [Hc2 Hf2].
  split; [|split].
  - rewrite map_map.
    change (counted (fold_left add_processing_time batches (fold_left count_prediction recent []))
            = List.length recent).
    rewrite Hc2, Hc1. reflexivity.
  - apply Forall_map. cbn [daily_predictions].
    apply Hf2, Hf1. constructor.
  - apply filter_length_le.
Qed.

Lemma dashboard_witness :
  exists d,
    get_monitoring_dashboard_data Examples.now0 Scenarios.batch_monitor = Ok d
    /\ sum_nat (map daily_predictions (daily_stats d)) = recent_predictions_count d.
Proof.
  assert (exists d, get_monitoring_dashboard_data Examples.now0 Scenarios.batch_monitor = Ok d)
    as [d E] by (eexists; vm_compute; reflexivity).
  exists d. split; [exact E|].
  exact (proj1 (dashboard_days_partition_the_predictions _ _ _ E)).
Defined.

Lemma fold_min_le (l : list Q) : forall x,
  fold_left Qmin l x <= x /\ Forall (fun y => fold_left Qmin l x <= y) l.
Proof.
  induction l as [|y l IH]; intros x; cbn; [split; [lra | constructor]|].
  destruct (IH (Qmin x y)) as [H1 H2]. split.
  - eapply Qle_trans; [exact H1 | apply Q.le_min_l].
  - constructor; [eapply Qle_trans; [exact H1 | apply Q.le_min_r] | exact H2].
Qed.

Lemma fold_max_ge (l : list Q) : forall x,
  x <= fold_left Qmax l x /\ Forall (fun y => y <= fold_left Qmax l x) l.
Proof.
  induction l as [|y l IH]; intros x; cbn; [split; [lra | constructor]|].
  destruct (IH (Qmax x y)) as [H1 H2]. split.
  - eapply Qle_trans; [apply Q.le_max_l | exact H1].
  - constructor; [eapply Qle_trans; [apply Q.le_max_r | exact H1] | exact H2].
Qed.

Lemma qsum_bounds (lo hi : Q) (l : list Q) :
  Forall (fun y => lo <= y /\ y <= hi) l ->
  lo * inject_Z (Z.of_nat (List.length l)) <= qsum l
  /\ qsum l <= hi * inject_Z (Z.of_nat (List.length l)).
Proof.
  induction 1 as [|y l [Hlo Hhi] _ [IH1 IH2]].
  - change (lo * 0 <= 0 /\ 0 <= hi * 0). lra.
  - cbn [List.length qsum fold_right]. change (fold_right Qplus 0 l) with (qsum l).
    rewrite Nat2Z.inj_succ, <- Z.add_1_r, inject_Z_plus. change (inject_Z 1) with 1.
    split; nra.
Qed.

Lemma qmean_bounds (lo hi : Q) (l : list Q) :
  l <> [] -> Forall (fun y => lo <= y /\ y <= hi) l -> lo <= qmean l /\ qmean l <= hi.
Proof.
  intros Hne H. destruct (qsum_bounds lo hi l H) as [H1 H2]. unfold qmean.
  assert (0 < inject_Z (Z.of_nat (List.length l))) as Hpos.
  { change 0 with (inject_Z 0). rewrite <- Zlt_Qlt. destruct l; [congruence | cbn; lia]. }
  split; [apply Qle_shift_div_l | apply Qle_shift_div_r]; assumption.
Qed.

Lemma omap_length_le {A B} (f : A -> option B) (l : list A) :
  (List.length (omap f l) <= List.length l)%nat.
Proof.
  induction l as [|x l IH]; cbn; [lia|]. destruct (f x); cbn; lia.
Qed.


End ReportProperties.

(** ** Explanations and training targets *)

Section ServiceReportProperties.
Import Frame Monitoring PredictorService RiskNarrative ServiceReports.
Local Open Scope Q_scope.


Lemma assoc_set_fresh {A} k (v : A) l :
  ~ In k (map fst l) -> assoc_set k v l = l ++ [(k, v)].
Proof.
  induction l as [|[k' v'] l IH]; cbn; [reflexivity|].
  intros H. destruct (String.eqb k k') eqn:E.
  - apply String.eqb_eq in E. elim H. now left.
  - f_equal. apply IH. tauto.
Qed.

Lemma fold_assoc_set_distinct {A B} (f : string * A -> B) (l : list (string * A)) :
  forall acc,
    List.NoDup (map fst l) -> (forall k, In k (map fst l) -> ~ In k (map fst acc)) ->
    fold_left (fun d kv => assoc_set (fst kv) (f kv) d) l acc
    = acc ++ map (fun kv => (fst kv, f kv)) l.
Proof.
  induction l as [|[k v] l IH]; intros acc Hnd Hfresh; cbn; [now rewrite app_nil_r|].
  inversion Hnd as [|? ? Hk Hnd']; subst.
  rewrite assoc_set_fresh by (apply Hfresh; now left).
  rewrite IH; [now rewrite <- app_assoc | exact Hnd' |].
  intros k' Hk' Hin. rewrite map_app in Hin. apply in_app_or in Hin.
  destruct Hin as [Hin|[<-|[]]].
  - apply (Hfresh k'); [now right | exact Hin].
  - exact (Hk Hk').
Qed.

Lemma mock_shap_values_sum pred_value base_value feature_importance :
  List.NoDup (map fst feature_importance) ->
  qsum (map snd (mock_shap_values pred_value base_value feature_importance))
  == (pred_value - base_value) * qsum (map snd feature_importance).
Proof.
  intros Hnd. unfold mock_shap_values.
  rewrite (fold_assoc_set_distinct (fun fi => (pred_value - base_value) * snd fi))
    by (auto; intros k _ []).
  cbn [app]. rewrite map_map. cbn [snd].
  induction feature_importance as [|[k v] l IH]; cbn [map qsum fold_right snd].
  - ring.
  - inversion Hnd; subst. change (fold_right Qplus 0 ?x) with (qsum x).
    rewrite IH by assumption. ring.
Qed.


Section Explanation.
Variable State Features : Type.
Variable completion_importance budget_importance risk_importance : State -> list (string * Q).
Variable predict_completion_time predict_budget_variance predict_risk_score :
  list Z -> option Features -> Coroutine State.

End Explanation.


End ServiceReportProperties.

(** ** Missing values *)

Section MissingValueProperties.
Import Frame Features Columns.
Local Open Scope Q_scope.

Lemma insert_sorted_Forall (P : cell -> Prop) c l :
  P c -> List.Forall P l -> List.Forall P (insert_sorted c l).
Proof.
  intros Hc. induction 1 as [|d l Hd Hl IH]; cbn.
  - constructor; [exact Hc | constructor].
  - destruct (cleb c d); repeat constructor; auto.
Qed.

Lemma insert_sorted_length c l : List.length (insert_sorted c l) = S (List.length l).
Proof.
  induction l as [|d l IH]; cbn; [reflexivity|]. destruct (cleb c d); cbn; [reflexivity|].
  now rewrite IH.
Qed.

Lemma sort_cells_Forall (P : cell -> Prop) l : List.Forall P l -> List.Forall P (sort_cells l).
Proof.
  induction 1 as [|c l Hc _ IH]; cbn; [constructor|]. now apply insert_sorted_Forall.
Qed.

Lemma sort_cells_length l : List.length (sort_cells l) = List.length l.
Proof.
  induction l as [|c l IH]; cbn; [reflexivity|].
  unfold sort_cells in IH. now rewrite insert_sorted_length, IH.
Qed.

Lemma nth_finite (v : list cell) i :
  List.Forall (fun c => isfinite c = true) v -> (i < List.length v)%nat ->
  exists q, nth i v NaN = Fin q.
Proof.
  intros H Hi. rewrite List.Forall_forall in H.
  specialize (H (nth i v NaN) (nth_In v NaN Hi)).
  destruct (nth i v NaN); try discriminate. eauto.
Qed.

Lemma median_finite (s : list cell) :
  has_value s -> finite_or_missing s -> exists q, median s = Fin q.
Proof.
  intros (c & Hin & Hc) Hfin. unfold median.
  set (v := sort_cells (List.filter (fun c => negb (isnull c)) s)).
  assert (List.Forall (fun c => isfinite c = true) v) as Hv.
  { apply sort_cells_Forall. apply List.Forall_forall. intros d Hd.
    apply filter_In in Hd. destruct Hd as [Hd Hn].
    unfold finite_or_missing in Hfin. rewrite List.Forall_forall in Hfin.
    destruct (Hfin d Hd) as [H|H]; [|exact H]. rewrite H in Hn. discriminate. }
  assert (0 < List.length v)%nat as Hlen.
  { unfold v. rewrite sort_cells_length.
    assert (In c (List.filter (fun c => negb (isnull c)) s)) as H
      by (apply filter_In; split; [exact Hin | now rewrite Hc]).
    destruct (List.filter _ s); [destruct H | cbn; lia]. }
  destruct (List.length v) as [|n] eqn:En; [lia|]. rewrite <- En.
  assert (List.length v / 2 < List.length v)%nat as H2
    by (apply Nat.div_lt; lia).
  destruct (nth_finite v (List.length v / 2) Hv H2) as [q2 Hq2].
  destruct (Nat.even (List.length v)).
  - assert (List.length v / 2 - 1 < List.length v)%nat as H1 by lia.
    destruct (nth_finite v _ Hv H1) as [q1 Hq1]. rewrite Hq1, Hq2. cbn. eauto.
  - eauto.
Qed.

Lemma fillna_complete (v : cell) (s : list cell) : isnull v = false -> complete (fillna v s).
Proof.
  intros Hv. unfold complete, fillna. apply List.Forall_forall. intros c Hc.
  apply in_map_iff in Hc. destruct Hc as (d & <- & _). destruct (isnull d) eqn:E; auto.
Qed.

Lemma fillna_all_missing (s : list cell) : all_missing s -> fillna NaN s = s.
Proof.
  unfold fillna. induction 1 as [|c l Hc _ IH]; cbn; [reflexivity|].
  rewrite Hc, IH. destruct c; try discriminate. reflexivity.
Qed.

Lemma median_all_missing (s : list cell) : all_missing s -> median s = NaN.
Proof.
  intros H. unfold median.
  assert (List.filter (fun c => negb (isnull c)) s = []) as ->; [|reflexivity].
  induction H as [|c l Hc _ IH]; cbn; [reflexivity|]. now rewrite Hc.
Qed.

Lemma fill_numeric_column policy df name s' :
  In (name, NumCol s') (columns (fill_numeric policy df)) ->
  exists s, In (name, NumCol s) (columns df) /\ s' = fillna (policy name s) s.
Proof.
  unfold fill_numeric. cbn. intros H. apply in_map_iff in H.
  destruct H as ([n c] & Heq & Hin). destruct c as [s| |]; cbn in Heq; try discriminate.
  injection Heq as <- <-. eauto.
Qed.

Lemma median_fills (name : string) s : has_value s -> finite_or_missing s -> isnull (median s) = false.
Proof. intros H1 H2. destruct (median_finite s H1 H2) as [q ->]. reflexivity. Qed.

Lemma completion_policy_fills : fills CompletionTimeFeatureProcessor.fill_policy.
Proof.
  intros name s H1 H2. unfold CompletionTimeFeatureProcessor.fill_policy.
  repeat match goal with |- context [if ?b then _ else _] => destruct b end;
    first [reflexivity | now apply (median_fills name)].
Qed.

Lemma budget_policy_fills : fills BudgetVarianceFeatureProcessor.fill_policy.
Proof.
  intros name s H1 H2. unfold BudgetVarianceFeatureProcessor.fill_policy. cbv zeta.
  repeat match goal with |- context [if ?b then _ else _] => destruct b end;
    first [reflexivity | now apply (median_fills name)].
Qed.

Lemma risk_policy_fills : fills RiskScoreFeatureProcessor.fill_policy.
Proof.
  intros name s H1 H2. unfold RiskScoreFeatureProcessor.fill_policy. cbv zeta.
  repeat match goal with |- context [if ?b then _ else _] => destruct b end;
    first [reflexivity | now apply (median_fills name)].
Qed.

Lemma fill_numeric_complete policy df name s' :
  fills policy ->
  In (name, NumCol s') (columns (fill_numeric policy df)) ->
  exists s, In (name, NumCol s) (columns df)
            /\ List.length s' = List.length s
            /\ (has_value s -> finite_or_missing s -> complete s').
Proof.
  intros Hp H. destruct (fill_numeric_column _ _ _ _ H) as (s & Hin & ->).
  exists s. split; [exact Hin|]. split; [unfold fillna; apply length_map|].
  intros H1 H2. apply fillna_complete. now apply Hp.
Qed.



End MissingValueProperties.

(** ** The shape of a fallback explanation *)

Section FallbackStructure.
Import Frame ShapExplainer FallbackShape.
Local Open Scope Q_scope.

Lemma visit_features_labelled X i names : forall shaps contribs shaps' contribs',
  visit_features X i names shaps contribs = Ok (shaps', contribs') ->
  List.Forall labelled contribs -> List.Forall labelled contribs'.
Proof.
  induction names as [|name names IH]; intros shaps contribs shaps' contribs' H Hacc; cbn in H.
  - injection H as _ <-. exact Hacc.
  - destruct (assoc name (columns X)) as [c|] eqn:Hc; [|eapply IH; eassumption].
    destruct c as [s| |]; cbn in H; try discriminate.
    eapply IH; [exact H|].
    apply assoc_set_Forall; [reflexivity | exact Hacc].
Qed.

Lemma insert_by_abs_perm x l : Permutation (insert_by_abs x l) (x :: l).
Proof.
  induction l as [|y l IH]; cbn; [reflexivity|].
  destruct (cleb _ _); [reflexivity|]. rewrite IH. apply perm_swap.
Qed.

Lemma sort_by_abs_perm l : Permutation (sort_by_abs l) l.
Proof.
  induction l as [|x l IH]; cbn; [reflexivity|].
  rewrite insert_by_abs_perm. now constructor.
Qed.

Lemma disjoint_filters_length {A} (p q : A -> bool) (l : list A) :
  (forall x, p x = true -> q x = false) ->
  (List.length (List.filter p l) + List.length (List.filter q l) <= List.length l)%nat.
Proof.
  intros H. induction l as [|x l IH]; cbn; [lia|].
  destruct (p x) eqn:Ep; [rewrite (H x Ep); cbn; lia|].
  destruct (q x); cbn; lia.
Qed.

Lemma cltb_asym a b : cltb a b = true -> cltb b a = false.
Proof.
  destruct a, b; cbn; try reflexivity; try discriminate.
  rewrite negb_true_iff, negb_false_iff. intros H. apply Qleb_gt in H. apply Qleb_le.
  now apply Qlt_le_weak.
Qed.

Lemma visit_features_keys X i names : forall shaps contribs shaps' contribs',
  visit_features X i names shaps contribs = Ok (shaps', contribs') ->
  map fst contribs = map fst shaps -> map fst contribs' = map fst shaps'.
Proof.
  induction names as [|name names IH]; intros shaps contribs shaps' contribs' H Hacc; cbn in H.
  - injection H as <- <-. exact Hacc.
  - destruct (assoc name (columns X)) as [c|] eqn:Hc; [|eapply IH; eassumption].
    destruct c as [s| |]; cbn in H; try discriminate.
    eapply IH; [exact H|]. rewrite !assoc_set_keys, Hacc. reflexivity.
Qed.

Lemma explain_row_shaped X names i e : explain_row X names i = Ok e -> fallback_shaped e.
Proof.
  unfold explain_row. intros H. bind_ok H. destruct a as [shaps contribs]. injection H as <-.
  unfold fallback_shaped.
  cbn [feature_contributions shap_values top_positive_features top_negative_features].
  assert (List.Forall labelled (sort_by_abs contribs)) as Hlab.
  { rewrite (sort_by_abs_perm contribs).
    eapply visit_features_labelled; [exact Ha | constructor]. }
  assert (forall nc, In nc (firstn 5 (sort_by_abs contribs)) -> In nc (sort_by_abs contribs)) as Hsub.
  { intros nc Hnc. rewrite <- (firstn_skipn 5 (sort_by_abs contribs)). apply in_or_app. now left. }
  split; [|split; [exact Hlab|split; [|split]]].
  - rewrite (sort_by_abs_perm contribs).
    erewrite visit_features_keys; [reflexivity | exact Ha | reflexivity].
  - etransitivity; [apply disjoint_filters_length|apply firstn_le_length].
    intros nc Hp. now apply cltb_asym.
  - apply List.Forall_forall. intros nc Hnc. apply filter_In in Hnc. destruct Hnc as [Hnc Hp].
    change (cltb (Fin 0) (shap_value (snd nc)) = true) in Hp.
    apply Hsub in Hnc. split; [exact Hnc|]. split; [exact Hp|].
    rewrite List.Forall_forall in Hlab. rewrite (Hlab nc Hnc), Hp. reflexivity.
  - apply List.Forall_forall. intros nc Hnc. apply filter_In in Hnc. destruct Hnc as [Hnc Hp].
    change (cltb (shap_value (snd nc)) (Fin 0) = true) in Hp.
    apply Hsub in Hnc. split; [exact Hnc|]. split; [exact Hp|].
    rewrite List.Forall_forall in Hlab. rewrite (Hlab nc Hnc), (cltb_asym _ _ Hp). reflexivity.
Qed.

Lemma explain_rows_shaped X names rows : forall es,
  explain_rows X names rows = Ok es ->
  List.length es = List.length rows /\ List.Forall fallback_shaped es.
Proof.
  induction rows as [|i rows IH]; intros es H; cbn in H.
  - injection H as <-. split; [reflexivity | constructor].
  - bind_ok H. bind_ok H. injection H as <-. destruct (IH _ Ha0) as [Hl Hf].
    split; [cbn; now rewrite Hl|]. constructor; [|exact Hf].
    eapply explain_row_shaped; exact Ha.
Qed.

(** When the fallback returns, it has one explanation per row of the
    frame and is marked "Fallback".  In each explanation the
    contributions cover the features that got a mock value, every
    contribution is labelled "positive" exactly when its value is above
    0, and the top-positive and top-negative lists, drawn from the first
    five contributions, hold at most five entries together: positive
    values in the one, negative values in the other. *)
Theorem fallback_explanation_structure (self : SHAPExplainer) (X : DataFrame)
    (feature_names_arg : option (list string)) (r : Explanations) :
  _fallback_explanation self X feature_names_arg = Ok r ->
  explainer_type r = "Fallback"
  /\ List.length (explanations r) = nrows X
  /\ List.Forall fallback_shaped (explanations r).
Proof.
  unfold _fallback_explanation. intros H. bind_ok H. injection H as <-.
  cbn [explainer_type explanations].
  destruct (explain_rows_shaped _ _ _ _ Ha) as [Hl Hf].
  split; [reflexivity|]. split; [now rewrite Hl, length_seq | exact Hf].
Qed.

Lemma fallback_explanation_structure_witness :
  exists r,
    _fallback_explanation Examples.unfitted_explainer Examples.finished_project None = Ok r
    /\ List.length (explanations r) = nrows Examples.finished_project
    /\ List.Forall fallback_shaped (explanations r).
Proof.
  assert (exists r, _fallback_explanation Examples.unfitted_explainer Examples.finished_project
                      None = Ok r) as [r E] by (eexists; vm_compute; reflexivity).
  exists r. split; [exact E|].
  exact (proj2 (fallback_explanation_structure _ _ _ _ E)).
Defined.

End FallbackStructure.

(** ** Intervals of the normal approximation *)

Section ResidualIntervals.
Import Frame Features ModelUtils IntervalShape.
Local Open Scope Q_scope.

Lemma residual_intervals_centred ext self predictions lq uq ivs :
  _predict_residual_intervals ext self predictions lq uq = Ok ivs ->
  exists std, residual_std self = Some std
              /\ centred_with_margin (norm_ppf ext (1 - lq) * std) predictions ivs.
Proof.
  unfold _predict_residual_intervals. destruct (residual_std self) as [std|]; [|discriminate].
  intros [= <-]. exists std. split; [reflexivity|].
  unfold centred_with_margin. induction predictions as [|p ps IH]; cbn; constructor; auto.
Qed.

(** Without features, and unless the method is "bootstrap",
    [predict_intervals] returns one interval per prediction, each centred
    on its prediction, all with the same margin: the normal quantile of
    the level times the residual standard deviation of the fit. *)
Theorem normal_intervals_are_centred_and_equally_wide (ext : External)
    (self : ConfidenceIntervalEstimator) (predictions : list Q) (confidence_level : Q)
    (ivs : list Interval) :
  method self <> "bootstrap" ->
  predict_intervals ext self predictions None confidence_level = Ok ivs ->
  exists std,
    residual_std self = Some std
    /\ centred_with_margin (norm_ppf ext (1 - (1 - confidence_level) / 2) * std) predictions ivs
    /\ List.length ivs = List.length predictions.
Proof.
  intros Hm H. unfold predict_intervals in H.
  destruct (is_fitted self); [|discriminate]. cbn [negb] in H.
  apply String.eqb_neq in Hm. rewrite Hm in H.
  destruct (residual_intervals_centred _ _ _ _ _ _ H) as (std & Hs & Hc).
  exists std. split; [exact Hs|]. split; [exact Hc|].
  symmetry. eapply Forall2_length. exact Hc.
Qed.

Lemma normal_intervals_witness :
  exists ivs std,
    predict_intervals Examples.ext0 Scenarios.residual_estimator [20; 70] None 0.9 = Ok ivs
    /\ centred_with_margin (norm_ppf Examples.ext0 (1 - (1 - 0.9) / 2) * std) [20; 70] ivs.
Proof.
  destruct (predict_intervals Examples.ext0 Scenarios.residual_estimator [20; 70] None 0.9)
    as [ivs|e] eqn:E; [|vm_compute in E; discriminate E].
  assert (method Scenarios.residual_estimator <> "bootstrap") as Hm
    by (vm_compute; discriminate).
  destruct (normal_intervals_are_centred_and_equally_wide _ _ _ _ _ Hm E)
    as (std & _ & Hc & _).
  exists ivs, std. split; [reflexivity | exact Hc].
Defined.

End ResidualIntervals.

(** ** The completion-time predictor *)

Section CompletionPredictor.
Import Frame Features ModelUtils CompletionTimeModel.

(** [CompletionTimePredictor.predict] never returns on a frame that
    lacks the column [actual_start_date]; when the model is trained and
    its processor fitted, what it raises is the [AttributeError] of the
    feature engineering. *)
Theorem completion_predict_needs_start_date (sk : Sklearn) (ext : External) (now : Z)
    (self : CompletionTimePredictor sk) (X : DataFrame) (confidence_level : Q) :
  assoc "actual_start_date" (columns X) = None ->
  (exists e, predict ext now self X confidence_level = Raise e)
  /\ (is_Some (ensemble_model self) -> Features.is_fitted (feature_processor self) = true ->
      predict ext now self X confidence_level
      = Raise (AttributeError "'Timedelta' object has no attribute 'dt'")).
Proof.
  intros H. unfold predict. destruct (ensemble_model self) as [ensemble|].
  - unfold CompletionTimeFeatureProcessor.transform.
    destruct (Features.is_fitted (feature_processor self)); cbn [negb].
    + rewrite (completion_engineering_needs_start_date now X H). cbn. split; [eauto | reflexivity].
    + cbn. split; [eauto | discriminate].
  - split; [eauto|]. intros [? [=]].
Qed.

Lemma completion_predict_witness :
  predict Examples.ext0 Examples.start_clock Scenarios.completion_predictor
    Examples.undated_features 0.9
  = Raise (AttributeError "'Timedelta' object has no attribute 'dt'").
Proof.
  apply (proj2 (completion_predict_needs_start_date Examples.sk0 Examples.ext0
                  Examples.start_clock Scenarios.completion_predictor
                  Examples.undated_features 0.9 eq_refl)).
  - eexists. reflexivity.
  - vm_compute. reflexivity.
Defined.

End CompletionPredictor.

(** ** Correlated columns *)

Section CorrelationProperties.
Import Frame Features Columns.
Local Open Scope Q_scope.

Lemma correlated_with_earlier_In t cols : forall earlier name,
  In name (correlated_with_earlier t earlier cols)
  <-> exists before c after,
        cols = before ++ (name, c) :: after
        /\ correlates_with_one_of t (earlier ++ before) c = true.
Proof.
  induction cols as [|[n c] rest IH]; intros earlier name; cbn [correlated_with_earlier].
  - split; [intros [] | intros (before & c & after & H & _)]. now destruct before.
  - rewrite in_app_iff, IH. split.
    + intros [H|(before & c' & after & -> & Hc)].
      * fold (correlates_with_one_of t earlier c) in H.
        destruct (correlates_with_one_of t earlier c) eqn:E; [|destruct H].
        destruct H as [<-|[]]. exists [], c, rest. split; [reflexivity|].
        now rewrite app_nil_r.
      * exists ((n, c) :: before), c', after. split; [reflexivity|].
        now rewrite <- app_assoc in Hc.
    + intros (before & c' & after & Heq & Hc). destruct before as [|b before]; cbn in Heq.
      * injection Heq as -> -> ->. left. rewrite app_nil_r in Hc.
        fold (correlates_with_one_of t earlier c'). rewrite Hc. now left.
      * injection Heq as -> ->. right. exists before, c', after. split; [reflexivity|].
        now rewrite <- app_assoc.
Qed.

Lemma drop_columns_In names df kc :
  In kc (columns (drop_columns names df)) <-> In kc (columns df) /\ ~ In (fst kc) names.
Proof.
  unfold drop_columns. cbn [columns]. rewrite filter_In, negb_true_iff.
  split; intros [H1 H2]; (split; [exact H1|]).
  - intros Hin. apply mem_str_In in Hin. congruence.
  - destruct (mem_str (fst kc) names) eqn:E; [|reflexivity]. apply mem_str_In in E. tauto.
Qed.

Lemma filter_sublist {A} (f : A -> bool) (l : list A) : sublist (List.filter f l) l.
Proof.
  induction l as [|x l IH]; cbn; [constructor|]. destruct (f x); now constructor.
Qed.

Lemma NoDup_names_split (cols : list (string * column)) before name c after before' c' after' :
  NoDup (map fst cols) ->
  cols = before ++ (name, c) :: after -> cols = before' ++ (name, c') :: after' ->
  before = before' /\ c = c'.
Proof.
  intros Hnd -> H. revert before' H Hnd.
  induction before as [|b before IH]; intros [|b' before'] H Hnd; cbn in *.
  - injection H as <- _. auto.
  - injection H as <- ->. apply NoDup_cons in Hnd. destruct Hnd as [Hn _].
    elim Hn. apply list_elem_of_In. rewrite map_app. apply in_or_app. right. now left.
  - injection H as -> <-. apply NoDup_cons in Hnd. destruct Hnd as [Hn _].
    elim Hn. apply list_elem_of_In. rewrite map_app. apply in_or_app. right. now left.
  - injection H as -> H. apply NoDup_cons in Hnd. destruct Hnd as [_ Hnd].
    destruct (IH _ H Hnd) as [-> ->]. auto.
Qed.

Lemma remove_correlated_drops (t : Q) (df : DataFrame) :
  drops_correlated t df (remove_correlated t df).
Proof.
  unfold drops_correlated.
  assert (NoDup (column_names df) ->
          forall before name c after,
            columns df = before ++ (name, c) :: after ->
            (In (name, c) (columns (remove_correlated t df))
             <-> correlates_with_one_of t before c = false)) as Hchar.
  { intros Hnd before name c after Hsplit. unfold remove_correlated.
    rewrite drop_columns_In. cbn [fst]. rewrite correlated_with_earlier_In. cbn [app].
    split.
    - intros [_ Hnot]. destruct (correlates_with_one_of t before c) eqn:E; [|reflexivity].
      elim Hnot. eauto 6.
    - intros Hc. split; [rewrite Hsplit; apply in_or_app; right; now left|].
      intros (before' & c' & after' & Hsplit' & Hc').
      destruct (NoDup_names_split _ _ _ _ _ _ _ _ Hnd Hsplit Hsplit') as [-> ->]. congruence. }
  split; [reflexivity|]. split; [apply filter_sublist|]. split; [exact Hchar|].
  intros Hnd name c after Hsplit. apply (Hchar Hnd [] name c after Hsplit). reflexivity.
Qed.

(** [_remove_correlated_features] (thresholds 0.95, 0.92 and 0.90 for
    the three processors) keeps the index and the order of the columns.
    With distinct labels, a column is dropped exactly when its
    correlation with a column before it in the frame exceeds the
    threshold in absolute value, whether or not that earlier column is
    itself dropped; the first column is always kept. *)
Theorem correlated_columns_are_dropped_after_their_match (df : DataFrame) :
  drops_correlated 0.95 df (CompletionTimeFeatureProcessor._remove_correlated_features df)
  /\ drops_correlated 0.92 df (BudgetVarianceFeatureProcessor._remove_correlated_features df)
  /\ drops_correlated 0.90 df (RiskScoreFeatureProcessor._remove_correlated_features df).
Proof.
  split; [|split]; apply remove_correlated_drops.
Qed.

Lemma correlated_columns_witness :
  In ("daily_burn_rate", NumCol [Fin 1; Fin 2; Fin 3; Fin 4])
    (columns (BudgetVarianceFeatureProcessor._remove_correlated_features
                Examples.sparse_features)).
Proof.
  apply (proj2 (proj2 (proj2 (proj1 (proj2 (correlated_columns_are_dropped_after_their_match
                                              Examples.sparse_features))))))
    with (after := [("quality_score", NumCol [NaN; NaN; NaN; Fin 5])]).
  - repeat constructor; cbn; rewrite ?list_elem_of_In; cbn; intuition discriminate.
  - reflexivity.
Defined.

End CorrelationProperties.
